(** * The mia1321 image-sensor driver, embedded and verified

    Source: sysdrv/source/kernel/drivers/media/i2c/mia1321.c

    The driver is a V4L2 sub-device that talks to the sensor over I2C and to
    the kernel through the clock, GPIO, regulator, pinctrl, runtime-PM and
    V4L2-control frameworks.  The embedding below is shallow:

    - C integers are [Z] with the conversions written out ([u8], [u32],
      [s32]);
    - [struct mia1321] is a record, threaded through a state monad [M];
    - every call that leaves the driver (an I2C transfer, a delay, a GPIO
      write, ...) is appended to a log together with the value the kernel
      returned for it; that value comes from an environment [kernel_env]
      which may depend on everything that happened before;
    - numeric values of kernel ABI constants that the driver only names
      (errno values, enum members, media-bus codes, flag bits) are fields of
      the class [Kernel]; [linux] is the instance with the values of the
      Linux 5.10 headers.

    Logging ([dev_info], [dev_err], ...) has no effect on the driver's
    behaviour and is left out, and so is the mutex: the functions are
    modelled as they run in one thread holding it. *)

From Stdlib Require Import ZArith List Lia Bool String.
From stdpp Require Import base tactics option list.
Import ListNotations.
Local Open Scope Z_scope.

(** ** C integer conversions *)

Definition u8 (x : Z) : Z := x mod 2 ^ 8.
Definition u32 (x : Z) : Z := x mod 2 ^ 32.
(** Conversion to [int]: the value is reduced modulo 2^32 into
    [-2^31, 2^31).  The kernel is compiled with [-fno-strict-overflow], so
    [int] arithmetic wraps the same way. *)
Definition s32 (x : Z) : Z := (x + 2 ^ 31) mod 2 ^ 32 - 2 ^ 31.

(** [BIT(n)] of linux/bits.h. *)
Definition BIT (n : Z) : Z := Z.shiftl 1 n.

(** [DIV_ROUND_UP(n, d)] of linux/math.h: [((n) + (d) - 1) / (d)], here on
    [u32] operands. *)
Definition DIV_ROUND_UP (n d : Z) : Z := u32 (u32 (n + d - 1) / d).

(** [abs(x)] of linux/kernel.h.  The macro converts an unsigned argument to
    the signed type of the same width first ([signed int __x = (x);
    __x < 0 ? -__x : __x]); the result has type [int], and [-__x] wraps
    to [INT_MIN] for [__x = INT_MIN]. *)
Definition abs (x : Z) : Z :=
  let __x := s32 x in
  if __x <? 0 then s32 (- __x) else __x.

(** The [k]-th byte of [x], counted from the least significant one. *)
Definition byte_of (k : Z) (x : Z) : Z := Z.land (Z.shiftr x (8 * k)) 0xff.

(** [strscpy(dest, src, count)] of linux/string.h: at most [count - 1]
    characters of [src] end up in [dest]. *)
Definition strscpy (src : string) (count : nat) : string :=
  substring 0 (count - 1) src.

(** [cpu_to_be32]: the four bytes of a [u32] as they lie in memory. *)
Definition cpu_to_be32 (x : Z) : list Z :=
  [byte_of 3 x; byte_of 2 x; byte_of 1 x; byte_of 0 x].

(** [be32_to_cpu] on the four bytes of a [__be32]. *)
Definition be32_to_cpu (bs : list Z) : Z :=
  fold_left (fun acc b => acc * 256 + b) bs 0.

(** ** Kernel ABI constants

    None of these is defined in mia1321.c; the driver only names them. *)

Class Kernel := {
  (* include/uapi/asm-generic/errno-base.h, include/linux/errno.h *)
  EIO : Z;
  ENODEV : Z;
  EINVAL : Z;
  ENOTTY : Z;
  ENOIOCTLCMD : Z;
  (* enum rkmodule_hdr_mode, enum hdr_esp_mode (rk-camera-module.h) *)
  NO_HDR : Z;
  HDR_X3 : Z;
  HDR_NORMAL_VC : Z;
  (* include/uapi/linux/media-bus-format.h *)
  MEDIA_BUS_FMT_SGRBG10_1X10 : Z;
  MEDIA_BUS_FMT_SGRBG12_1X12 : Z;
  (* include/media/v4l2-mediabus.h *)
  V4L2_MBUS_CSI2_CHANNEL_0 : Z;
  V4L2_MBUS_CSI2_CHANNEL_1 : Z;
  V4L2_MBUS_CSI2_CHANNEL_2 : Z;
  V4L2_MBUS_CSI2_CONTINUOUS_CLOCK : Z;
  V4L2_MBUS_CSI2_DPHY : Z;
  (* include/uapi/linux/v4l2-subdev.h, videodev2.h *)
  V4L2_SUBDEV_FORMAT_TRY : Z;
  V4L2_FIELD_NONE : Z;
  (* rk-camera-module.h *)
  PAD0 : nat;
  PAD_MAX : nat;
  RKMODULE_NAME_LEN : nat;
  (* what the driver relies on *)
  errno_range :
    Forall (fun e => 0 < e < 4096) [EIO; ENODEV; EINVAL; ENOTTY; ENOIOCTLCMD];
  HDR_X3_not_NO_HDR : HDR_X3 <> NO_HDR;
  SGRBG12_not_SGRBG10 :
    MEDIA_BUS_FMT_SGRBG12_1X12 <> MEDIA_BUS_FMT_SGRBG10_1X10
}.

(** The values of the Linux 5.10 headers of the SDK. *)
#[refine] Instance linux : Kernel := {
  EIO := 5;
  ENODEV := 19;
  EINVAL := 22;
  ENOTTY := 25;
  ENOIOCTLCMD := 515;
  NO_HDR := 0;
  HDR_X3 := 6;
  HDR_NORMAL_VC := 0;
  MEDIA_BUS_FMT_SGRBG10_1X10 := 0x300a;
  MEDIA_BUS_FMT_SGRBG12_1X12 := 0x3011;
  V4L2_MBUS_CSI2_CHANNEL_0 := BIT 4;
  V4L2_MBUS_CSI2_CHANNEL_1 := BIT 5;
  V4L2_MBUS_CSI2_CHANNEL_2 := BIT 6;
  V4L2_MBUS_CSI2_CONTINUOUS_CLOCK := BIT 8;
  V4L2_MBUS_CSI2_DPHY := 5;
  V4L2_SUBDEV_FORMAT_TRY := 0;
  V4L2_FIELD_NONE := 1;
  PAD0 := 0;
  PAD_MAX := 4;
  RKMODULE_NAME_LEN := 32
}.
Proof.
  - repeat constructor; lia.
  - discriminate.
  - discriminate.
Defined.

(** ** The driver's own constants *)

Definition MIA1321_LANES : Z := 2.
Definition MIA1321_XVCLK_FREQ : Z := 26000000.

Definition CHIP_ID : Z := 0x0400.
Definition MIA1321_REG_CHIP_ID : Z := 0x0011.

Definition MIA1321_REG_CTRL_MODE : Z := 0x0126.
Definition MIA1321_MODE_SW_STANDBY : Z := BIT 0.
Definition MIA1321_MODE_STREAMING : Z := 0x0.

Definition MIA1321_REG_EXPOSURE_H : Z := 0x00cf.
Definition MIA1321_REG_EXPOSURE_M : Z := 0x00ce.
Definition MIA1321_REG_EXPOSURE_L : Z := 0x00cd.
Definition MIA1321_FETCH_EXP_H (VAL : Z) : Z := Z.land (Z.shiftr VAL 16) 0xFF.
Definition MIA1321_FETCH_EXP_M (VAL : Z) : Z := Z.land (Z.shiftr VAL 8) 0xFF.
Definition MIA1321_FETCH_EXP_L (VAL : Z) : Z := Z.land VAL 0xFF.

Definition MIA1321_REG_ANA_GAIN_H : Z := 0x001b.
Definition MIA1321_REG_ANA_GAIN_M : Z := 0x0019.
Definition MIA1321_REG_ANA_GAIN_L : Z := 0x0018.

Definition MIA1321_ONCE_GAIN_STEP : Z := 0x5dc.
Definition MIA1321_GAIN_MIN : Z := MIA1321_ONCE_GAIN_STEP.
Definition MIA1321_AGAIN_MAX : Z := MIA1321_ONCE_GAIN_STEP * 32.
Definition MIA1321_GAIN_MAX : Z := MIA1321_AGAIN_MAX * 1.

Definition MIA1321_VTS_MAX : Z := 0xffff.

Definition MIA1321_MIRROR_REG : Z := 0x009a.
Definition MIA1321_FLIP_REG : Z := 0x0099.
Definition MIRROR_BIT_MASK : Z := BIT 0.
Definition FLIP_BIT_MASK : Z := BIT 1.

Definition REG_DELAY : Z := 0xFFFE.
Definition REG_NULL : Z := 0xFFFF.

Definition MIA1321_REG_VALUE_08BIT : Z := 1.
Definition MIA1321_REG_VALUE_16BIT : Z := 2.
Definition MIA1321_REG_VALUE_24BIT : Z := 3.

Definition mia1321_supply_names : list string :=
  ["avdd"; "dovdd"; "dvdd"]%string.
Definition MIA1321_NUM_SUPPLIES : Z := Z.of_nat (length mia1321_supply_names).

(** ** Register tables *)

(** [struct regval]: [addr] is a [u16], [val] a [u8]. *)
Record regval := R { addr : Z; val : Z }.
Definition mia1321_global_regs : list regval :=
  [R REG_NULL 0x00].

Definition mia1321_linear_60_1280x1080_regs : list regval :=
  [R 0x011d 0x00; R 0x011f 0x00; R 0x012e 0x02; R 0x012b 0x01;
   R 0x00bd 0x00; R 0x00bc 0x01; R 0x00bf 0x00; R 0x00c0 0x00;
   R 0x00cd 0x01; R 0x00ce 0x01; R 0x00cf 0x00; R 0x00e1 0x00;
   R 0x011c 0x00; R 0x0120 0x00; R 0x0125 0x00; R 0x003c 0x01;
   R 0x003d 0x03; R 0x1201 0xf0; R 0x1051 0x1e; R 0x1202 0x70;
   R 0x1203 0x10; R 0x1070 0x02; R 0x1205 0x00; R 0x1208 0x01;
   R 0x1000 0x16; R 0x1024 0x00; R 0x1025 0x05; R 0x1026 0x38;
   R 0x1027 0x04; R 0x1020 0x2a; R 0x1042 0x03; R 0x0010 0x05;
   R 0x0012 0x01; R 0x0043 0x03; R 0x003f 0x3f; R 0x0041 0xff;
   R 0x009a 0x01; R 0x0099 0x01; R 0x00ca 0x01; R 0x00e1 0x00;
   R 0x00e2 0x00; R 0x0030 0xc0; R 0x012c 0x01; R 0x004a 0x01;
   R 0x004b 0x90; R 0x004c 0x03; R 0x004e 0x01; R 0x0051 0x03;
   R 0x0053 0x03; R 0x00d0 0x9a; R 0x00d1 0x02; R 0x00df 0x42;
   R 0x01c9 0x9a; R 0x01ca 0x02; R 0x0043 0x01; R 0x02fd 0x58;
   R 0x02fe 0x42; R 0x031f 0xb0; R 0x0320 0x04; R 0x0305 0x08;
   R 0x0306 0x87; R 0x0307 0xfc; R 0x0308 0x08; R 0x0317 0x80;
   R 0x0318 0x0c; R 0x030f 0xfa; R 0x0310 0x0f; R 0x02ff 0xfa;
   R 0x0300 0x8f; R 0x0309 0xfa; R 0x030a 0x8f; R 0x00ce 0x03;
   R 0x1000 0x06; R 0x1018 0x01; R 0x1018 0x00; R 0x012a 0x01;
   R 0x012a 0x00; R 0x00ce 0x00; R 0x00cd 0x01; R 0x012a 0x01;
   R 0x012a 0x00; R REG_NULL 0x00].

Definition mia1321_linear_120_1280x1080_regs : list regval :=
  [R 0x011d 0x00; R 0x011f 0x00; R 0x012e 0x02; R 0x012b 0x01;
   R 0x00bd 0x00; R 0x00bc 0x01; R 0x00bf 0x00; R 0x00c0 0x00;
   R 0x00cd 0x01; R 0x00ce 0x01; R 0x00cf 0x00; R 0x00e1 0x00;
   R 0x011c 0x00; R 0x0120 0x00; R 0x0125 0x00; R 0x003c 0x01;
   R 0x003d 0x03; R 0x1201 0xf0; R 0x1051 0x1e; R 0x1202 0x70;
   R 0x1203 0x10; R 0x1070 0x02; R 0x1205 0x00; R 0x1208 0x01;
   R 0x1000 0x16; R 0x1024 0x00; R 0x1025 0x05; R 0x1026 0x38;
   R 0x1027 0x04; R 0x1020 0x2a; R 0x1042 0x03; R 0x0010 0x05;
   R 0x0012 0x01; R 0x0043 0x03; R 0x003f 0x3f; R 0x0041 0xff;
   R 0x00ca 0x01; R 0x00e1 0x00; R 0x00e2 0x00; R 0x0030 0xc0;
   R 0x012c 0x01; R 0x004a 0x01; R 0x004b 0xd8; R 0x004c 0x02;
   R 0x004e 0x01; R 0x0051 0x02; R 0x0053 0x02; R 0x00d0 0x9a;
   R 0x00d1 0x02; R 0x00df 0x42; R 0x01c9 0x9a; R 0x01ca 0x02;
   R 0x0043 0x01; R 0x02fd 0x58; R 0x02fe 0x42; R 0x031f 0xb0;
   R 0x0320 0x04; R 0x0305 0x08; R 0x0306 0x87; R 0x0307 0xfc;
   R 0x0308 0x08; R 0x0317 0x80; R 0x0318 0x0c; R 0x030f 0xfa;
   R 0x0310 0x0f; R 0x02ff 0xfa; R 0x0300 0x8f; R 0x0309 0xfa;
   R 0x030a 0x8f; R 0x00ce 0x03; R 0x1000 0x06; R 0x1018 0x01;
   R 0x1018 0x00; R 0x012a 0x01; R 0x012a 0x00; R 0x00ce 0x00;
   R 0x00cd 0x01; R 0x012a 0x01; R 0x012a 0x00; R REG_NULL 0x00].

Definition mia1321_linear_10_1280x720_regs : list regval :=
  [R 0x011d 0x01; R 0x011f 0x00; R 0x012e 0x02; R 0x012b 0x01;
   R 0x00bd 0x00; R 0x00bc 0x01; R 0x00bf 0x05; R 0x00c0 0x00;
   R 0x00cd 0x01; R 0x00ce 0x01; R 0x00cf 0x00; R 0x00e1 0x00;
   R 0x011c 0x00; R 0x0120 0x00; R 0x0125 0x00; R 0x003c 0x01;
   R 0x003d 0x03; R 0x1201 0xf0; R 0x1051 0x1e; R 0x1202 0x70;
   R 0x1203 0x10; R 0x1070 0x02; R 0x1205 0x00; R 0x1208 0x01;
   R 0x1000 0x16; R 0x1024 0x00; R 0x1025 0x05; R 0x1026 0x38;
   R 0x1027 0x04; R 0x1020 0x2a; R 0x1042 0x03; R 0x0010 0x05;
   R 0x0012 0x01; R 0x0043 0x03; R 0x003f 0x3f; R 0x0041 0xff;
   R 0x00ca 0x01; R 0x00e1 0x00; R 0x00e2 0x00; R 0x0030 0xc0;
   R 0x012c 0x01; R 0x004a 0x01; R 0x004b 0x60; R 0x00d0 0x9a;
   R 0x00d1 0x02; R 0x00df 0x42; R 0x01c9 0x9a; R 0x01ca 0x02;
   R 0x0043 0x01; R 0x02fd 0x58; R 0x02fe 0x42; R 0x031f 0xb0;
   R 0x0320 0x04; R 0x0305 0x08; R 0x0306 0x87; R 0x0307 0xfc;
   R 0x0308 0x08; R 0x0317 0x80; R 0x0318 0x0c; R 0x030f 0xfa;
   R 0x0310 0x0f; R 0x02ff 0xfa; R 0x0300 0x8f; R 0x0309 0xfa;
   R 0x030a 0x8f; R 0x00ce 0x03; R 0x1000 0x06; R 0x1018 0x01;
   R 0x1018 0x00; R 0x012a 0x01; R 0x012a 0x00; R 0x00ce 0x00;
   R 0x00cd 0x01; R 0x012a 0x01; R 0x012a 0x00; R REG_NULL 0x00].

(** [struct s_again]: one row of the analogue-gain table. *)
Record s_again := G { again : Z; reg_0018 : Z; reg_0019 : Z; reg_001b : Z }.

Definition mia1321_again : list s_again :=
  [G 800 0x0 0x0 0x1f; G 1000 0x4 0x0 0x1f; G 1250 0x9 0x0 0x1f;
   G 1500 0xE 0x0 0x1f; G 1750 0x13 0x0 0x2b; G 2200 0x1C 0x0 0x2b;
   G 2450 0x21 0x0 0x2b; G 2700 0x26 0x0 0x2b; G 2950 0x2B 0x0 0x2b;
   G 3400 0x34 0x0 0x30; G 3650 0x39 0x0 0x30; G 3900 0x3E 0x0 0x30;
   G 4150 0x43 0x0 0x30; G 4600 0x4C 0x0 0x30; G 4850 0x51 0x0 0x30;
   G 5100 0x56 0x0 0x30; G 5350 0x5B 0x0 0x30; G 5800 0x64 0x0 0x30;
   G 6050 0x69 0x0 0x30; G 6300 0x6E 0x0 0x30; G 6550 0x73 0x0 0x32;
   G 7000 0x7c 0x0 0x32; G 7800 0xbe 0x0 0x32; G 8800 0xc8 0x0 0x32;
   G 9800 0xd2 0x0 0x32; G 10800 0xdc 0x0 0x32; G 12600 0xee 0x0 0x32;
   G 13600 0xf8 0x0 0x32; G 14600 0x39 0x1 0x32; G 15600 0x3E 0x1 0x32;
   G 17400 0x47 0x1 0x32; G 18400 0x4C 0x1 0x32; G 19400 0x51 0x1 0x32;
   G 20400 0x56 0x1 0x32; G 22200 0x5F 0x1 0x32; G 23200 0x64 0x1 0x32;
   G 24200 0x69 0x1 0x32; G 25200 0x6E 0x1 0x32; G 25600 0x70 0x1 0x32].

(** ** Data structures *)

Record v4l2_fract := { numerator : Z; denominator : Z }.

(** [struct mia1321_mode]. *)
Record mia1321_mode := {
  bus_fmt : Z;
  width : Z;
  height : Z;
  max_fps : v4l2_fract;
  hts_def : Z;
  vts_def : Z;
  exp_def : Z;
  reg_list : list regval;
  hdr_mode : Z;
  vc : list Z
}.

(** The fields of [struct v4l2_mbus_framefmt] the driver touches. *)
Record v4l2_mbus_framefmt := {
  fmt_width : Z;
  fmt_height : Z;
  fmt_code : Z;
  fmt_field : Z
}.

Record v4l2_subdev_format := {
  which : Z;
  pad : Z;
  format : v4l2_mbus_framefmt
}.

Record v4l2_subdev_frame_size_enum := {
  fse_index : Z;
  fse_code : Z;
  min_width : Z;
  max_width : Z;
  min_height : Z;
  max_height : Z
}.

Record v4l2_mbus_config := { cfg_type : Z; cfg_flags : Z }.

Record rkmodule_hdr_cfg := { cfg_hdr_mode : Z; cfg_esp_mode : Z }.

Record rkmodule_inf := {
  inf_sensor : string;
  inf_module : string;
  inf_lens : string
}.

(** The range of a [struct v4l2_ctrl], as the driver reads it. *)
Record v4l2_ctrl := {
  minimum : Z;
  maximum : Z;
  step : Z;
  default_value : Z
}.

(** [struct mia1321].  Pointers that may hold an error value are kept as the
    outcome of the test the driver applies to them. *)
Record mia1321 := {
  reset_gpio_IS_ERR : bool;
  pwdn_gpio_IS_ERR : bool;
  supplies : list string;
  pins_default_IS_ERR_OR_NULL : bool;
  pins_sleep_IS_ERR_OR_NULL : bool;
  exposure : v4l2_ctrl;
  streaming : bool;
  power_on : bool;
  cur_mode : mia1321_mode;
  cur_fps : v4l2_fract;
  module_name : string;
  len_name : string;
  cur_vts : Z;
  is_thunderboot : bool;
  is_first_streamoff : bool;
  is_mirror : bool;
  is_flip : bool
}.

Definition set_cur_mode (m : mia1321_mode) (d : mia1321) : mia1321 :=
  {| reset_gpio_IS_ERR := reset_gpio_IS_ERR d;
     pwdn_gpio_IS_ERR := pwdn_gpio_IS_ERR d;
     supplies := supplies d;
     pins_default_IS_ERR_OR_NULL := pins_default_IS_ERR_OR_NULL d;
     pins_sleep_IS_ERR_OR_NULL := pins_sleep_IS_ERR_OR_NULL d;
     exposure := exposure d;
     streaming := streaming d;
     power_on := power_on d;
     cur_mode := m;
     cur_fps := cur_fps d;
     module_name := module_name d;
     len_name := len_name d;
     cur_vts := cur_vts d;
     is_thunderboot := is_thunderboot d;
     is_first_streamoff := is_first_streamoff d;
     is_mirror := is_mirror d;
     is_flip := is_flip d |}.

Definition set_cur_fps (f : v4l2_fract) (d : mia1321) : mia1321 :=
  {| reset_gpio_IS_ERR := reset_gpio_IS_ERR d;
     pwdn_gpio_IS_ERR := pwdn_gpio_IS_ERR d;
     supplies := supplies d;
     pins_default_IS_ERR_OR_NULL := pins_default_IS_ERR_OR_NULL d;
     pins_sleep_IS_ERR_OR_NULL := pins_sleep_IS_ERR_OR_NULL d;
     exposure := exposure d;
     streaming := streaming d;
     power_on := power_on d;
     cur_mode := cur_mode d;
     cur_fps := f;
     module_name := module_name d;
     len_name := len_name d;
     cur_vts := cur_vts d;
     is_thunderboot := is_thunderboot d;
     is_first_streamoff := is_first_streamoff d;
     is_mirror := is_mirror d;
     is_flip := is_flip d |}.

Definition set_cur_vts (v : Z) (d : mia1321) : mia1321 :=
  {| reset_gpio_IS_ERR := reset_gpio_IS_ERR d;
     pwdn_gpio_IS_ERR := pwdn_gpio_IS_ERR d;
     supplies := supplies d;
     pins_default_IS_ERR_OR_NULL := pins_default_IS_ERR_OR_NULL d;
     pins_sleep_IS_ERR_OR_NULL := pins_sleep_IS_ERR_OR_NULL d;
     exposure := exposure d;
     streaming := streaming d;
     power_on := power_on d;
     cur_mode := cur_mode d;
     cur_fps := cur_fps d;
     module_name := module_name d;
     len_name := len_name d;
     cur_vts := v;
     is_thunderboot := is_thunderboot d;
     is_first_streamoff := is_first_streamoff d;
     is_mirror := is_mirror d;
     is_flip := is_flip d |}.

Definition set_orientation (flip mirror : bool) (d : mia1321) : mia1321 :=
  {| reset_gpio_IS_ERR := reset_gpio_IS_ERR d;
     pwdn_gpio_IS_ERR := pwdn_gpio_IS_ERR d;
     supplies := supplies d;
     pins_default_IS_ERR_OR_NULL := pins_default_IS_ERR_OR_NULL d;
     pins_sleep_IS_ERR_OR_NULL := pins_sleep_IS_ERR_OR_NULL d;
     exposure := exposure d;
     streaming := streaming d;
     power_on := power_on d;
     cur_mode := cur_mode d;
     cur_fps := cur_fps d;
     module_name := module_name d;
     len_name := len_name d;
     cur_vts := cur_vts d;
     is_thunderboot := is_thunderboot d;
     is_first_streamoff := is_first_streamoff d;
     is_mirror := mirror;
     is_flip := flip |}.

(** ** Calls that leave the driver *)

Inductive gpio := reset_gpio | pwdn_gpio.
Inductive pin_state := pins_default | pins_sleep.
Inductive ctrl_ref := ctrl_exposure | ctrl_hblank | ctrl_vblank.

Inductive call :=
  (* i2c_master_send(client, buf, count) *)
  | i2c_master_send (buf : list Z) (count : Z)
  (* i2c_transfer of the two messages of mia1321_read_reg: the register
     address, big-endian, then a read of [len] bytes *)
  | i2c_transfer (reg_addr_be : list Z) (len : Z)
  | mdelay (ms : Z)
  | usleep_range (min max : Z)
  | pinctrl_select_state (s : pin_state)
  | clk_set_rate (rate : Z)
  | clk_get_rate
  | clk_prepare_enable
  | clk_disable_unprepare
  | gpiod_set_value_cansleep (g : gpio) (value : Z)
  | regulator_bulk_enable (num : Z) (consumers : list string)
  | pm_runtime_get_if_in_use
  | pm_runtime_put
  | __v4l2_ctrl_modify_range (c : ctrl_ref) (min max step def : Z)
  (* *v4l2_subdev_get_try_format(sd, cfg, pad) = format *)
  | v4l2_subdev_set_try_format (pad : Z) (f : v4l2_mbus_framefmt).

(** What the kernel hands back: the return value and, for a read, the bytes
    that were put into the buffer. *)
Record reply := Reply { rv : Z; rdata : list Z }.

Abbreviation event := (call * reply)%type.

(** The kernel and the hardware behind it: the reply to a call, given all
    that happened so far. *)
Definition kernel_env : Type := list event -> call -> reply.

Record world := World { dev : mia1321; log : list event }.

(** ** The state monad of the driver *)

Definition M (A : Type) : Type := world -> A * world.

#[global] Instance M_ret : MRet M := fun A a w => (a, w).
#[global] Instance M_bind : MBind M :=
  fun A B f m w => let '(a, w') := m w in f a w'.

Definition get_dev : M mia1321 := fun w => (dev w, w).
Definition modify_dev (f : mia1321 -> mia1321) : M unit :=
  fun w => (tt, World (f (dev w)) (log w)).
Definition when (b : bool) (m : M unit) : M unit :=
  if b then m else mret tt.

(** The V4L2 control identifiers [mia1321_set_ctrl] switches on; any other
    identifier takes the [default] branch. *)
Inductive ctrl_id :=
  | V4L2_CID_EXPOSURE
  | V4L2_CID_ANALOGUE_GAIN
  | V4L2_CID_VBLANK
  | V4L2_CID_TEST_PATTERN
  | V4L2_CID_HFLIP
  | V4L2_CID_VFLIP
  | V4L2_CID_other (id : Z).

(** The commands [mia1321_ioctl] switches on, each with the object its
    [arg] points to. *)
Inductive ioctl_request :=
  | RKMODULE_GET_MODULE_INFO (inf : rkmodule_inf)
  | RKMODULE_GET_HDR_CFG (hdr : rkmodule_hdr_cfg)
  | RKMODULE_SET_HDR_CFG (hdr : rkmodule_hdr_cfg)
  | PREISP_CMD_SET_HDRAE_EXP
  | RKMODULE_SET_QUICK_STREAM (stream : Z)
  | ioctl_other (cmd : Z).

(** ** The driver *)

Section Driver.

Context {K : Kernel}.
(** Whether the kernel is built with [CONFIG_VIDEO_V4L2_SUBDEV_API]. *)
Variable CONFIG_VIDEO_V4L2_SUBDEV_API : bool.
Variable env : kernel_env.
(** [__v4l2_ctrl_handler_setup(&mia1321->ctrl_handler)]: kernel code that
    calls back into the driver for each control; nothing is assumed about
    what it does to the device state or to the log. *)
Variable __v4l2_ctrl_handler_setup : M Z.

(** A call into the kernel: ask [env], log the call and its reply. *)
Definition kcall (c : call) : M reply :=
  fun w =>
    let r := env (log w) c in
    (r, World (dev w) (log w ++ [(c, r)])).

(** The same for a callee returning [int]. *)
Definition kcall_int (c : call) : M Z :=
  r ← kcall c; mret (s32 (rv r)).

Definition kcall_void (c : call) : M unit :=
  _ ← kcall c; mret tt.

Definition supported_modes : list mia1321_mode :=
  [ {| width := 1280;
       height := 1080;
       max_fps := {| numerator := 10000; denominator := 600000 |};
       exp_def := 0x01f4;
       hts_def := 0x0a68;
       vts_def := 0x04b0;
       bus_fmt := MEDIA_BUS_FMT_SGRBG10_1X10;
       reg_list := mia1321_linear_60_1280x1080_regs;
       hdr_mode := NO_HDR;
       vc := <[PAD0 := V4L2_MBUS_CSI2_CHANNEL_0]> (replicate PAD_MAX 0) |};
    {| width := 1280;
       height := 1080;
       max_fps := {| numerator := 10000; denominator := 1170000 |};
       exp_def := 0x01f4;
       hts_def := 0x0a68;
       vts_def := 0x04b0;
       bus_fmt := MEDIA_BUS_FMT_SGRBG10_1X10;
       reg_list := mia1321_linear_120_1280x1080_regs;
       hdr_mode := NO_HDR;
       vc := <[PAD0 := V4L2_MBUS_CSI2_CHANNEL_0]> (replicate PAD_MAX 0) |};
    {| width := 1280;
       height := 1080;
       max_fps := {| numerator := 10000; denominator := 300000 |};
       exp_def := 0x0052;
       hts_def := 0x0a68;
       vts_def := 0x04b0;
       bus_fmt := MEDIA_BUS_FMT_SGRBG12_1X12;
       reg_list := mia1321_linear_10_1280x720_regs;
       hdr_mode := NO_HDR;
       vc := <[PAD0 := V4L2_MBUS_CSI2_CHANNEL_0]> (replicate PAD_MAX 0) |} ].

(** [ARRAY_SIZE(x)]. *)
Definition ARRAY_SIZE {A} (x : list A) : Z := Z.of_nat (length x).

(** [&supported_modes[i]]; the driver only indexes within the array. *)
Definition supported_modes_at (i : Z) : mia1321_mode :=
  nth (Z.to_nat i) supported_modes
    {| bus_fmt := 0; width := 0; height := 0;
       max_fps := {| numerator := 0; denominator := 0 |};
       hts_def := 0; vts_def := 0; exp_def := 0; reg_list := [];
       hdr_mode := 0; vc := [] |}.

(** *** Register access *)

(** Write registers up to 4 at a time. *)
Definition mia1321_write_reg (reg len val : Z) : M Z :=
  if 4 <? len then mret (- EINVAL)
  else
    let buf :=
      [u8 (Z.shiftr reg 8); Z.land reg 0xff]
        ++ drop (Z.to_nat (4 - len)) (cpu_to_be32 val) in
    sent ← kcall_int (i2c_master_send buf (len + 2));
    if negb (u32 sent =? len + 2) then mret (- EIO)
    else mret 0.

(** The loop of [mia1321_write_array],
    [for (i = 0; ret == 0 && regs[i].addr != REG_NULL; i++)], on the entries
    from index [i] on.  [None] stands for a read past the end of an array
    that has no [REG_NULL] entry. *)
Fixpoint mia1321_write_array (regs : list regval) : M (option Z) :=
  match regs with
  | [] => mret None
  | r :: regs' =>
      if negb (addr r =? REG_NULL) then
        if addr r =? REG_DELAY then
          _ ← kcall (mdelay (val r));
          mia1321_write_array regs'
        else
          ret ← mia1321_write_reg (addr r) MIA1321_REG_VALUE_08BIT (val r);
          if ret =? 0 then mia1321_write_array regs'
          else mret (Some ret)
      else mret (Some 0)
  end.

(** Read registers up to 4 at a time.  The second component of the result is
    [*val] after the call. *)
Definition mia1321_read_reg (reg len : Z) (val : Z) : M (Z * Z) :=
  if (4 <? len) || (len =? 0) then mret (- EINVAL, val)
  else
    r ← kcall (i2c_transfer [byte_of 1 reg; byte_of 0 reg] len);
    if negb (s32 (rv r) =? 2) then mret (- EIO, val)
    else
      let n := Z.to_nat len in
      let data_be :=
        replicate (4 - n) 0 ++ take n (map u8 (rdata r) ++ replicate n 0) in
      mret (0, be32_to_cpu data_be).

Definition mia1321_set_orientation_reg (en_flip_mir : Z) : M unit :=
  let go (flip mirror : bool) (vflip vmirror : Z) : M unit :=
    _ ← modify_dev (set_orientation flip mirror);
    _ ← mia1321_write_reg MIA1321_FLIP_REG MIA1321_REG_VALUE_08BIT vflip;
    _ ← mia1321_write_reg MIA1321_MIRROR_REG MIA1321_REG_VALUE_08BIT vmirror;
    mret tt in
  if en_flip_mir =? 0 then go false false 0x00 0x00
  else if en_flip_mir =? 1 then go false true 0x00 0x01
  else if en_flip_mir =? 2 then go true false 0x01 0x00
  else if en_flip_mir =? 3 then go true true 0x01 0x01
  else go false false 0x00 0x00.

(** *** Analogue gain *)

(** The [while] loop of [mia1321_set_gain_reg] on the rows from [i] on;
    [regs] holds [(gain_0x001b, gain_0x0019, gain_0x0018)] as initialised
    before the loop. *)
Fixpoint mia1321_again_loop (tbl : list s_again) (gain : Z) (regs : Z * Z * Z)
  : Z * Z * Z :=
  match tbl with
  | [] => regs
  | e :: tbl' =>
      if gain <=? again e then
        (u8 (reg_001b e), u8 (reg_0019 e), u8 (reg_0018 e))
      else if MIA1321_GAIN_MAX - 1 <=? gain then
        (0x32, 1, 0x70)
      else mia1321_again_loop tbl' gain regs
  end.

Definition mia1321_set_gain_reg (gain : Z) : M Z :=
  let ret := 0 in
  let gain := if gain <=? MIA1321_GAIN_MIN then MIA1321_GAIN_MIN else gain in
  let gain :=
    if MIA1321_GAIN_MAX - 1 <? gain then MIA1321_GAIN_MAX - 1 else gain in
  let '(gain_0x001b, gain_0x0019, gain_0x0018) :=
    mia1321_again_loop mia1321_again gain (0x1f, 0x00, 0x00) in
  r ← mia1321_write_reg MIA1321_REG_ANA_GAIN_H MIA1321_REG_VALUE_08BIT
        gain_0x001b;
  let ret := Z.lor ret r in
  r ← mia1321_write_reg MIA1321_REG_ANA_GAIN_M MIA1321_REG_VALUE_08BIT
        gain_0x0019;
  let ret := Z.lor ret r in
  r ← mia1321_write_reg MIA1321_REG_ANA_GAIN_L MIA1321_REG_VALUE_08BIT
        gain_0x0018;
  let ret := Z.lor ret r in
  mret ret.

(** *** Formats *)

Definition mia1321_get_reso_dist (mode : mia1321_mode)
    (framefmt : v4l2_mbus_framefmt) : Z :=
  s32 (abs (u32 (width mode - fmt_width framefmt))
       + abs (u32 (height mode - fmt_height framefmt))).

(** The [for] loop of [mia1321_find_best_fit] on the modes from index [i]
    on; the result is [cur_best_fit] at the end. *)
Fixpoint mia1321_find_best_fit_loop (modes : list mia1321_mode) (i : Z)
    (framefmt : v4l2_mbus_framefmt) (cur_best_fit cur_best_fit_dist : Z) : Z :=
  match modes with
  | [] => cur_best_fit
  | mode :: modes' =>
      let dist := mia1321_get_reso_dist mode framefmt in
      if (cur_best_fit_dist =? -1) || (dist <? cur_best_fit_dist) then
        mia1321_find_best_fit_loop modes' (i + 1) framefmt (s32 i) dist
      else
        mia1321_find_best_fit_loop modes' (i + 1) framefmt
          cur_best_fit cur_best_fit_dist
  end.

Definition mia1321_find_best_fit (fmt : v4l2_subdev_format) : mia1321_mode :=
  supported_modes_at
    (mia1321_find_best_fit_loop supported_modes 0 (format fmt) 0 (-1)).

(** The second component of the result is [*fmt] after the call. *)
Definition mia1321_set_fmt (fmt : v4l2_subdev_format)
  : M (Z * v4l2_subdev_format) :=
  let mode := mia1321_find_best_fit fmt in
  let fmt :=
    {| which := which fmt;
       pad := pad fmt;
       format := {| fmt_code := bus_fmt mode;
                    fmt_width := width mode;
                    fmt_height := height mode;
                    fmt_field := V4L2_FIELD_NONE |} |} in
  if which fmt =? V4L2_SUBDEV_FORMAT_TRY then
    if CONFIG_VIDEO_V4L2_SUBDEV_API then
      _ ← kcall (v4l2_subdev_set_try_format (pad fmt) (format fmt));
      mret (0, fmt)
    else mret (- ENOTTY, fmt)
  else
    _ ← modify_dev (set_cur_mode mode);
    let h_blank := u32 (hts_def mode - width mode) in
    _ ← kcall (__v4l2_ctrl_modify_range ctrl_hblank h_blank h_blank 1 h_blank);
    let vblank_def := u32 (vts_def mode - height mode) in
    _ ← kcall (__v4l2_ctrl_modify_range ctrl_vblank vblank_def
                 (u32 (MIA1321_VTS_MAX - height mode)) 1 vblank_def);
    _ ← modify_dev (set_cur_fps (max_fps mode));
    mret (0, fmt).

(** The second component of the result is [*fse] after the call. *)
Definition mia1321_enum_frame_sizes (fse : v4l2_subdev_frame_size_enum)
  : Z * v4l2_subdev_frame_size_enum :=
  if ARRAY_SIZE supported_modes <=? fse_index fse then (- EINVAL, fse)
  else if negb (fse_code fse =? bus_fmt (supported_modes_at 0)) then
    (- EINVAL, fse)
  else
    (0, {| fse_index := fse_index fse;
           fse_code := fse_code fse;
           min_width := width (supported_modes_at (fse_index fse));
           max_width := width (supported_modes_at (fse_index fse));
           max_height := height (supported_modes_at (fse_index fse));
           min_height := height (supported_modes_at (fse_index fse)) |}).

(** The body of the function is commented out in the source. *)
Definition mia1321_enable_test_pattern (pattern : Z) : M Z :=
  let ret := 0 in
  mret ret.

(** The second component of the result is [*config] after the call. *)
Definition mia1321_g_mbus_config (pad_id : Z) (config : v4l2_mbus_config)
  : M (Z * v4l2_mbus_config) :=
  d ← get_dev;
  let mode := cur_mode d in
  let val :=
    Z.lor (Z.lor (Z.shiftl 1 (MIA1321_LANES - 1)) V4L2_MBUS_CSI2_CHANNEL_0)
      V4L2_MBUS_CSI2_CONTINUOUS_CLOCK in
  let val :=
    if negb (hdr_mode mode =? NO_HDR) then Z.lor val V4L2_MBUS_CSI2_CHANNEL_1
    else val in
  let val :=
    if hdr_mode mode =? HDR_X3 then Z.lor val V4L2_MBUS_CSI2_CHANNEL_2
    else val in
  mret (0, {| cfg_type := V4L2_MBUS_CSI2_DPHY; cfg_flags := val |}).

(** *** ioctl *)

Definition mia1321_get_module_inf (d : mia1321) : rkmodule_inf :=
  {| inf_sensor := strscpy "mia1321" RKMODULE_NAME_LEN;
     inf_module := strscpy (module_name d) RKMODULE_NAME_LEN;
     inf_lens := strscpy (len_name d) RKMODULE_NAME_LEN |}.

(** The [for] loop of the [RKMODULE_SET_HDR_CFG] case on the modes from
    index [i] on: the value of [i] when the loop is left, and the mode
    assigned to [cur_mode] before the [break], if any. *)
Fixpoint mia1321_set_hdr_cfg_loop (modes : list mia1321_mode) (i : Z)
    (w h : Z) (hdr : rkmodule_hdr_cfg) : Z * option mia1321_mode :=
  match modes with
  | [] => (i, None)
  | mode :: modes' =>
      if (w =? width mode) && (h =? height mode)
         && (hdr_mode mode =? cfg_hdr_mode hdr)
      then (i, Some mode)
      else mia1321_set_hdr_cfg_loop modes' (i + 1) w h hdr
  end.

(** The second component of the result is the object behind [arg] after the
    call. *)
Definition mia1321_ioctl (req : ioctl_request) : M (Z * ioctl_request) :=
  d ← get_dev;
  match req with
  | RKMODULE_GET_MODULE_INFO _ =>
      mret (0, RKMODULE_GET_MODULE_INFO (mia1321_get_module_inf d))
  | RKMODULE_GET_HDR_CFG _ =>
      mret (0, RKMODULE_GET_HDR_CFG
                 {| cfg_esp_mode := HDR_NORMAL_VC;
                    cfg_hdr_mode := hdr_mode (cur_mode d) |})
  | RKMODULE_SET_HDR_CFG hdr =>
      let w := width (cur_mode d) in
      let h := height (cur_mode d) in
      let '(i, found) := mia1321_set_hdr_cfg_loop supported_modes 0 w h hdr in
      _ ← match found with
          | Some mode => modify_dev (set_cur_mode mode)
          | None => mret tt
          end;
      if i =? ARRAY_SIZE supported_modes then mret (- EINVAL, req)
      else
        d ← get_dev;
        let w := u32 (hts_def (cur_mode d) - width (cur_mode d)) in
        let h := u32 (vts_def (cur_mode d) - height (cur_mode d)) in
        _ ← kcall (__v4l2_ctrl_modify_range ctrl_hblank w w 1 w);
        _ ← kcall (__v4l2_ctrl_modify_range ctrl_vblank h
                     (u32 (MIA1321_VTS_MAX - height (cur_mode d))) 1 h);
        mret (0, req)
  | PREISP_CMD_SET_HDRAE_EXP => mret (0, req)
  | RKMODULE_SET_QUICK_STREAM stream =>
      ret ← (if negb (stream =? 0) then
               mia1321_write_reg MIA1321_REG_CTRL_MODE
                 MIA1321_REG_VALUE_08BIT MIA1321_MODE_STREAMING
             else
               mia1321_write_reg MIA1321_REG_CTRL_MODE
                 MIA1321_REG_VALUE_08BIT MIA1321_MODE_SW_STANDBY);
      mret (ret, req)
  | ioctl_other _ => mret (- ENOIOCTLCMD, req)
  end.

(** *** Streaming *)

(** [None]: the register list of the current mode has no [REG_NULL]. *)
Definition __mia1321_start_stream : M (option Z) :=
  d ← get_dev;
  early ←
    (if negb (is_thunderboot d) then
       ret ← mia1321_write_array (reg_list (cur_mode d));
       match ret with
       | None => mret (Some None)
       | Some ret =>
           if negb (ret =? 0) then mret (Some (Some ret))
           else
             (* In case these controls are set before streaming *)
             ret ← __v4l2_ctrl_handler_setup;
             if negb (ret =? 0) then mret (Some (Some ret))
             else mret None
       end
     else mret None);
  match early with
  | Some ret => mret ret
  | None =>
      ret ← mia1321_write_reg MIA1321_REG_CTRL_MODE MIA1321_REG_VALUE_08BIT
              MIA1321_MODE_STREAMING;
      _ ← mia1321_write_reg MIA1321_FLIP_REG MIA1321_REG_VALUE_08BIT 0x01;
      _ ← mia1321_write_reg MIA1321_MIRROR_REG MIA1321_REG_VALUE_08BIT 0x01;
      mret (Some ret)
  end.

(** *** Power *)

(** Calculate the delay in us by clock rate and clock cycles. *)
Definition mia1321_cal_delay (cycles : Z) : Z :=
  DIV_ROUND_UP cycles (MIA1321_XVCLK_FREQ / 1000 / 1000).

Definition set_supplies (names : list string) (d : mia1321) : mia1321 :=
  {| reset_gpio_IS_ERR := reset_gpio_IS_ERR d;
     pwdn_gpio_IS_ERR := pwdn_gpio_IS_ERR d;
     supplies := names;
     pins_default_IS_ERR_OR_NULL := pins_default_IS_ERR_OR_NULL d;
     pins_sleep_IS_ERR_OR_NULL := pins_sleep_IS_ERR_OR_NULL d;
     exposure := exposure d;
     streaming := streaming d;
     power_on := power_on d;
     cur_mode := cur_mode d;
     cur_fps := cur_fps d;
     module_name := module_name d;
     len_name := len_name d;
     cur_vts := cur_vts d;
     is_thunderboot := is_thunderboot d;
     is_first_streamoff := is_first_streamoff d;
     is_mirror := is_mirror d;
     is_flip := is_flip d |}.

Definition __mia1321_power_on : M Z :=
  d ← get_dev;
  _ ← when (negb (pins_default_IS_ERR_OR_NULL d))
        (kcall_void (pinctrl_select_state pins_default));
  _ ← kcall_int (clk_set_rate MIA1321_XVCLK_FREQ);
  _ ← kcall clk_get_rate;
  ret ← kcall_int clk_prepare_enable;
  if ret <? 0 then mret ret
  else if is_thunderboot d then mret 0
  else
    _ ← when (negb (reset_gpio_IS_ERR d))
          (kcall_void (gpiod_set_value_cansleep reset_gpio 0));
    ret ← kcall_int (regulator_bulk_enable MIA1321_NUM_SUPPLIES (supplies d));
    if ret <? 0 then
      (* disable_clk: *)
      _ ← kcall clk_disable_unprepare;
      mret ret
    else
      _ ← when (negb (reset_gpio_IS_ERR d))
            (kcall_void (gpiod_set_value_cansleep reset_gpio 1));
      _ ← kcall (usleep_range 500 1000);
      _ ← when (negb (pwdn_gpio_IS_ERR d))
            (kcall_void (gpiod_set_value_cansleep pwdn_gpio 1));
      _ ← (if negb (reset_gpio_IS_ERR d) then kcall (usleep_range 6000 8000)
           else kcall (usleep_range 12000 16000));
      (* 8192 cycles prior to first SCCB transaction *)
      let delay_us := mia1321_cal_delay 8192 in
      _ ← kcall (usleep_range delay_us (u32 (delay_us * 2)));
      mret 0.

(** *** Controls *)

Definition mia1321_set_ctrl (id : ctrl_id) (ctrl_val : Z) : M Z :=
  d ← get_dev;
  (* Propagate change of current control to all related controls *)
  _ ← match id with
      | V4L2_CID_VBLANK =>
          (* Update max exposure while meeting expected vblanking *)
          let max := u32 (height (cur_mode d) + ctrl_val - 1) in
          kcall_void (__v4l2_ctrl_modify_range ctrl_exposure
                        (minimum (exposure d)) max
                        (step (exposure d)) (default_value (exposure d)))
      | _ => mret tt
      end;
  in_use ← kcall_int pm_runtime_get_if_in_use;
  if in_use =? 0 then mret 0
  else
    ret ←
      match id with
      | V4L2_CID_EXPOSURE =>
          if hdr_mode (cur_mode d) =? NO_HDR then
            let val := u32 ctrl_val in
            ret ← mia1321_write_reg MIA1321_REG_EXPOSURE_H
                    MIA1321_REG_VALUE_08BIT (MIA1321_FETCH_EXP_H val);
            ret ← mia1321_write_reg MIA1321_REG_EXPOSURE_M
                    MIA1321_REG_VALUE_08BIT (MIA1321_FETCH_EXP_M val);
            r ← mia1321_write_reg MIA1321_REG_EXPOSURE_L
                  MIA1321_REG_VALUE_08BIT (MIA1321_FETCH_EXP_L val);
            mret (Z.lor ret r)
          else mret 0
      | V4L2_CID_ANALOGUE_GAIN =>
          if hdr_mode (cur_mode d) =? NO_HDR then
            mia1321_set_gain_reg (u32 ctrl_val)
          else mret 0
      | V4L2_CID_VBLANK =>
          (* the writes of the VTS registers are commented out *)
          _ ← modify_dev (set_cur_vts (vts_def (cur_mode d)));
          mret 0
      | V4L2_CID_TEST_PATTERN =>
          mia1321_enable_test_pattern (u32 ctrl_val)
      | V4L2_CID_HFLIP =>
          '(ret, val) ← mia1321_read_reg MIA1321_FLIP_REG
                          MIA1321_REG_VALUE_08BIT 0;
          let val :=
            if negb (ctrl_val =? 0) then Z.lor val MIRROR_BIT_MASK
            else Z.land val (Z.lnot MIRROR_BIT_MASK) in
          _ ← mia1321_set_orientation_reg val;
          mret ret
      | V4L2_CID_VFLIP =>
          '(ret, val) ← mia1321_read_reg MIA1321_MIRROR_REG
                          MIA1321_REG_VALUE_08BIT 0;
          let val :=
            if negb (ctrl_val =? 0) then Z.lor val FLIP_BIT_MASK
            else Z.land val (Z.lnot FLIP_BIT_MASK) in
          _ ← mia1321_set_orientation_reg val;
          mret ret
      | V4L2_CID_other _ => mret 0
      end;
    _ ← kcall pm_runtime_put;
    mret ret.

(** *** Sensor detection *)

Definition mia1321_check_sensor_id : M Z :=
  d ← get_dev;
  let id := 0 in
  if is_thunderboot d then mret 0
  else
    '(ret, id) ← mia1321_read_reg MIA1321_REG_CHIP_ID
                   MIA1321_REG_VALUE_16BIT id;
    if negb (id =? CHIP_ID) then mret (- ENODEV)
    else mret 0.

End Driver.

(** ** Vocabulary of the statements *)

(** An 8-bit write of [v] to the sensor register [reg], as it appears on
    the bus: the register address, high byte first, then the value. *)
Definition reg_write8 (reg v : Z) : call :=
  i2c_master_send [u8 (Z.shiftr reg 8); Z.land reg 0xff; byte_of 0 v] 3.

(** What [mia1321_write_array] is to do for one table entry. *)
Definition entry_call (r : regval) : call :=
  if addr r =? REG_DELAY then mdelay (val r) else reg_write8 (addr r) (val r).

(** An [i2c_master_send] is acknowledged when all its bytes went out. *)
Definition acked (e : event) : bool :=
  match fst e with
  | i2c_master_send _ count => u32 (s32 (rv (snd e))) =? count
  | _ => true
  end.

Definition is_i2c (c : call) : bool :=
  match c with
  | i2c_master_send _ _ | i2c_transfer _ _ => true
  | _ => false
  end.

(** The I2C transactions among the events [evs]. *)
Definition i2c_calls (evs : list event) : list call :=
  filter (fun c => is_i2c c = true) (map fst evs).

(** A register table that ends with the [REG_NULL] entry and has no other. *)
Definition terminated (regs : list regval) : Prop :=
  exists pre, regs = pre ++ [R REG_NULL 0x00]
              /\ Forall (fun r => addr r <> REG_NULL) pre.

(** The 16-bit value [mia1321_read_reg] stores for the reply [r] to a
    two-byte read, starting from [*val = 0]. *)
Definition read16 (r : reply) : Z :=
  if s32 (rv r) =? 2 then
    u8 (nth 0 (rdata r) 0) * 256 + u8 (nth 1 (rdata r) 0)
  else 0.

(** The Manhattan distance between a mode and a requested frame size. *)
Definition manhattan (m : mia1321_mode) (f : v4l2_mbus_framefmt) : Z :=
  Z.abs (width m - fmt_width f) + Z.abs (height m - fmt_height f).

(** [i] is the lowest index among the modes of [modes] nearest to [f]. *)
Definition lowest_nearest (modes : list mia1321_mode) (i : nat)
    (f : v4l2_mbus_framefmt) : Prop :=
  exists m, modes !! i = Some m /\
    forall j m', modes !! j = Some m' ->
      manhattan m f <= manhattan m' f /\
      ((j < i)%nat -> manhattan m f < manhattan m' f).

(** ** Concrete kernels and devices, for examples *)

(** Every call succeeds; the sensor answers the chip-id read with 0x0400
    and the device is in use. *)
Definition env_ok : kernel_env :=
  fun _ c =>
    match c with
    | i2c_master_send _ count => Reply count []
    | i2c_transfer _ _ => Reply 2 [0x04; 0x00]
    | pm_runtime_get_if_in_use => Reply 1 []
    | clk_get_rate => Reply 26000000 []
    | _ => Reply 0 []
    end.

(** As [env_ok], but the device is runtime-suspended. *)
Definition env_suspended : kernel_env :=
  fun h c =>
    match c with
    | pm_runtime_get_if_in_use => Reply 0 []
    | _ => env_ok h c
    end.

(** As [env_ok], but nothing answers on the I2C bus ([-ENXIO]). *)
Definition env_no_sensor : kernel_env :=
  fun h c =>
    match c with
    | i2c_master_send _ _ | i2c_transfer _ _ => Reply (-6) []
    | _ => env_ok h c
    end.

(** As [env_ok], but the regulators cannot be enabled ([-EBUSY]). *)
Definition env_no_power : kernel_env :=
  fun h c =>
    match c with
    | regulator_bulk_enable _ _ => Reply (-16) []
    | _ => env_ok h c
    end.

(** The device as [mia1321_probe] leaves it on a board with all GPIOs and
    pin states present, thunderboot disabled. *)
Definition dev0 : mia1321 :=
  {| reset_gpio_IS_ERR := false;
     pwdn_gpio_IS_ERR := false;
     supplies := mia1321_supply_names;
     pins_default_IS_ERR_OR_NULL := false;
     pins_sleep_IS_ERR_OR_NULL := false;
     exposure := {| minimum := 1; maximum := 0x04b0 - 1; step := 1;
                    default_value := 0x01f4 |};
     streaming := false;
     power_on := false;
     cur_mode := supported_modes_at (K := linux) 0;
     cur_fps := {| numerator := 10000; denominator := 600000 |};
     module_name := "CMK-OT2115-PC1";
     len_name := "30IRC-F16";
     cur_vts := 0;
     is_thunderboot := false;
     is_first_streamoff := false;
     is_mirror := false;
     is_flip := false |}.

Definition world0 : world := World dev0 [].

(** A request for 640x480; [which] is 0 for TRY and 1 for ACTIVE. *)
Definition fmt_vga (which : Z) : v4l2_subdev_format :=
  {| which := which; pad := 0;
     format := {| fmt_width := 640; fmt_height := 480; fmt_code := 0;
                  fmt_field := 0 |} |}.

(** An ACTIVE request whose width is 2^31 above 1280 and whose height is
    2^31 - 1 above 1080. *)
Definition fmt_far : v4l2_subdev_format :=
  {| which := 1; pad := 0;
     format := {| fmt_width := 1280 + 2 ^ 31; fmt_height := 1080 + 2 ^ 31 - 1;
                  fmt_code := 0; fmt_field := 0 |} |}.

(** ** The rest of the driver *)

Definition set_streaming (b : bool) (d : mia1321) : mia1321 :=
  {| reset_gpio_IS_ERR := reset_gpio_IS_ERR d;
     pwdn_gpio_IS_ERR := pwdn_gpio_IS_ERR d;
     supplies := supplies d;
     pins_default_IS_ERR_OR_NULL := pins_default_IS_ERR_OR_NULL d;
     pins_sleep_IS_ERR_OR_NULL := pins_sleep_IS_ERR_OR_NULL d;
     exposure := exposure d;
     streaming := b;
     power_on := power_on d;
     cur_mode := cur_mode d;
     cur_fps := cur_fps d;
     module_name := module_name d;
     len_name := len_name d;
     cur_vts := cur_vts d;
     is_thunderboot := is_thunderboot d;
     is_first_streamoff := is_first_streamoff d;
     is_mirror := is_mirror d;
     is_flip := is_flip d |}.

Definition set_power_on (b : bool) (d : mia1321) : mia1321 :=
  {| reset_gpio_IS_ERR := reset_gpio_IS_ERR d;
     pwdn_gpio_IS_ERR := pwdn_gpio_IS_ERR d;
     supplies := supplies d;
     pins_default_IS_ERR_OR_NULL := pins_default_IS_ERR_OR_NULL d;
     pins_sleep_IS_ERR_OR_NULL := pins_sleep_IS_ERR_OR_NULL d;
     exposure := exposure d;
     streaming := streaming d;
     power_on := b;
     cur_mode := cur_mode d;
     cur_fps := cur_fps d;
     module_name := module_name d;
     len_name := len_name d;
     cur_vts := cur_vts d;
     is_thunderboot := is_thunderboot d;
     is_first_streamoff := is_first_streamoff d;
     is_mirror := is_mirror d;
     is_flip := is_flip d |}.

Definition set_is_thunderboot (b : bool) (d : mia1321) : mia1321 :=
  {| reset_gpio_IS_ERR := reset_gpio_IS_ERR d;
     pwdn_gpio_IS_ERR := pwdn_gpio_IS_ERR d;
     supplies := supplies d;
     pins_default_IS_ERR_OR_NULL := pins_default_IS_ERR_OR_NULL d;
     pins_sleep_IS_ERR_OR_NULL := pins_sleep_IS_ERR_OR_NULL d;
     exposure := exposure d;
     streaming := streaming d;
     power_on := power_on d;
     cur_mode := cur_mode d;
     cur_fps := cur_fps d;
     module_name := module_name d;
     len_name := len_name d;
     cur_vts := cur_vts d;
     is_thunderboot := b;
     is_first_streamoff := is_first_streamoff d;
     is_mirror := is_mirror d;
     is_flip := is_flip d |}.

Definition set_is_first_streamoff (b : bool) (d : mia1321) : mia1321 :=
  {| reset_gpio_IS_ERR := reset_gpio_IS_ERR d;
     pwdn_gpio_IS_ERR := pwdn_gpio_IS_ERR d;
     supplies := supplies d;
     pins_default_IS_ERR_OR_NULL := pins_default_IS_ERR_OR_NULL d;
     pins_sleep_IS_ERR_OR_NULL := pins_sleep_IS_ERR_OR_NULL d;
     exposure := exposure d;
     streaming := streaming d;
     power_on := power_on d;
     cur_mode := cur_mode d;
     cur_fps := cur_fps d;
     module_name := module_name d;
     len_name := len_name d;
     cur_vts := cur_vts d;
     is_thunderboot := is_thunderboot d;
     is_first_streamoff := b;
     is_mirror := is_mirror d;
     is_flip := is_flip d |}.

Record v4l2_subdev_mbus_code_enum := { mce_index : Z; mce_code : Z }.

Record v4l2_subdev_frame_interval_enum := {
  fie_index : Z;
  fie_code : Z;
  fie_width : Z;
  fie_height : Z;
  fie_interval : v4l2_fract;
  fie_reserved0 : Z
}.

Section DriverRest.

Context {K : Kernel}.
Variable CONFIG_VIDEO_V4L2_SUBDEV_API : bool.
Variable env : kernel_env.

(** [cfg] stands for the pad configuration: [cfg pad] is the try format
    [v4l2_subdev_get_try_format(sd, cfg, pad)] points to.  The third
    component of the argument and of the result is [fmt->reserved[0]]. *)
Definition mia1321_get_fmt (cfg : Z -> v4l2_mbus_framefmt)
    (fmt : v4l2_subdev_format) (reserved0 : Z)
  : M (Z * v4l2_subdev_format * Z) :=
  d ← get_dev;
  let mode := cur_mode d in
  if which fmt =? V4L2_SUBDEV_FORMAT_TRY then
    if CONFIG_VIDEO_V4L2_SUBDEV_API then
      mret (0,
            {| which := which fmt; pad := pad fmt; format := cfg (pad fmt) |},
            reserved0)
    else mret (- ENOTTY, fmt, reserved0)
  else
    let fmt :=
      {| which := which fmt;
         pad := pad fmt;
         format := {| fmt_width := width mode;
                      fmt_height := height mode;
                      fmt_code := bus_fmt mode;
                      fmt_field := V4L2_FIELD_NONE |} |} in
    (* format info: width/height/data type/virctual channel *)
    let reserved0 :=
      if (pad fmt <? Z.of_nat PAD_MAX) && negb (hdr_mode mode =? NO_HDR) then
        nth (Z.to_nat (pad fmt)) (vc mode) 0
      else nth PAD0 (vc mode) 0 in
    mret (0, fmt, reserved0).

(** The second component of the result is [*code] after the call. *)
Definition mia1321_enum_mbus_code (code : v4l2_subdev_mbus_code_enum)
  : M (Z * v4l2_subdev_mbus_code_enum) :=
  d ← get_dev;
  if negb (mce_index code =? 0) then mret (- EINVAL, code)
  else
    mret (0, {| mce_index := mce_index code;
                mce_code := bus_fmt (cur_mode d) |}).

(** The second component of the result is [fi->interval] after the call. *)
Definition mia1321_g_frame_interval : M (Z * v4l2_fract) :=
  d ← get_dev;
  let mode := cur_mode d in
  if streaming d then mret (0, cur_fps d)
  else mret (0, max_fps mode).

(** The second component of the result is [*fie] after the call. *)
Definition mia1321_enum_frame_interval
    (fie : v4l2_subdev_frame_interval_enum)
  : Z * v4l2_subdev_frame_interval_enum :=
  if ARRAY_SIZE supported_modes <=? fie_index fie then (- EINVAL, fie)
  else
    (0, {| fie_index := fie_index fie;
           fie_code := bus_fmt (supported_modes_at (fie_index fie));
           fie_width := width (supported_modes_at (fie_index fie));
           fie_height := height (supported_modes_at (fie_index fie));
           fie_interval := max_fps (supported_modes_at (fie_index fie));
           fie_reserved0 := hdr_mode (supported_modes_at (fie_index fie)) |}).

Definition __mia1321_stop_stream : M Z :=
  d ← get_dev;
  _ ← (if is_thunderboot d then
         _ ← modify_dev (set_is_first_streamoff true);
         kcall_void env pm_runtime_put
       else mret tt);
  mia1321_write_reg env MIA1321_REG_CTRL_MODE MIA1321_REG_VALUE_08BIT
    MIA1321_MODE_SW_STANDBY.

End DriverRest.

(** ** More vocabulary *)

(** The bytes [mia1321_write_reg] puts on the bus for a write of the low
    [len] bytes of [val] to the register [reg]. *)
Definition write_frame (reg len val : Z) : list Z :=
  [u8 (Z.shiftr reg 8); Z.land reg 0xff]
    ++ drop (Z.to_nat (4 - len)) (cpu_to_be32 val).

(** The value [mia1321_read_reg] stores for the reply [r] to a one-byte
    read, starting from [*val = 0]. *)
Definition read8 (r : reply) : Z :=
  if s32 (rv r) =? 2 then u8 (nth 0 (rdata r) 0) else 0.

Definition is_pm_runtime_put (c : call) : bool :=
  match c with pm_runtime_put => true | _ => false end.

Definition is_pm_runtime_get (c : call) : bool :=
  match c with pm_runtime_get_if_in_use => true | _ => false end.

(** How many of the events [evs] are calls satisfying [p]. *)
Definition count_calls (p : call -> bool) (evs : list event) : nat :=
  length (List.filter (fun e => p (fst e)) evs).


(** The gains of a table grow from row to row. *)
Fixpoint ascending (tbl : list s_again) : bool :=
  match tbl with
  | a :: tl =>
      match tl with
      | b :: _ => (again a <? again b) && ascending tl
      | [] => true
      end
  | [] => true
  end.
(** ** The power-management entry points

    [__mia1321_power_off], [mia1321_s_stream] and [mia1321_s_power] make
    kernel calls of their own; these are logged next to the calls above, in
    one sequence. *)

Inductive pm_call :=
  | pm_runtime_get_sync
  | pm_runtime_put_noidle
  | rkisp_tb_get_state
  | regulator_bulk_disable (num : Z) (consumers : list string)
  | devm_regulator_bulk_get (num : Z) (consumers : list string).

Abbreviation event2 := ((call + pm_call) * reply)%type.

Definition kernel_env2 : Type := list event2 -> call + pm_call -> reply.

Record world2 := World2 { dev2 : mia1321; log2 : list event2 }.

Definition M2 (A : Type) : Type := world2 -> A * world2.

#[global] Instance M2_ret : MRet M2 := fun A a w => (a, w).
#[global] Instance M2_bind : MBind M2 :=
  fun A B f m w => let '(a, w') := m w in f a w'.

Definition get_dev2 : M2 mia1321 := fun w => (dev2 w, w).
Definition modify_dev2 (f : mia1321 -> mia1321) : M2 unit :=
  fun w => (tt, World2 (f (dev2 w)) (log2 w)).
Definition when2 (b : bool) (m : M2 unit) : M2 unit :=
  if b then m else mret tt.

Definition inl_event (e : event) : event2 := (inl (fst e), snd e).

Section PowerManagement.

Context {K : Kernel}.
(** [RKISP_TB_NG] of rkisp_tb_helper.h. *)
Variable RKISP_TB_NG : Z.
Variable env : kernel_env2.
Variable __v4l2_ctrl_handler_setup : M Z.

Definition kcall2 (c : call + pm_call) : M2 reply :=
  fun w =>
    let r := env (log2 w) c in
    (r, World2 (dev2 w) (log2 w ++ [(c, r)])).

Definition kcall2_int (c : call + pm_call) : M2 Z :=
  r ← kcall2 c; mret (s32 (rv r)).

Definition kcall2_void (c : call + pm_call) : M2 unit :=
  _ ← kcall2 c; mret tt.

(** A function of the driver modelled above, run here: it talks to the same
    kernel, which has seen all that is in the log, and what it logs is
    added to the log. *)
Definition lift {A} (m : kernel_env -> M A) : M2 A :=
  fun w =>
    let env1 : kernel_env :=
      fun h c => env (log2 w ++ map inl_event h) (inl c) in
    let '(a, w1) := m env1 (World (dev2 w) []) in
    (a, World2 (dev w1) (log2 w ++ map inl_event (log w1))).

(** The loop gives every entry of [supplies] its name: [supplies[i].supply]
    becomes [mia1321_supply_names[i]] for each [i] below
    [MIA1321_NUM_SUPPLIES], the length of [mia1321_supply_names]. *)
Definition mia1321_configure_regulators : M2 Z :=
  _ ← modify_dev2 (set_supplies mia1321_supply_names);
  d ← get_dev2;
  kcall2_int (inr (devm_regulator_bulk_get MIA1321_NUM_SUPPLIES (supplies d))).

Definition __mia1321_power_off : M2 unit :=
  d ← get_dev2;
  _ ← kcall2 (inl clk_disable_unprepare);
  go_on ←
    (if is_thunderboot d then
       if is_first_streamoff d then
         _ ← modify_dev2 (set_is_thunderboot false);
         _ ← modify_dev2 (set_is_first_streamoff false);
         mret true
       else mret false
     else mret true);
  if negb go_on then mret tt
  else
    _ ← when2 (negb (pwdn_gpio_IS_ERR d))
          (kcall2_void (inl (gpiod_set_value_cansleep pwdn_gpio 0)));
    _ ← when2 (negb (reset_gpio_IS_ERR d))
          (kcall2_void (inl (gpiod_set_value_cansleep reset_gpio 0)));
    _ ← when2 (negb (pins_sleep_IS_ERR_OR_NULL d))
          (kcall2_void (inl (pinctrl_select_state pins_sleep)));
    _ ← kcall2 (inr (regulator_bulk_disable MIA1321_NUM_SUPPLIES (supplies d)));
    mret tt.

Definition mia1321_runtime_resume : M2 Z :=
  lift __mia1321_power_on.

Definition mia1321_runtime_suspend : M2 Z :=
  _ ← __mia1321_power_off;
  mret 0.

(** [None]: the register list of the current mode has no [REG_NULL]. *)
Definition mia1321_s_stream (on : Z) : M2 (option Z) :=
  d ← get_dev2;
  let ret := 0 in
  let on := if on =? 0 then 0 else 1 in
  if on =? (if streaming d then 1 else 0) then mret (Some ret)
  else if negb (on =? 0) then
    _ ← (if is_thunderboot d then
           state ← kcall2_int (inr rkisp_tb_get_state);
           if state =? RKISP_TB_NG then
             _ ← modify_dev2 (set_is_thunderboot false);
             _ ← lift __mia1321_power_on;
             mret tt
           else mret tt
         else mret tt);
    ret ← kcall2_int (inr pm_runtime_get_sync);
    if ret <? 0 then
      _ ← kcall2 (inr pm_runtime_put_noidle);
      mret (Some ret)
    else
      ret ← lift (fun env1 =>
                    __mia1321_start_stream env1 __v4l2_ctrl_handler_setup);
      match ret with
      | None => mret None
      | Some ret =>
          if negb (ret =? 0) then
            _ ← kcall2 (inl pm_runtime_put);
            mret (Some ret)
          else
            _ ← modify_dev2 (set_streaming true);
            mret (Some ret)
      end
  else
    _ ← lift __mia1321_stop_stream;
    _ ← kcall2 (inl pm_runtime_put);
    _ ← modify_dev2 (set_streaming false);
    mret (Some ret).

(** [None]: a register table without [REG_NULL]. *)
Definition mia1321_s_power (on : Z) : M2 (option Z) :=
  d ← get_dev2;
  let ret := 0 in
  (* If the power state is not modified - no work to do. *)
  if eqb (power_on d) (negb (on =? 0)) then mret (Some ret)
  else if negb (on =? 0) then
    ret ← kcall2_int (inr pm_runtime_get_sync);
    if ret <? 0 then
      _ ← kcall2 (inr pm_runtime_put_noidle);
      mret (Some ret)
    else
      init ←
        (if negb (is_thunderboot d) then
           lift (fun env1 => mia1321_write_array env1 mia1321_global_regs)
         else mret (Some ret));
      match init with
      | None => mret None
      | Some ret =>
          if negb (is_thunderboot d) && negb (ret =? 0) then
            _ ← kcall2 (inr pm_runtime_put_noidle);
            mret (Some ret)
          else
            _ ← modify_dev2 (set_power_on true);
            mret (Some ret)
      end
  else
    _ ← kcall2 (inl pm_runtime_put);
    _ ← modify_dev2 (set_power_on false);
    mret (Some ret).

End PowerManagement.

Definition is_clk_prepare_enable (c : call) : bool :=
  match c with clk_prepare_enable => true | _ => false end.

Definition is_clk_disable_unprepare (c : call) : bool :=
  match c with clk_disable_unprepare => true | _ => false end.

Definition is_regulator_bulk_enable (c : call) : bool :=
  match c with regulator_bulk_enable _ _ => true | _ => false end.


(** ** More kernels and devices to run the driver on *)

(** As [env_ok], but every register reads as 1. *)
Definition env_reads_1 : kernel_env :=
  fun h c =>
    match c with
    | i2c_transfer _ _ => Reply 2 [0x01]
    | _ => env_ok h c
    end.

(** As [env_ok], but a two-byte read yields 0x12, 0x34. *)
Definition env_reads_1234 : kernel_env :=
  fun h c =>
    match c with
    | i2c_transfer _ _ => Reply 2 [0x12; 0x34]
    | _ => env_ok h c
    end.

(** [dev0] taken over from the boot loader while streaming (thunderboot). *)
Definition dev_tb : mia1321 :=
  set_streaming true (set_is_thunderboot true dev0).

Definition world_tb : world := World (set_is_thunderboot true dev0) [].

(** A kernel for the power-management entry points: the calls above are
    answered as by [env_ok], the others succeed with 0. *)
Definition env2_ok : kernel_env2 :=
  fun _ c =>
    match c with
    | inl c => env_ok [] c
    | inr _ => Reply 0 []
    end.

Definition world2_0 : world2 := World2 dev0 [].
Definition world2_streaming : world2 := World2 (set_streaming true dev0) [].
Definition world2_tb : world2 := World2 dev_tb [].

(** A control handler with no control to set. *)
Definition handler_idle : M Z := mret 0.
(** ** Properties *)

Section Properties.

Context {K : Kernel}.

(** *** Errno values *)

Lemma errno_bounds :
  0 < EIO < 4096 /\ 0 < ENODEV < 4096 /\ 0 < EINVAL < 4096 /\
  0 < ENOTTY < 4096 /\ 0 < ENOIOCTLCMD < 4096.
Proof.
  pose proof errno_range as H.
  repeat (apply Forall_cons_1 in H; destruct H as [? H]).
  repeat split; lia.
Qed.

(** *** Running the monad *)

Lemma bind_run {A B} (m : M A) (f : A -> M B) (w : world) :
  (m ≫= f) w = let '(a, w') := m w in f a w'.
Proof. reflexivity. Qed.

Lemma ret_run {A} (a : A) (w : world) : (mret a : M A) w = (a, w).
Proof. reflexivity. Qed.

Lemma kcall_run env c w :
  kcall env c w = (env (log w) c, World (dev w) (log w ++ [(c, env (log w) c)])).
Proof. reflexivity. Qed.

Lemma kcall_int_run env c w :
  kcall_int env c w =
    (s32 (rv (env (log w) c)), World (dev w) (log w ++ [(c, env (log w) c)])).
Proof. reflexivity. Qed.

Lemma kcall_void_run env c w :
  kcall_void env c w = (tt, World (dev w) (log w ++ [(c, env (log w) c)])).
Proof. reflexivity. Qed.

Lemma get_dev_run w : get_dev w = (dev w, w).
Proof. reflexivity. Qed.

Lemma modify_dev_run f w : modify_dev f w = (tt, World (f (dev w)) (log w)).
Proof. reflexivity. Qed.

Lemma world_eta w : World (dev w) (log w) = w.
Proof. destruct w; reflexivity. Qed.

(** An 8-bit register write is one [i2c_master_send] of three bytes; it
    yields 0 when the bus took all three and [-EIO] otherwise, and leaves
    the device state alone. *)
Lemma write_reg_08bit env reg v w :
  mia1321_write_reg env reg MIA1321_REG_VALUE_08BIT v w =
    let e := (reg_write8 reg v, env (log w) (reg_write8 reg v)) in
    (if acked e then 0 else - EIO, World (dev w) (log w ++ [e])).
Proof.
  unfold mia1321_write_reg, MIA1321_REG_VALUE_08BIT, kcall_int.
  change (4 <? 1) with false. cbv iota.
  change (drop (Z.to_nat (4 - 1)) (cpu_to_be32 v)) with [byte_of 0 v].
  change ([u8 (Z.shiftr reg 8); Z.land reg 255] ++ [byte_of 0 v])
    with [u8 (Z.shiftr reg 8); Z.land reg 255; byte_of 0 v].
  change (1 + 2) with 3.
  rewrite !bind_run, kcall_run, ret_run.
  fold (reg_write8 reg v). cbv zeta. unfold acked. cbn [fst snd reg_write8].
  destruct (u32 (s32 (rv (env (log w) (reg_write8 reg v)))) =? 3); reflexivity.
Qed.

(** *** Register tables *)

(** C5.  [mia1321_write_array] walks a table in index order.  Up to the
    first [REG_NULL] entry, each entry yields exactly one call: an 8-bit
    register write, or a delay of [val] milliseconds for a [REG_DELAY]
    entry.  The walk ends either at the [REG_NULL] entry, after all writes
    were acknowledged, with result 0, or right after the first write that
    failed, with that write's error [-EIO]; nothing is written or delayed
    after it. *)
Theorem mia1321_write_array_walk env (pre post : list regval) (nul : regval)
    (w : world) :
  Forall (fun r => addr r <> REG_NULL) pre ->
  addr nul = REG_NULL ->
  exists ret evs k,
    mia1321_write_array env (pre ++ nul :: post) w
      = (Some ret, World (dev w) (log w ++ evs))
    /\ (k <= length pre)%nat
    /\ map fst evs = map entry_call (take k pre)
    /\ ((k = length pre /\ forallb acked evs = true /\ ret = 0)
        \/ (exists evs0 e, evs = evs0 ++ [e] /\ forallb acked evs0 = true
               /\ acked e = false /\ ret = - EIO)).
Proof.
  intros Hpre Hnul. revert w.
  induction Hpre as [|r pre Hr Hpre IH]; intros w.
  - exists 0, [], 0%nat. cbn [app mia1321_write_array].
    rewrite Hnul, Z.eqb_refl. cbn [negb]. rewrite ret_run, app_nil_r.
    destruct w; cbn. repeat split; auto.
  - cbn [app mia1321_write_array].
    apply Z.eqb_neq in Hr. rewrite Hr. cbn [negb].
    destruct (addr r =? REG_DELAY) eqn:Hdelay.
    + rewrite bind_run, kcall_run.
      set (e := (mdelay (val r), env (log w) (mdelay (val r)))).
      destruct (IH (World (dev w) (log w ++ [e])))
        as (ret & evs & k & Hrun & Hk & Hcalls & Hend).
      exists ret, (e :: evs), (S k). rewrite Hrun. cbn [dev log].
      rewrite <- app_assoc. cbn [app length take map fst].
      split; [reflexivity|]. split; [lia|]. split.
      { rewrite Hcalls. f_equal. unfold entry_call. rewrite Hdelay.
        reflexivity. }
      destruct Hend as [(-> & Hack & ->) | (evs0 & e1 & -> & Hack & Hnack & ->)].
      * left. split; [reflexivity|]. split; [|reflexivity].
        cbn [forallb]. rewrite Hack. reflexivity.
      * right. exists (e :: evs0), e1.
        split; [reflexivity|]. split; [|split; [assumption|reflexivity]].
        cbn [forallb]. rewrite Hack. reflexivity.
    + rewrite bind_run, write_reg_08bit. cbv zeta.
      set (e := (reg_write8 (addr r) (val r),
                 env (log w) (reg_write8 (addr r) (val r)))).
      destruct (acked e) eqn:Hacked.
      * rewrite Z.eqb_refl.
        destruct (IH (World (dev w) (log w ++ [e])))
          as (ret & evs & k & Hrun & Hk & Hcalls & Hend).
        exists ret, (e :: evs), (S k). rewrite Hrun. cbn [dev log].
        rewrite <- app_assoc. cbn [app length take map fst].
        split; [reflexivity|]. split; [lia|]. split.
        { rewrite Hcalls. f_equal. unfold entry_call. rewrite Hdelay.
          reflexivity. }
        destruct Hend
          as [(-> & Hack & ->) | (evs0 & e1 & -> & Hack & Hnack & ->)].
        -- left. split; [reflexivity|]. split; [|reflexivity].
           cbn [forallb]. rewrite Hacked, Hack. reflexivity.
        -- right. exists (e :: evs0), e1.
           split; [reflexivity|]. split; [|split; [assumption|reflexivity]].
           cbn [forallb]. rewrite Hacked, Hack. reflexivity.
      * pose proof errno_bounds as HE.
        assert (Hne : (- EIO =? 0) = false) by (apply Z.eqb_neq; lia).
        rewrite Hne, ret_run.
        exists (- EIO), [e], 1%nat. cbn [length take map fst].
        split; [reflexivity|]. split; [lia|]. split.
        { rewrite take_0. unfold entry_call. rewrite Hdelay. reflexivity. }
        right. exists [], e.
        split; [reflexivity|]. split; [reflexivity|].
        split; [assumption|reflexivity].
Qed.

(** *** Bytes of a 32-bit value *)

Lemma land_255_mod x : Z.land x 0xff = x mod 2 ^ 8.
Proof. exact (Z.land_ones x 8 ltac:(lia)). Qed.

(** The byte the driver sends for bits [8k .. 8k+7] of a control value does
    not depend on the conversion of the value to [u32]. *)
Lemma byte_of_u32 k v :
  0 <= k < 4 -> byte_of 0 (Z.land (Z.shiftr (u32 v) (8 * k)) 0xFF)
                = Z.land (Z.shiftr v (8 * k)) 0xFF.
Proof.
  intros Hk. unfold byte_of, u32. rewrite Z.shiftr_0_r.
  change (Z.land ?x 0xFF) with (Z.land x 0xff).
  rewrite !land_255_mod, !Z.shiftr_div_pow2 by lia.
  rewrite Z.mod_mod by lia.
  assert (Hcases : k = 0 \/ k = 1 \/ k = 2 \/ k = 3) by lia.
  destruct Hcases as [-> | [-> | [-> | ->]]]; cbn [Z.mul Pos.mul];
    Z.div_mod_to_equations; lia.
Qed.

Lemma exposure_bytes v :
  byte_of 0 (MIA1321_FETCH_EXP_H (u32 v)) = Z.land (Z.shiftr v 16) 0xFF /\
  byte_of 0 (MIA1321_FETCH_EXP_M (u32 v)) = Z.land (Z.shiftr v 8) 0xFF /\
  byte_of 0 (MIA1321_FETCH_EXP_L (u32 v)) = Z.land v 0xFF.
Proof.
  unfold MIA1321_FETCH_EXP_H, MIA1321_FETCH_EXP_M, MIA1321_FETCH_EXP_L.
  split; [exact (byte_of_u32 2 v ltac:(lia))|].
  split; [exact (byte_of_u32 1 v ltac:(lia))|].
  pose proof (byte_of_u32 0 v ltac:(lia)) as H.
  change (8 * 0) with 0 in H. rewrite !Z.shiftr_0_r in H. exact H.
Qed.

(** *** Controls *)

(** Every supported mode is a single-exposure mode. *)
Lemma supported_modes_NO_HDR m :
  In m supported_modes -> hdr_mode m = NO_HDR.
Proof.
  unfold supported_modes. cbn [In].
  intros [<- | [<- | [<- | []]]]; reflexivity.
Qed.

(** C1, as amended.  While the device is in use ([pm_runtime_get_if_in_use]
    does not return 0), setting the exposure control to [v] makes
    [mia1321_set_ctrl] issue exactly three 8-bit register writes, in this
    order: byte [(v >> 16) & 0xFF] to register 0x00cf, byte [(v >> 8) & 0xFF]
    to 0x00ce and byte [v & 0xFF] to 0x00cd.  When the device is not in use
    the function returns 0 and writes nothing. *)
Theorem mia1321_set_ctrl_exposure env (v : Z) (w : world) :
  In (cur_mode (dev w)) supported_modes ->
  let r0 := env (log w) pm_runtime_get_if_in_use in
  if s32 (rv r0) =? 0 then
    mia1321_set_ctrl env V4L2_CID_EXPOSURE v w
      = (0, World (dev w) (log w ++ [(pm_runtime_get_if_in_use, r0)]))
  else
    exists ret r1 r2 r3 r4,
      mia1321_set_ctrl env V4L2_CID_EXPOSURE v w
        = (ret,
           World (dev w)
             (log w ++
                [(pm_runtime_get_if_in_use, r0);
                 (i2c_master_send [0x00; 0xcf; Z.land (Z.shiftr v 16) 0xFF] 3,
                  r1);
                 (i2c_master_send [0x00; 0xce; Z.land (Z.shiftr v 8) 0xFF] 3,
                  r2);
                 (i2c_master_send [0x00; 0xcd; Z.land v 0xFF] 3, r3);
                 (pm_runtime_put, r4)])).
Proof.
  intros Hmode r0. apply supported_modes_NO_HDR in Hmode.
  unfold mia1321_set_ctrl.
  rewrite bind_run, get_dev_run, bind_run, ret_run, bind_run, kcall_int_run.
  fold r0. cbn [dev log].
  destruct (s32 (rv r0) =? 0); [reflexivity|].
  rewrite Hmode, Z.eqb_refl.
  rewrite !bind_run, write_reg_08bit. cbv zeta. cbn [dev log].
  rewrite !bind_run, write_reg_08bit. cbv zeta. cbn [dev log].
  rewrite !bind_run, write_reg_08bit. cbv zeta. cbn [dev log].
  rewrite ret_run, bind_run, kcall_run, ret_run. cbn [dev log].
  destruct (exposure_bytes v) as (HH & HM & HL).
  unfold reg_write8, MIA1321_REG_EXPOSURE_H, MIA1321_REG_EXPOSURE_M,
    MIA1321_REG_EXPOSURE_L.
  rewrite HH, HM, HL.
  change (u8 (Z.shiftr 0x00cf 8)) with 0.
  change (u8 (Z.shiftr 0x00ce 8)) with 0.
  change (u8 (Z.shiftr 0x00cd 8)) with 0.
  change (Z.land 0x00cf 0xff) with 0xcf.
  change (Z.land 0x00ce 0xff) with 0xce.
  change (Z.land 0x00cd 0xff) with 0xcd.
  rewrite <- !app_assoc. cbn [app].
  eexists _, _, _, _, _. reflexivity.
Qed.

(** C3, as amended.  Setting the vertical-blanking or the test-pattern
    control: [mia1321_set_ctrl] itself makes no I2C call, for any value, and
    returns 0.  The calls it makes are fixed by the kernel's own answers.
    For vertical blanking it first updates the range of the exposure
    control (maximum [height + val - 1]) and then asks
    [pm_runtime_get_if_in_use]; for the test pattern it only asks.  When the
    answer is 0 it stops there and the device is as before.  When the
    answer is not 0, vertical blanking sets [cur_vts] to the current mode's
    [vts_def], the test pattern changes nothing, and [pm_runtime_put]
    follows as the last call.

    [__v4l2_ctrl_modify_range] is one call to the control framework here.
    What the framework does inside it, such as calling [mia1321_set_ctrl]
    again for the exposure control when the new range clamps its value, is
    another invocation of [mia1321_set_ctrl] and not part of this one. *)
Theorem mia1321_set_ctrl_vblank_test_pattern env (v : Z) (w : world) :
  let d := dev w in
  let c_range :=
    __v4l2_ctrl_modify_range ctrl_exposure
      (minimum (exposure d)) (u32 (height (cur_mode d) + v - 1))
      (step (exposure d)) (default_value (exposure d)) in
  let asked (before : list event) : list event :=
    before
    ++ [(pm_runtime_get_if_in_use,
         env (log w ++ before) pm_runtime_get_if_in_use)] in
  let in_use (before : list event) : bool :=
    negb (s32 (rv (env (log w ++ before) pm_runtime_get_if_in_use)) =? 0) in
  let calls (before : list event) : list event :=
    asked before
    ++ (if in_use before
        then [(pm_runtime_put, env (log w ++ asked before) pm_runtime_put)]
        else []) in
  let range := [(c_range, env (log w) c_range)] in
  mia1321_set_ctrl env V4L2_CID_VBLANK v w
    = (0, World (if in_use range
                 then set_cur_vts (vts_def (cur_mode d)) d
                 else d)
            (log w ++ calls range))
  /\ mia1321_set_ctrl env V4L2_CID_TEST_PATTERN v w
     = (0, World d (log w ++ calls []))
  /\ i2c_calls (calls range) = []
  /\ i2c_calls (calls []) = [].
Proof.
  intros d c_range asked in_use calls range.
  subst calls asked in_use range. cbv beta.
  rewrite !app_nil_r. cbn [app].
  split; [|split; [|split]].
  - unfold mia1321_set_ctrl.
    rewrite bind_run, get_dev_run, bind_run, kcall_void_run, bind_run,
      kcall_int_run.
    cbn [dev log]. fold d. fold c_range.
    destruct (s32 (rv (env (log w ++ [(c_range, env (log w) c_range)])
                         pm_runtime_get_if_in_use)) =? 0);
      cbn [negb].
    + rewrite ret_run, <- app_assoc. reflexivity.
    + rewrite !bind_run, modify_dev_run, ret_run, bind_run, kcall_run, ret_run.
      cbn [dev log]. rewrite <- !app_assoc. reflexivity.
  - unfold mia1321_set_ctrl, mia1321_enable_test_pattern.
    rewrite bind_run, get_dev_run, bind_run, ret_run, bind_run, kcall_int_run.
    cbn [dev log]. fold d.
    destruct (s32 (rv (env (log w) pm_runtime_get_if_in_use)) =? 0);
      cbn [negb].
    + rewrite ret_run. reflexivity.
    + rewrite !bind_run, ret_run, bind_run, kcall_run, ret_run.
      cbn [dev log]. rewrite <- !app_assoc. reflexivity.
  - destruct (s32 (rv (env (log w ++ [(c_range, env (log w) c_range)])
                         pm_runtime_get_if_in_use)) =? 0);
      reflexivity.
  - destruct (s32 (rv (env (log w) pm_runtime_get_if_in_use)) =? 0);
      reflexivity.
Qed.

(** *** Analogue gain *)

(** The three writes of [mia1321_set_gain_reg], whatever the triple. *)
Lemma mia1321_set_gain_reg_writes env gain w :
  let g1 := if gain <=? MIA1321_GAIN_MIN then MIA1321_GAIN_MIN else gain in
  let g2 := if MIA1321_GAIN_MAX - 1 <? g1 then MIA1321_GAIN_MAX - 1 else g1 in
  let '(h, m, l) := mia1321_again_loop mia1321_again g2 (0x1f, 0x00, 0x00) in
  exists ret r1 r2 r3,
    mia1321_set_gain_reg env gain w
      = (ret,
         World (dev w)
           (log w ++ [(i2c_master_send [0x00; 0x1b; byte_of 0 h] 3, r1);
                      (i2c_master_send [0x00; 0x19; byte_of 0 m] 3, r2);
                      (i2c_master_send [0x00; 0x18; byte_of 0 l] 3, r3)])).
Proof.
  intros g1 g2. unfold mia1321_set_gain_reg. fold g1. fold g2.
  destruct (mia1321_again_loop mia1321_again g2 (0x1f, 0x00, 0x00))
    as [[h m] l].
  rewrite !bind_run, write_reg_08bit. cbv zeta. cbn [dev log].
  rewrite !bind_run, write_reg_08bit. cbv zeta. cbn [dev log].
  rewrite !bind_run, write_reg_08bit. cbv zeta. cbn [dev log].
  rewrite ret_run, <- !app_assoc. cbn [app].
  eexists _, _, _, _. reflexivity.
Qed.

(** Below [MIA1321_GAIN_MAX - 1] the loop is a search for the first row
    whose [again] is at least the gain, and keeps the initial triple when
    there is none. *)
Lemma mia1321_again_loop_find tbl gain regs :
  gain < MIA1321_GAIN_MAX - 1 ->
  mia1321_again_loop tbl gain regs =
    match find (fun e => gain <=? again e) tbl with
    | Some e => (u8 (reg_001b e), u8 (reg_0019 e), u8 (reg_0018 e))
    | None => regs
    end.
Proof.
  intros Hlt. induction tbl as [|e tbl IH]; [reflexivity|].
  cbn [mia1321_again_loop find].
  destruct (gain <=? again e); [reflexivity|].
  assert (Hmax : (MIA1321_GAIN_MAX - 1 <=? gain) = false)
    by (apply Z.leb_gt; lia).
  rewrite Hmax. exact IH.
Qed.

(** Between the largest [again] of the table and [MIA1321_GAIN_MAX - 1] the
    loop runs off the table and the initial triple is what gets written. *)
Lemma mia1321_again_loop_gap gain :
  25600 < gain < MIA1321_GAIN_MAX - 1 ->
  mia1321_again_loop mia1321_again gain (0x1f, 0x00, 0x00) = (0x1f, 0x00, 0x00).
Proof.
  intros [Hlo Hhi]. rewrite mia1321_again_loop_find by exact Hhi.
  assert (Hall : Forall (fun e => again e <= 25600) mia1321_again)
    by (unfold mia1321_again; repeat constructor; cbn [again]; lia).
  induction Hall as [|e tbl He Hall IH]; [reflexivity|].
  cbn [find].
  assert (Hgt : (gain <=? again e) = false) by (apply Z.leb_gt; lia).
  rewrite Hgt. exact IH.
Qed.

(** From [MIA1321_GAIN_MAX - 1] on, the maximum triple is written. *)
Lemma mia1321_again_loop_max :
  mia1321_again_loop mia1321_again (MIA1321_GAIN_MAX - 1) (0x1f, 0x00, 0x00)
    = (0x32, 1, 0x70).
Proof. reflexivity. Qed.

(** C2, at the gain 30000.  The value lies above 25600, the largest [again]
    of the table, and within the clamping range, yet the registers 0x001b,
    0x0019 and 0x0018 receive 0x1f, 0x00 and 0x00, the triple the variables
    were initialised with (the one of the first row, gain 800), instead of
    the last row's 0x32, 0x01, 0x70. *)
Theorem mia1321_set_gain_reg_30000 env (w : world) :
  exists ret r1 r2 r3,
    mia1321_set_gain_reg env 30000 w
      = (ret,
         World (dev w)
           (log w ++ [(i2c_master_send [0x00; 0x1b; 0x1f] 3, r1);
                      (i2c_master_send [0x00; 0x19; 0x00] 3, r2);
                      (i2c_master_send [0x00; 0x18; 0x00] 3, r3)])).
Proof. exact (mia1321_set_gain_reg_writes env 30000 w). Qed.

(** The same happens on the whole gap, 25601 to 47998. *)
Lemma mia1321_set_gain_reg_gap env gain (w : world) :
  25600 < gain < MIA1321_GAIN_MAX - 1 ->
  exists ret r1 r2 r3,
    mia1321_set_gain_reg env gain w
      = (ret,
         World (dev w)
           (log w ++ [(i2c_master_send [0x00; 0x1b; 0x1f] 3, r1);
                      (i2c_master_send [0x00; 0x19; 0x00] 3, r2);
                      (i2c_master_send [0x00; 0x18; 0x00] 3, r3)])).
Proof.
  intros Hgap. pose proof (mia1321_set_gain_reg_writes env gain w) as H.
  cbv zeta in H.
  assert (H1 : (gain <=? MIA1321_GAIN_MIN) = false)
    by (apply Z.leb_gt; unfold MIA1321_GAIN_MIN, MIA1321_ONCE_GAIN_STEP; lia).
  assert (H2 : (MIA1321_GAIN_MAX - 1 <? gain) = false)
    by (apply Z.ltb_ge; lia).
  rewrite H1, H2, (mia1321_again_loop_gap gain Hgap) in H. exact H.
Qed.

(** Up to 25600 the claim holds: the triple of the first row whose [again]
    is at least the clamped gain is written. *)
Lemma mia1321_set_gain_reg_in_table env gain (w : world) :
  0 <= gain <= 25600 ->
  let g := Z.max gain MIA1321_GAIN_MIN in
  exists e ret r1 r2 r3,
    find (fun e => g <=? again e) mia1321_again = Some e /\
    mia1321_set_gain_reg env gain w
      = (ret,
         World (dev w)
           (log w ++ [(i2c_master_send [0x00; 0x1b; reg_001b e] 3, r1);
                      (i2c_master_send [0x00; 0x19; reg_0019 e] 3, r2);
                      (i2c_master_send [0x00; 0x18; reg_0018 e] 3, r3)])).
Proof.
  intros Hrange g.
  pose proof (mia1321_set_gain_reg_writes env gain w) as H. cbv zeta in H.
  assert (Hg : (if gain <=? MIA1321_GAIN_MIN then MIA1321_GAIN_MIN else gain)
               = g).
  { unfold g. destruct (gain <=? MIA1321_GAIN_MIN) eqn:E;
      [apply Z.leb_le in E | apply Z.leb_gt in E]; lia. }
  rewrite Hg in H.
  assert (Hg' : MIA1321_GAIN_MIN <= g <= 25600)
    by (unfold g, MIA1321_GAIN_MIN, MIA1321_ONCE_GAIN_STEP; lia).
  assert (H2 : (MIA1321_GAIN_MAX - 1 <? g) = false)
    by (apply Z.ltb_ge; unfold MIA1321_GAIN_MAX, MIA1321_AGAIN_MAX,
          MIA1321_ONCE_GAIN_STEP; lia).
  rewrite H2, mia1321_again_loop_find in H
    by (unfold MIA1321_GAIN_MAX, MIA1321_AGAIN_MAX, MIA1321_ONCE_GAIN_STEP;
        lia).
  clearbody g. clear Hg.
  assert (Hbytes : Forall (fun e =>
            byte_of 0 (u8 (reg_001b e)) = reg_001b e /\
            byte_of 0 (u8 (reg_0019 e)) = reg_0019 e /\
            byte_of 0 (u8 (reg_0018 e)) = reg_0018 e) mia1321_again)
    by (unfold mia1321_again; repeat constructor).
  assert (Hlast : Exists (fun e => g <= again e) mia1321_again).
  { unfold mia1321_again. do 38 apply Exists_cons_tl. apply Exists_cons_hd.
    cbn [again]. lia. }
  revert H. generalize Hbytes Hlast. generalize mia1321_again.
  induction l as [|e tbl IH]; intros Hb Hl H.
  - inversion Hl.
  - cbn [find] in *. apply Forall_cons_1 in Hb. destruct Hb as [(B1 & B2 & B3) Hb].
    destruct (g <=? again e) eqn:E.
    + rewrite B1, B2, B3 in H. exists e.
      destruct H as (ret & r1 & r2 & r3 & H). exists ret, r1, r2, r3.
      split; [reflexivity | exact H].
    + apply Z.leb_gt in E. apply Exists_cons in Hl.
      destruct Hl as [Hl | Hl]; [lia|].
      exact (IH Hb Hl H).
Qed.

(** *** Sensor detection *)

Lemma be32_of_two_bytes (bs : list Z) :
  be32_to_cpu (replicate (4 - 2) 0 ++ take 2 (map u8 bs ++ replicate 2 0))
    = u8 (nth 0 bs 0) * 256 + u8 (nth 1 bs 0).
Proof.
  unfold be32_to_cpu.
  destruct bs as [|a [|b bs]];
    cbn [map nth firstn app replicate fold_left Nat.sub];
    rewrite ?firstn_O; cbn [fold_left]; change (u8 0) with 0; lia.
Qed.

(** A 16-bit register read is one [i2c_transfer]; [*val] becomes the two
    bytes read, high byte first, and stays as it was when the transfer
    fails. *)
Lemma read_reg_16bit env reg w :
  mia1321_read_reg env reg MIA1321_REG_VALUE_16BIT 0 w =
    let c := i2c_transfer [byte_of 1 reg; byte_of 0 reg] 2 in
    let r := env (log w) c in
    ((if s32 (rv r) =? 2 then 0 else - EIO, read16 r),
     World (dev w) (log w ++ [(c, r)])).
Proof.
  unfold mia1321_read_reg, MIA1321_REG_VALUE_16BIT, read16.
  change ((4 <? 2) || (2 =? 0)) with false. cbv iota zeta.
  rewrite bind_run, kcall_run.
  destruct (s32 (rv (env (log w) (i2c_transfer [byte_of 1 reg; byte_of 0 reg] 2)))
            =? 2); cbn [negb]; rewrite ret_run; [|reflexivity].
  change (Z.to_nat 2) with 2%nat. rewrite be32_of_two_bytes. reflexivity.
Qed.

(** C4.  With thunderboot enabled [mia1321_check_sensor_id] reports success
    and performs no I2C transaction.  Otherwise it performs exactly one: a
    read of the 16-bit register 0x0011; it fails, with [-ENODEV], exactly
    when the value read differs from 0x0400, and succeeds with 0 otherwise.
    When the transfer itself fails the value is 0, hence the result
    [-ENODEV]. *)
Theorem mia1321_check_sensor_id_spec env (w : world) :
  if is_thunderboot (dev w) then
    mia1321_check_sensor_id env w = (0, w)
  else
    let c := i2c_transfer [0x00; 0x11] 2 in
    let r := env (log w) c in
    exists ret,
      mia1321_check_sensor_id env w = (ret, World (dev w) (log w ++ [(c, r)]))
      /\ (ret = - ENODEV <-> read16 r <> 0x0400)
      /\ (ret = 0 <-> read16 r = 0x0400)
      /\ (s32 (rv r) <> 2 -> read16 r = 0 /\ ret = - ENODEV).
Proof.
  unfold mia1321_check_sensor_id. rewrite bind_run, get_dev_run.
  destruct (is_thunderboot (dev w)); [reflexivity|].
  cbv zeta. rewrite bind_run, read_reg_16bit. cbv zeta.
  change (byte_of 1 MIA1321_REG_CHIP_ID) with 0x00.
  change (byte_of 0 MIA1321_REG_CHIP_ID) with 0x11.
  set (r := env (log w) (i2c_transfer [0x00; 0x11] 2)).
  pose proof errno_bounds as HE. unfold CHIP_ID.
  destruct (read16 r =? 0x0400) eqn:Hid; cbn [negb]; rewrite ret_run.
  - apply Z.eqb_eq in Hid. exists 0. split; [reflexivity|].
    split; [split; intros; lia|]. split; [tauto|].
    intros Hfail. unfold read16 in Hid.
    apply Z.eqb_neq in Hfail. rewrite Hfail in Hid. discriminate.
  - apply Z.eqb_neq in Hid. exists (- ENODEV). split; [reflexivity|].
    split; [tauto|]. split; [split; intros; lia|].
    intros Hfail. split; [|reflexivity].
    unfold read16. apply Z.eqb_neq in Hfail. rewrite Hfail. reflexivity.
Qed.

(** *** Formats *)

Lemma ARRAY_SIZE_supported_modes : ARRAY_SIZE supported_modes = 3.
Proof. reflexivity. Qed.

(** C7.  [mia1321_enum_frame_sizes] fails, with [-EINVAL], exactly when the
    index is 3 or more or the code is not that of [supported_modes[0]],
    [MEDIA_BUS_FMT_SGRBG10_1X10].  Otherwise it returns 0 and reports the
    width and the height of the indexed mode as both minimum and maximum.
    A request with the 12-bit code of the third mode always fails. *)
Theorem mia1321_enum_frame_sizes_spec (fse : v4l2_subdev_frame_size_enum) :
  let '(ret, fse') := mia1321_enum_frame_sizes fse in
  let mode := supported_modes_at (fse_index fse) in
  (ret = - EINVAL <->
     (3 <= fse_index fse \/ fse_code fse <> MEDIA_BUS_FMT_SGRBG10_1X10))
  /\ (ret = - EINVAL \/
      (ret = 0
       /\ min_width fse' = width mode /\ max_width fse' = width mode
       /\ min_height fse' = height mode /\ max_height fse' = height mode
       /\ fse_index fse' = fse_index fse /\ fse_code fse' = fse_code fse))
  /\ (fse_code fse = MEDIA_BUS_FMT_SGRBG12_1X12 -> ret = - EINVAL).
Proof.
  unfold mia1321_enum_frame_sizes. rewrite ARRAY_SIZE_supported_modes.
  change (bus_fmt (supported_modes_at 0)) with MEDIA_BUS_FMT_SGRBG10_1X10.
  pose proof errno_bounds as HE. pose proof SGRBG12_not_SGRBG10 as Hne.
  destruct (3 <=? fse_index fse) eqn:Hidx.
  - apply Z.leb_le in Hidx. cbv zeta. split; [tauto|]. split; [tauto|]. tauto.
  - apply Z.leb_gt in Hidx.
    destruct (fse_code fse =? MEDIA_BUS_FMT_SGRBG10_1X10) eqn:Hcode;
      cbn [negb]; cbv zeta.
    + apply Z.eqb_eq in Hcode. cbn [min_width max_width min_height max_height
        fse_index fse_code].
      split; [split; [lia | intros [?|?]; [lia | contradiction]]|].
      split; [right; repeat split; reflexivity|].
      intros H12. congruence.
    + apply Z.eqb_neq in Hcode. split; [tauto|]. split; [tauto|]. tauto.
Qed.

(** The distance computed for a mode depends on its size only, and all
    supported modes have the size 1280x1080. *)
Lemma supported_modes_same_dist m f :
  In m supported_modes ->
  mia1321_get_reso_dist m f = mia1321_get_reso_dist (supported_modes_at 0) f.
Proof.
  unfold supported_modes. cbn [In].
  intros [<- | [<- | [<- | []]]]; reflexivity.
Qed.

(** Unless the distance comes out as -1, the value that marks "no mode
    chosen yet", the search settles on the first mode. *)
Lemma mia1321_find_best_fit_first fmt :
  mia1321_get_reso_dist (supported_modes_at 0) (format fmt) <> -1 ->
  mia1321_find_best_fit fmt = supported_modes_at 0.
Proof.
  intros Hd. unfold mia1321_find_best_fit. f_equal.
  unfold mia1321_get_reso_dist in Hd.
  change (width (supported_modes_at 0)) with 1280 in Hd.
  change (height (supported_modes_at 0)) with 1080 in Hd.
  unfold supported_modes. cbn [mia1321_find_best_fit_loop].
  unfold mia1321_get_reso_dist. cbn [width height].
  set (d := s32 (abs (u32 (1280 - fmt_width (format fmt)))
                 + abs (u32 (1080 - fmt_height (format fmt))))) in *.
  change (-1 =? -1) with true. cbn [orb].
  apply Z.eqb_neq in Hd. rewrite Hd, Z.ltb_irrefl. cbn [orb]. reflexivity.
Qed.

(** The distance is never -1 for widths and heights below 2^31: for those
    it is the Manhattan distance itself. *)
Lemma mia1321_get_reso_dist_exact m f :
  0 <= width m < 2 ^ 30 -> 0 <= height m < 2 ^ 30 ->
  0 <= fmt_width f < 2 ^ 30 -> 0 <= fmt_height f < 2 ^ 30 ->
  mia1321_get_reso_dist m f = manhattan m f.
Proof.
  intros Hw Hh Hfw Hfh. unfold mia1321_get_reso_dist, manhattan, abs, s32, u32.
  assert (Hs : forall x, - 2 ^ 30 < x < 2 ^ 30 ->
             (x mod 2 ^ 32 + 2 ^ 31) mod 2 ^ 32 - 2 ^ 31 = x).
  { intros x Hx. Z.div_mod_to_equations. lia. }
  rewrite !Hs by lia.
  assert (Ha : forall x, - 2 ^ 30 < x < 2 ^ 30 ->
             (if x <? 0 then (- x + 2 ^ 31) mod 2 ^ 32 - 2 ^ 31 else x)
             = Z.abs x).
  { intros x Hx. destruct (x <? 0) eqn:E;
      [apply Z.ltb_lt in E | apply Z.ltb_ge in E].
    - Z.div_mod_to_equations. lia.
    - lia. }
  rewrite !Ha by lia.
  Z.div_mod_to_equations. lia.
Qed.

(** The search of [mia1321_find_best_fit], on any table: while the sizes
    stay below 2^30 the distances are exact, and the loop ends on the
    lowest index among the nearest modes. *)
Lemma mia1321_find_best_fit_loop_nearest (f : v4l2_mbus_framefmt) :
  0 <= fmt_width f < 2 ^ 30 -> 0 <= fmt_height f < 2 ^ 30 ->
  forall (rest pre : list mia1321_mode) (best bd : Z),
    Forall (fun m => 0 <= width m < 2 ^ 30 /\ 0 <= height m < 2 ^ 30)
      (pre ++ rest) ->
    Z.of_nat (length (pre ++ rest)) < 2 ^ 31 ->
    pre ++ rest <> [] ->
    ((pre = [] /\ bd = -1)
     \/ (exists m, pre !! Z.to_nat best = Some m /\ 0 <= best
                   /\ bd = manhattan m f
                   /\ forall j m', pre !! j = Some m' ->
                        bd <= manhattan m' f
                        /\ ((j < Z.to_nat best)%nat -> bd < manhattan m' f))) ->
    lowest_nearest (pre ++ rest)
      (Z.to_nat (mia1321_find_best_fit_loop rest (Z.of_nat (length pre)) f
                   best bd)) f.
Proof.
  intros Hfw Hfh. induction rest as [|m rest IH]; intros pre best bd Hsmall Hlen Hne Hinv.
  - rewrite app_nil_r in *. cbn [mia1321_find_best_fit_loop].
    destruct Hinv as [[-> _] | (mb & Hmb & Hbest & -> & Hall)];
      [contradiction|].
    exists mb. split; [exact Hmb | exact Hall].
  - cbn [mia1321_find_best_fit_loop].
    assert (Hm : 0 <= width m < 2 ^ 30 /\ 0 <= height m < 2 ^ 30).
    { apply Forall_app in Hsmall. destruct Hsmall as [_ Hs].
      apply Forall_cons_1 in Hs. tauto. }
    rewrite (mia1321_get_reso_dist_exact m f) by tauto.
    assert (Hdist : 0 <= manhattan m f) by (unfold manhattan; lia).
    assert (Hs32 : s32 (Z.of_nat (length pre)) = Z.of_nat (length pre)).
    { rewrite length_app in Hlen. cbn [length] in Hlen.
      unfold s32. Z.div_mod_to_equations. lia. }
    assert (Hassoc : pre ++ m :: rest = (pre ++ [m]) ++ rest)
      by (rewrite <- app_assoc; reflexivity).
    assert (Hi : Z.of_nat (length pre) + 1 = Z.of_nat (length (pre ++ [m])))
      by (rewrite length_app; cbn [length]; lia).
    rewrite Hassoc in *. rewrite Hi.
    assert (Hne' : (pre ++ [m]) ++ rest <> [])
      by (destruct pre; discriminate).
    destruct Hinv as [[-> ->] | (mb & Hmb & Hbest & -> & Hall)].
    + change (-1 =? -1) with true. cbn [orb]. rewrite Hs32.
      apply IH; auto. right. exists m. cbn [app length Z.of_nat Z.to_nat].
      split; [reflexivity|]. split; [lia|]. split; [reflexivity|].
      intros [|j] m' Hj; [|destruct j; discriminate Hj].
      injection Hj as <-. split; [lia|lia].
    + assert (Hbd : 0 <= manhattan mb f) by (unfold manhattan; lia).
      assert (Hsent : (manhattan mb f =? -1) = false)
        by (apply Z.eqb_neq; lia).
      rewrite Hsent. cbn [orb].
      pose proof (lookup_lt_Some _ _ _ Hmb) as Hlt.
      destruct (manhattan m f <? manhattan mb f) eqn:Hcmp;
        [apply Z.ltb_lt in Hcmp | apply Z.ltb_ge in Hcmp].
      * rewrite Hs32. apply IH; auto. right. exists m.
        rewrite Nat2Z.id.
        split; [apply list_lookup_middle; reflexivity|].
        split; [lia|]. split; [reflexivity|].
        intros j m' Hj.
        destruct (decide (j < length pre)%nat) as [Hjl | Hjl].
        -- rewrite lookup_app_l in Hj by exact Hjl.
           destruct (Hall j m' Hj) as [Hle _]. lia.
        -- rewrite lookup_app_r in Hj by lia.
           destruct (j - length pre)%nat as [|n] eqn:Hn;
             [|destruct n; discriminate Hj].
           injection Hj as <-. split; [lia|lia].
      * apply IH; auto. right. exists mb.
        split; [rewrite lookup_app_l by exact Hlt; exact Hmb|].
        split; [exact Hbest|]. split; [reflexivity|].
        intros j m' Hj.
        destruct (decide (j < length pre)%nat) as [Hjl | Hjl].
        -- rewrite lookup_app_l in Hj by exact Hjl. exact (Hall j m' Hj).
        -- rewrite lookup_app_r in Hj by lia.
           destruct (j - length pre)%nat as [|n] eqn:Hn;
             [|destruct n; discriminate Hj].
           injection Hj as <-. split; [lia|lia].
Qed.

Lemma supported_modes_nearest_first f :
  lowest_nearest supported_modes 0 f.
Proof.
  exists (supported_modes_at 0). split; [reflexivity|].
  intros j m' Hj. split; [|lia].
  apply list_elem_of_lookup_2, list_elem_of_In in Hj.
  unfold supported_modes in Hj. cbn [In] in Hj.
  destruct Hj as [<- | [<- | [<- | []]]]; unfold manhattan;
    change (width (supported_modes_at 0)) with 1280;
    change (height (supported_modes_at 0)) with 1080;
    cbn [width height]; lia.
Qed.

Lemma mia1321_get_reso_dist_not_sentinel f :
  0 <= fmt_width f < 2 ^ 31 -> 0 <= fmt_height f < 2 ^ 31 ->
  mia1321_get_reso_dist (supported_modes_at 0) f <> -1.
Proof.
  intros Hw Hh. unfold mia1321_get_reso_dist.
  change (width (supported_modes_at 0)) with 1280.
  change (height (supported_modes_at 0)) with 1080.
  assert (Ha : forall c x, 1000 <= c < 2000 -> 0 <= x < 2 ^ 31 ->
             0 <= abs (u32 (c - x)) <= 2 ^ 31 - 1001).
  { intros c x Hc Hx. unfold abs, s32, u32.
    assert (Hs : ((c - x) mod 2 ^ 32 + 2 ^ 31) mod 2 ^ 32 - 2 ^ 31 = c - x)
      by (Z.div_mod_to_equations; lia).
    rewrite Hs. destruct (c - x <? 0) eqn:E;
      [apply Z.ltb_lt in E | apply Z.ltb_ge in E].
    - Z.div_mod_to_equations. lia.
    - lia. }
  pose proof (Ha 1280 (fmt_width f) ltac:(lia) Hw).
  pose proof (Ha 1080 (fmt_height f) ltac:(lia) Hh).
  unfold s32. Z.div_mod_to_equations. lia.
Qed.

(** C6, as amended.  [mia1321_set_fmt] overwrites the width, the height and
    the code of the request with those of the supported mode nearest to the
    requested size in Manhattan distance, the lowest index winning a tie
    (with three modes of one size: the first mode), and sets the field to
    [V4L2_FIELD_NONE].  An ACTIVE request also makes that mode the current
    one and updates the ranges of the hblank and vblank controls from its
    [hts_def] and [vts_def]; the result is 0.  A TRY request leaves the
    device alone: with [CONFIG_VIDEO_V4L2_SUBDEV_API] the format is stored
    as the pad's try format and the result is 0, without it the result is
    [-ENOTTY].  This is stated for the requests whose 32-bit distance does
    not come out as -1. *)
Theorem mia1321_set_fmt_spec (CONFIG_VIDEO_V4L2_SUBDEV_API : bool) env
    (fmt : v4l2_subdev_format) (w : world) :
  mia1321_get_reso_dist (supported_modes_at 0) (format fmt) <> -1 ->
  exists i mode,
    lowest_nearest supported_modes i (format fmt)
    /\ supported_modes !! i = Some mode
    /\ let fmt' :=
         {| which := which fmt;
            pad := pad fmt;
            format := {| fmt_width := width mode;
                         fmt_height := height mode;
                         fmt_code := bus_fmt mode;
                         fmt_field := V4L2_FIELD_NONE |} |} in
       let run := mia1321_set_fmt CONFIG_VIDEO_V4L2_SUBDEV_API env fmt w in
       if which fmt =? V4L2_SUBDEV_FORMAT_TRY then
         if CONFIG_VIDEO_V4L2_SUBDEV_API then
           exists r,
             run = ((0, fmt'),
                    World (dev w)
                      (log w ++ [(v4l2_subdev_set_try_format (pad fmt)
                                    (format fmt'), r)]))
         else run = ((- ENOTTY, fmt'), w)
       else
         let h_blank := hts_def mode - width mode in
         let vblank_def := vts_def mode - height mode in
         exists r1 r2,
           run = ((0, fmt'),
                  World (set_cur_fps (max_fps mode)
                           (set_cur_mode mode (dev w)))
                    (log w ++
                       [(__v4l2_ctrl_modify_range ctrl_hblank
                           h_blank h_blank 1 h_blank, r1);
                        (__v4l2_ctrl_modify_range ctrl_vblank
                           vblank_def (MIA1321_VTS_MAX - height mode)
                           1 vblank_def, r2)])).
Proof.
  intros Hd. exists 0%nat, (supported_modes_at 0).
  split; [apply supported_modes_nearest_first|]. split; [reflexivity|].
  cbv zeta. unfold mia1321_set_fmt.
  rewrite (mia1321_find_best_fit_first fmt Hd). cbn [which pad format].
  destruct (which fmt =? V4L2_SUBDEV_FORMAT_TRY).
  - destruct CONFIG_VIDEO_V4L2_SUBDEV_API.
    + rewrite bind_run, kcall_run, ret_run. eexists. reflexivity.
    + rewrite ret_run. reflexivity.
  - rewrite bind_run, modify_dev_run, bind_run, kcall_run, bind_run, kcall_run,
      bind_run, modify_dev_run, ret_run.
    cbn [dev log]. rewrite <- app_assoc. cbn [app].
    eexists _, _. reflexivity.
Qed.

(** *** HDR *)

Lemma set_hdr_cfg_loop_no_match modes i w h hdr :
  Forall (fun m => hdr_mode m <> cfg_hdr_mode hdr) modes ->
  mia1321_set_hdr_cfg_loop modes i w h hdr = (i + ARRAY_SIZE modes, None).
Proof.
  intros Hall. revert i. unfold ARRAY_SIZE.
  induction Hall as [|m modes Hm Hall IH]; intros i.
  - cbn. f_equal. lia.
  - cbn [mia1321_set_hdr_cfg_loop]. apply Z.eqb_neq in Hm.
    rewrite Hm, andb_false_r, IH. f_equal. cbn [length]. lia.
Qed.

(** C8.  Every supported mode has [hdr_mode] [NO_HDR].  Hence, the current
    mode being one of them, [mia1321_g_mbus_config] reports exactly the
    flags for 2 lanes, channel 0 and continuous clock, those of the
    channels 1 and 2 never being added; and [RKMODULE_SET_HDR_CFG] with any
    other [hdr_mode] than [NO_HDR] fails with [-EINVAL], the device, its
    current mode included, staying as it was and no call being made. *)
Theorem mia1321_single_exposure_only env (w : world) (pad_id : Z)
    (config : v4l2_mbus_config) (hdr : rkmodule_hdr_cfg) :
  In (cur_mode (dev w)) supported_modes ->
  cfg_hdr_mode hdr <> NO_HDR ->
  Forall (fun m => hdr_mode m = NO_HDR) supported_modes
  /\ mia1321_g_mbus_config pad_id config w
      = ((0, {| cfg_type := V4L2_MBUS_CSI2_DPHY;
                cfg_flags :=
                  Z.lor (Z.lor (Z.shiftl 1 (2 - 1)) V4L2_MBUS_CSI2_CHANNEL_0)
                    V4L2_MBUS_CSI2_CONTINUOUS_CLOCK |}), w)
  /\ mia1321_ioctl env (RKMODULE_SET_HDR_CFG hdr) w
      = ((- EINVAL, RKMODULE_SET_HDR_CFG hdr), w).
Proof.
  intros Hcur Hhdr.
  assert (Hall : Forall (fun m => hdr_mode m = NO_HDR) supported_modes)
    by (unfold supported_modes; repeat constructor).
  split; [exact Hall|]. split.
  - unfold mia1321_g_mbus_config. rewrite bind_run, get_dev_run, ret_run.
    rewrite (supported_modes_NO_HDR _ Hcur), Z.eqb_refl. cbn [negb].
    pose proof HDR_X3_not_NO_HDR as Hx3.
    assert (Hne : (NO_HDR =? HDR_X3) = false) by (apply Z.eqb_neq; congruence).
    rewrite Hne. reflexivity.
  - unfold mia1321_ioctl. rewrite bind_run, get_dev_run.
    rewrite set_hdr_cfg_loop_no_match.
    + rewrite bind_run, ret_run, ARRAY_SIZE_supported_modes.
      change (0 + 3 =? 3) with true. cbv iota. rewrite ret_run. reflexivity.
    + eapply Forall_impl; [exact Hall|].
      cbn beta. intros m Hm. rewrite Hm. congruence.
Qed.

(** *** Power *)

Lemma when_run (b : bool) (m : M unit) (w : world) :
  when b m w = if b then m w else (tt, w).
Proof. destruct b; reflexivity. Qed.

(** 316 us at 26 MHz are 8216 cycles. *)
Lemma mia1321_cal_delay_8192 :
  mia1321_cal_delay 8192 = 316 /\
  8192 * 1000000 <= mia1321_cal_delay 8192 * MIA1321_XVCLK_FREQ.
Proof. split; [reflexivity | vm_compute; discriminate]. Qed.

(** C9.  With thunderboot disabled [__mia1321_power_on] makes its calls in
    this order: it selects the default pin state (if there is one), sets
    the rate of xvclk, reads it back and enables the clock; if that fails it
    returns the error.  Otherwise it drives reset low (if there is a reset
    GPIO) and enables the regulators avdd, dovdd and dvdd; if that fails it
    disables the clock again and returns the regulators' error.  Otherwise
    it drives reset high, sleeps, raises pwdn (if there is a pwdn GPIO),
    sleeps, and last of all sleeps for at least [mia1321_cal_delay 8192]
    = 316 us, which at 26 MHz is no less than 8192 cycles of xvclk, and
    returns 0. *)
Theorem mia1321_power_on_sequence env (w : world) :
  is_thunderboot (dev w) = false ->
  supplies (dev w) = mia1321_supply_names ->
  let d := dev w in
  let pins :=
    if pins_default_IS_ERR_OR_NULL d then []
    else [pinctrl_select_state pins_default] in
  let reset value :=
    if reset_gpio_IS_ERR d then []
    else [gpiod_set_value_cansleep reset_gpio value] in
  let pwdn :=
    if pwdn_gpio_IS_ERR d then []
    else [gpiod_set_value_cansleep pwdn_gpio 1] in
  let settle :=
    if reset_gpio_IS_ERR d then usleep_range 12000 16000
    else usleep_range 6000 8000 in
  exists ret evs_clk r_clk evs,
    __mia1321_power_on env w
      = (ret,
         World (dev w) (log w ++ evs_clk ++ (clk_prepare_enable, r_clk) :: evs))
    /\ map fst evs_clk = pins ++ [clk_set_rate 26000000; clk_get_rate]
    /\ (if s32 (rv r_clk) <? 0 then evs = [] /\ ret = s32 (rv r_clk)
        else
          exists evs_rst r_reg evs',
            evs = evs_rst
                    ++ (regulator_bulk_enable 3
                          ["avdd"; "dovdd"; "dvdd"]%string, r_reg) :: evs'
            /\ map fst evs_rst = reset 0
            /\ (if s32 (rv r_reg) <? 0 then
                  map fst evs' = [clk_disable_unprepare]
                  /\ ret = s32 (rv r_reg)
                else
                  map fst evs' =
                    reset 1 ++ [usleep_range 500 1000] ++ pwdn
                      ++ [settle; usleep_range 316 632]
                  /\ ret = 0
                  /\ 8192 * 1000000 <= 316 * MIA1321_XVCLK_FREQ)).
Proof.
  intros Htb Hsup d pins reset pwdn settle.
  unfold __mia1321_power_on.
  rewrite bind_run, get_dev_run. fold d. fold d in Htb, Hsup.
  rewrite Htb, Hsup.
  change MIA1321_NUM_SUPPLIES with 3.
  change (mia1321_cal_delay 8192) with 316. change (u32 (316 * 2)) with 632.
  change MIA1321_XVCLK_FREQ with 26000000.
  (* pins *)
  rewrite bind_run, when_run.
  set (w1 := if negb (pins_default_IS_ERR_OR_NULL d)
             then kcall_void env (pinctrl_select_state pins_default) w
             else (tt, w)).
  assert (Hw1 : exists evs1, w1 = (tt, World d (log w ++ evs1))
                             /\ map fst evs1 = pins).
  { unfold w1, pins. destruct (pins_default_IS_ERR_OR_NULL d); cbn [negb].
    - exists []. rewrite app_nil_r. unfold d. rewrite world_eta. auto.
    - eexists. rewrite kcall_void_run. split; reflexivity. }
  destruct Hw1 as (evs1 & -> & Hevs1).
  (* clock *)
  rewrite bind_run, kcall_int_run, bind_run, kcall_run, bind_run, kcall_int_run.
  cbn [dev log].
  match goal with |- context [(clk_prepare_enable, ?r)] => set (r_clk := r) end.
  match goal with |- context [(clk_get_rate, ?r)] => set (r_get := r) end.
  match goal with |- context [(clk_set_rate 26000000, ?r)] =>
    set (r_set := r) end.
  set (evs_clk := evs1 ++ [(clk_set_rate 26000000, r_set); (clk_get_rate, r_get)]).
  assert (Hlog : ((log w ++ evs1) ++ [(clk_set_rate 26000000, r_set)])
                   ++ [(clk_get_rate, r_get)] = log w ++ evs_clk)
    by (unfold evs_clk; rewrite <- !app_assoc; reflexivity).
  rewrite Hlog. clearbody r_clk r_get r_set.
  assert (Hclk : map fst evs_clk
                 = pins ++ [clk_set_rate 26000000; clk_get_rate])
    by (unfold evs_clk; rewrite map_app, Hevs1; reflexivity).
  clearbody evs_clk. clear Hlog.
  destruct (s32 (rv r_clk) <? 0) eqn:Hrc.
  { rewrite ret_run. exists (s32 (rv r_clk)), evs_clk, r_clk, [].
    rewrite Hrc, <- app_assoc. auto. }
  (* reset low *)
  rewrite bind_run, when_run. cbn [dev log].
  set (w2 := if negb (reset_gpio_IS_ERR d) then _ else _).
  assert (Hw2 : exists evs2,
            w2 = (tt, World d ((log w ++ evs_clk ++ [(clk_prepare_enable, r_clk)])
                                 ++ evs2))
            /\ map fst evs2 = reset 0).
  { unfold w2, reset. rewrite <- app_assoc.
    destruct (reset_gpio_IS_ERR d); cbn [negb].
    - exists []. rewrite app_nil_r. auto.
    - eexists. rewrite kcall_void_run. split; reflexivity. }
  destruct Hw2 as (evs2 & -> & Hevs2).
  (* regulators *)
  rewrite bind_run, kcall_int_run. cbn [dev log].
  match goal with |- context [(regulator_bulk_enable 3 _, ?r)] =>
    set (r_reg := r) end.
  clearbody r_reg.
  destruct (s32 (rv r_reg) <? 0) eqn:Hrr.
  { rewrite bind_run, kcall_run, ret_run. cbn [dev log].
    eexists (s32 (rv r_reg)), evs_clk, r_clk, _. rewrite Hrc.
    split; [|split; [exact Hclk|]].
    - rewrite <- !app_assoc. cbn [app]. reflexivity.
    - exists evs2, r_reg. eexists. rewrite Hrr.
      split; [reflexivity|]. split; [exact Hevs2|]. split; reflexivity. }
  (* reset high, pwdn, the waits *)
  rewrite bind_run, when_run. cbn [dev log].
  set (w3 := if negb (reset_gpio_IS_ERR d) then _ else _).
  assert (Hw3 : exists evs3 l3,
            w3 = (tt, World d (l3 ++ evs3))
            /\ l3 = (((log w ++ evs_clk ++ [(clk_prepare_enable, r_clk)])
                       ++ evs2)
                      ++ [(regulator_bulk_enable 3 mia1321_supply_names, r_reg)])
            /\ map fst evs3 = reset 1).
  { unfold w3, reset. destruct (reset_gpio_IS_ERR d); cbn [negb].
    - exists []. eexists. rewrite app_nil_r. split; [reflexivity|]. auto.
    - eexists. eexists. rewrite kcall_void_run.
      split; [reflexivity|]. split; reflexivity. }
  destruct Hw3 as (evs3 & l3 & -> & Hl3 & Hevs3).
  rewrite bind_run, kcall_run, bind_run, when_run. cbn [dev log].
  match goal with |- context [(usleep_range 500 1000, ?r)] =>
    set (r_s1 := r) end.
  clearbody r_s1.
  set (w4 := if negb (pwdn_gpio_IS_ERR d) then _ else _).
  assert (Hw4 : exists evs4,
            w4 = (tt, World d (((l3 ++ evs3) ++ [(usleep_range 500 1000, r_s1)])
                                 ++ evs4))
            /\ map fst evs4 = pwdn).
  { unfold w4, pwdn. destruct (pwdn_gpio_IS_ERR d); cbn [negb].
    - exists []. rewrite app_nil_r. auto.
    - eexists. rewrite kcall_void_run. split; reflexivity. }
  destruct Hw4 as (evs4 & -> & Hevs4).
  rewrite bind_run.
  match goal with
  | |- context [(if negb (reset_gpio_IS_ERR d) then ?a else ?b) ?x] =>
      set (w5 := (if negb (reset_gpio_IS_ERR d) then a else b) x)
  end.
  assert (Hw5 : exists r_s2,
            w5 = (r_s2, World d ((((l3 ++ evs3)
                                     ++ [(usleep_range 500 1000, r_s1)])
                                    ++ evs4) ++ [(settle, r_s2)]))).
  { unfold w5, settle. destruct (reset_gpio_IS_ERR d); cbn [negb];
      rewrite kcall_run; eexists; reflexivity. }
  destruct Hw5 as (r_s2 & ->).
  rewrite bind_run, kcall_run, ret_run. cbn [dev log].
  match goal with |- context [(usleep_range 316 632, ?r)] =>
    set (r_s3 := r) end.
  clearbody r_s3. subst l3.
  eexists 0, evs_clk, r_clk, _. rewrite Hrc.
  split; [|split; [exact Hclk|]].
  - rewrite <- !app_assoc. cbn [app]. reflexivity.
  - exists evs2, r_reg. eexists. rewrite Hrr.
    split; [reflexivity|]. split; [exact Hevs2|].
    split; [|split; [reflexivity | vm_compute; discriminate]].
    repeat first [rewrite map_app | progress cbn [map fst]].
    rewrite Hevs3, Hevs4. rewrite <- ?app_assoc. reflexivity.
Qed.

(** *** Streaming *)

(** The last three calls of [__mia1321_start_stream]: streaming mode, then
    flip, then mirror.  Only the first decides the result. *)
Lemma stream_on_run env (w : world) :
  (ret ← mia1321_write_reg env MIA1321_REG_CTRL_MODE MIA1321_REG_VALUE_08BIT
           MIA1321_MODE_STREAMING;
   _ ← mia1321_write_reg env MIA1321_FLIP_REG MIA1321_REG_VALUE_08BIT 0x01;
   _ ← mia1321_write_reg env MIA1321_MIRROR_REG MIA1321_REG_VALUE_08BIT 0x01;
   mret (Some ret)) w
  = let c1 := i2c_master_send [0x01; 0x26; 0x00] 3 in
    let c2 := i2c_master_send [0x00; 0x99; 0x01] 3 in
    let c3 := i2c_master_send [0x00; 0x9a; 0x01] 3 in
    let r1 := env (log w) c1 in
    let r2 := env (log w ++ [(c1, r1)]) c2 in
    let r3 := env (log w ++ [(c1, r1); (c2, r2)]) c3 in
    (Some (if acked (c1, r1) then 0 else - EIO),
     World (dev w) (log w ++ [(c1, r1); (c2, r2); (c3, r3)])).
Proof.
  rewrite bind_run, write_reg_08bit. cbv beta iota zeta.
  rewrite bind_run, write_reg_08bit. cbv beta iota zeta. cbn [dev log].
  rewrite bind_run, write_reg_08bit. cbv beta iota zeta. cbn [dev log].
  rewrite ret_run, <- !app_assoc. cbn [app]. reflexivity.
Qed.

(** C10.  Whenever [__mia1321_start_stream] succeeds, the last three calls
    it made are, in this order, the write of 0 (streaming) to the mode
    register 0x0126, which was acknowledged, the write of 1 to the flip
    register 0x0099 and the write of 1 to the mirror register 0x009a;
    this holds for every state of the device, whatever the flip and mirror
    controls are set to and whatever the control handler did before. *)
Theorem mia1321_start_stream_flip_mirror env
    (__v4l2_ctrl_handler_setup : M Z) (w w' : world) :
  __mia1321_start_stream env __v4l2_ctrl_handler_setup w = (Some 0, w') ->
  exists evs r1 r2 r3,
    log w' = evs ++ [(i2c_master_send [0x01; 0x26; 0x00] 3, r1);
                     (i2c_master_send [0x00; 0x99; 0x01] 3, r2);
                     (i2c_master_send [0x00; 0x9a; 0x01] 3, r3)]
    /\ acked (i2c_master_send [0x01; 0x26; 0x00] 3, r1) = true.
Proof.
  pose proof errno_bounds as HE.
  assert (Htail : forall w0,
            (let c1 := i2c_master_send [0x01; 0x26; 0x00] 3 in
             let c2 := i2c_master_send [0x00; 0x99; 0x01] 3 in
             let c3 := i2c_master_send [0x00; 0x9a; 0x01] 3 in
             let r1 := env (log w0) c1 in
             let r2 := env (log w0 ++ [(c1, r1)]) c2 in
             let r3 := env (log w0 ++ [(c1, r1); (c2, r2)]) c3 in
             (Some (if acked (c1, r1) then 0 else - EIO),
              World (dev w0) (log w0 ++ [(c1, r1); (c2, r2); (c3, r3)])))
            = (Some 0, w') ->
            exists evs r1 r2 r3,
              log w' = evs ++ [(i2c_master_send [0x01; 0x26; 0x00] 3, r1);
                               (i2c_master_send [0x00; 0x99; 0x01] 3, r2);
                               (i2c_master_send [0x00; 0x9a; 0x01] 3, r3)]
              /\ acked (i2c_master_send [0x01; 0x26; 0x00] 3, r1) = true).
  { intros w0. cbv zeta. intros Heq.
    injection Heq as Hret Hw'. subst w'. cbn [log].
    eexists _, _, _, _. split; [reflexivity|].
    destruct (acked _) eqn:Hack in Hret; [|lia].
    exact Hack. }
  unfold __mia1321_start_stream. rewrite bind_run, get_dev_run, bind_run.
  destruct (is_thunderboot (dev w)); cbn [negb].
  - rewrite ret_run, stream_on_run. apply Htail.
  - rewrite bind_run.
    destruct (mia1321_write_array env (reg_list (cur_mode (dev w))) w)
      as [[ret|] w1].
    + destruct (ret =? 0) eqn:Hret; cbn [negb].
      * rewrite bind_run.
        destruct (__v4l2_ctrl_handler_setup w1) as [ret2 w2].
        destruct (ret2 =? 0) eqn:Hret2; cbn [negb]; rewrite ret_run.
        -- rewrite stream_on_run. apply Htail.
        -- rewrite ret_run. intros Heq. apply Z.eqb_neq in Hret2. congruence.
      * rewrite ret_run, ret_run. intros Heq. apply Z.eqb_neq in Hret.
        congruence.
    + rewrite ret_run, ret_run. discriminate.
Qed.

(** *** The current mode is always a supported one *)

Lemma supported_modes_at_In i :
  0 <= i < 3 -> In (supported_modes_at i) supported_modes.
Proof.
  intros Hi. assert (Hc : i = 0 \/ i = 1 \/ i = 2) by lia.
  destruct Hc as [-> | [-> | ->]]; unfold supported_modes_at, supported_modes;
    cbn [Z.to_nat Pos.to_nat Pos.iter_op Nat.add nth In]; auto.
Qed.

Lemma mia1321_find_best_fit_In fmt :
  In (mia1321_find_best_fit fmt) supported_modes.
Proof.
  unfold mia1321_find_best_fit. apply supported_modes_at_In.
  unfold supported_modes. cbn [mia1321_find_best_fit_loop].
  change (-1 =? -1) with true. cbn [orb].
  change (s32 0) with 0. change (s32 (0 + 1)) with 1.
  change (s32 (0 + 1 + 1)) with 2.
  repeat match goal with
         | |- context [if ?b then _ else _] => destruct b
         end; lia.
Qed.

(** [cur_mode] is set to [&supported_modes[0]] by [mia1321_probe], and the
    two functions that assign it keep it within the table. *)
Lemma cur_mode_stays_supported (CONFIG_VIDEO_V4L2_SUBDEV_API : bool) env
    fmt req (w : world) :
  In (cur_mode (dev w)) supported_modes ->
  In (cur_mode (dev (snd (mia1321_set_fmt CONFIG_VIDEO_V4L2_SUBDEV_API env
                            fmt w))))
    supported_modes
  /\ In (cur_mode (dev (snd (mia1321_ioctl env req w)))) supported_modes.
Proof.
  intros Hcur. split.
  - unfold mia1321_set_fmt. cbn [which pad format].
    destruct (which fmt =? V4L2_SUBDEV_FORMAT_TRY).
    + destruct CONFIG_VIDEO_V4L2_SUBDEV_API.
      * rewrite bind_run, kcall_run, ret_run. exact Hcur.
      * rewrite ret_run. exact Hcur.
    + rewrite bind_run, modify_dev_run, bind_run, kcall_run, bind_run,
        kcall_run, bind_run, modify_dev_run, ret_run.
      cbn [snd dev cur_mode set_cur_fps set_cur_mode].
      apply mia1321_find_best_fit_In.
  - unfold mia1321_ioctl. rewrite bind_run, get_dev_run.
    destruct req as [inf | hdr | hdr | | stream | cmd];
      try (rewrite ret_run; exact Hcur).
    + destruct (mia1321_set_hdr_cfg_loop supported_modes 0
                  (width (cur_mode (dev w))) (height (cur_mode (dev w))) hdr)
        as [i found] eqn:Hloop.
      assert (Hfound : match found with
                       | Some m => In m supported_modes
                       | None => True
                       end).
      { revert Hloop. unfold supported_modes.
        cbn [mia1321_set_hdr_cfg_loop].
        repeat match goal with
               | |- context [if ?b then _ else _] => destruct b
               end; intros [= <- <-]; cbn [In]; auto. }
      destruct found as [m|].
      * rewrite bind_run, modify_dev_run.
        destruct (i =? ARRAY_SIZE supported_modes).
        -- rewrite ret_run. exact Hfound.
        -- rewrite bind_run, get_dev_run, bind_run, kcall_run, bind_run,
             kcall_run, ret_run. exact Hfound.
      * rewrite bind_run, ret_run.
        destruct (i =? ARRAY_SIZE supported_modes).
        -- rewrite ret_run. exact Hcur.
        -- rewrite bind_run, get_dev_run, bind_run, kcall_run, bind_run,
             kcall_run, ret_run. exact Hcur.
    + rewrite bind_run.
      destruct (negb (stream =? 0)); rewrite write_reg_08bit;
        cbv beta iota zeta; rewrite ret_run; exact Hcur.
Qed.

(** *** The register lists of the supported modes *)

Lemma terminated_check (regs : list regval) :
  forallb (fun r => negb (addr r =? REG_NULL)) (removelast regs) = true ->
  List.last regs (R 0 0) = R REG_NULL 0x00 ->
  regs <> [] ->
  terminated regs.
Proof.
  intros Hall Hlast Hne. exists (removelast regs). split.
  - rewrite <- Hlast. apply app_removelast_last. exact Hne.
  - apply List.Forall_forall. intros r Hr.
    rewrite forallb_forall in Hall. specialize (Hall r Hr).
    apply negb_true_iff, Z.eqb_neq in Hall. exact Hall.
Qed.

Lemma supported_modes_reg_list_terminated m :
  In m supported_modes -> terminated (reg_list m).
Proof.
  unfold supported_modes. cbn [In].
  intros [<- | [<- | [<- | []]]]; cbn [reg_list];
    (apply terminated_check; [vm_compute; reflexivity | reflexivity
                              | discriminate]).
Qed.

(** On a terminated table the walk yields a result. *)
Lemma mia1321_write_array_returns env (pre : list regval) (w : world) :
  Forall (fun r => addr r <> REG_NULL) pre ->
  exists ret w',
    mia1321_write_array env (pre ++ [R REG_NULL 0x00]) w = (Some ret, w').
Proof.
  intros Hpre. revert w.
  induction Hpre as [|r pre Hr Hpre IH]; intros w.
  - exists 0, w. reflexivity.
  - cbn [app mia1321_write_array].
    apply Z.eqb_neq in Hr. rewrite Hr. cbn [negb].
    destruct (addr r =? REG_DELAY).
    + rewrite bind_run, kcall_run. apply IH.
    + rewrite bind_run, write_reg_08bit. cbv beta iota zeta.
      destruct (_ =? 0); [apply IH|].
      rewrite ret_run. eexists _, _. reflexivity.
Qed.

(** On the register list of a supported mode the walk never leaves the
    table, so [__mia1321_start_stream] always yields a result. *)
Lemma mia1321_start_stream_defined env (__v4l2_ctrl_handler_setup : M Z)
    (w : world) :
  In (cur_mode (dev w)) supported_modes ->
  exists ret w',
    __mia1321_start_stream env __v4l2_ctrl_handler_setup w = (Some ret, w').
Proof.
  intros Hcur. unfold __mia1321_start_stream.
  rewrite bind_run, get_dev_run, bind_run.
  destruct (is_thunderboot (dev w)); cbn [negb].
  - rewrite ret_run, stream_on_run. cbv zeta. eexists _, _. reflexivity.
  - destruct (supported_modes_reg_list_terminated _ Hcur) as (pre & Hregs & Hpre).
    destruct (mia1321_write_array_returns env pre w Hpre) as (ret & w1 & Hrun).
    rewrite bind_run, Hregs, Hrun.
    destruct (ret =? 0); cbn [negb].
    + rewrite bind_run.
      destruct (__v4l2_ctrl_handler_setup _) as [ret2 w2].
      destruct (ret2 =? 0); cbn [negb]; rewrite ret_run.
      * rewrite stream_on_run. cbv zeta. eexists _, _. reflexivity.
      * rewrite ret_run. eexists _, _. reflexivity.
    + rewrite !ret_run. eexists _, _. reflexivity.
Qed.

End Properties.

(** ** The theorems at work, on the Linux 5.10 values *)

Lemma dev0_cur_mode_supported :
  In (cur_mode (dev world0)) (supported_modes (K := linux)).
Proof. left. reflexivity. Qed.

(** A table with a delay entry, walked on a bus that acknowledges. *)
Lemma mia1321_write_array_walk_witness :
  Forall (fun r => addr r <> REG_NULL)
    [R 0x011d 0x00; R REG_DELAY 0x05; R 0x0126 0x00]
  /\ addr (R REG_NULL 0x00) = REG_NULL
  /\ exists ret evs k,
       mia1321_write_array (K := linux) env_ok
         ([R 0x011d 0x00; R REG_DELAY 0x05; R 0x0126 0x00]
            ++ R REG_NULL 0x00 :: [])
         world0
       = (Some ret, World (dev world0) (log world0 ++ evs))
       /\ (k <= 3)%nat
       /\ map fst evs =
            map entry_call
              (take k [R 0x011d 0x00; R REG_DELAY 0x05; R 0x0126 0x00])
       /\ ((k = 3%nat /\ forallb acked evs = true /\ ret = 0)
           \/ (exists evs0 e, evs = evs0 ++ [e] /\ forallb acked evs0 = true
                  /\ acked e = false /\ ret = - EIO)).
Proof.
  assert (Hpre : Forall (fun r => addr r <> REG_NULL)
                   [R 0x011d 0x00; R REG_DELAY 0x05; R 0x0126 0x00])
    by (repeat constructor; discriminate).
  split; [exact Hpre|]. split; [reflexivity|].
  exact (mia1321_write_array_walk (K := linux) env_ok
           [R 0x011d 0x00; R REG_DELAY 0x05; R 0x0126 0x00] []
           (R REG_NULL 0x00) world0 Hpre eq_refl).
Defined.

Example mia1321_write_array_delay :
  mia1321_write_array (K := linux) env_ok
    [R 0x011d 0x00; R REG_DELAY 0x05; R 0x0126 0x00; R REG_NULL 0x00;
     R 0x0001 0x02] world0
  = (Some 0,
     World dev0 [(i2c_master_send [0x01; 0x1d; 0x00] 3, Reply 3 []);
                 (mdelay 5, Reply 0 []);
                 (i2c_master_send [0x01; 0x26; 0x00] 3, Reply 3 [])]).
Proof. reflexivity. Qed.

Example mia1321_write_array_no_sensor :
  mia1321_write_array (K := linux) env_no_sensor
    [R 0x011d 0x00; R REG_DELAY 0x05; R 0x0126 0x00; R REG_NULL 0x00] world0
  = (Some (-5),
     World dev0 [(i2c_master_send [0x01; 0x1d; 0x00] 3, Reply (-6) [])]).
Proof. reflexivity. Qed.

(** The exposure 0x123456 on a device in use. *)
Lemma mia1321_set_ctrl_exposure_witness :
  In (cur_mode (dev world0)) (supported_modes (K := linux))
  /\ exists ret r1 r2 r3 r4,
       mia1321_set_ctrl (K := linux) env_ok V4L2_CID_EXPOSURE 0x123456 world0
       = (ret,
          World dev0
            [(pm_runtime_get_if_in_use, Reply 1 []);
             (i2c_master_send [0x00; 0xcf; 0x12] 3, r1);
             (i2c_master_send [0x00; 0xce; 0x34] 3, r2);
             (i2c_master_send [0x00; 0xcd; 0x56] 3, r3);
             (pm_runtime_put, r4)]).
Proof.
  split; [exact dev0_cur_mode_supported|].
  exact (mia1321_set_ctrl_exposure (K := linux) env_ok 0x123456 world0
           dev0_cur_mode_supported).
Defined.

(** C1 as stated fails on a runtime-suspended device: the exposure control
    is set, [mia1321_set_ctrl] returns 0, and not one register is written. *)
Lemma mia1321_set_ctrl_exposure_suspended :
  In (cur_mode (dev world0)) (supported_modes (K := linux))
  /\ mia1321_set_ctrl (K := linux) env_suspended V4L2_CID_EXPOSURE 0x123456
       world0
     = (0, World dev0 [(pm_runtime_get_if_in_use, Reply 0 [])])
  /\ i2c_calls
       (log (snd (mia1321_set_ctrl (K := linux) env_suspended
                    V4L2_CID_EXPOSURE 0x123456 world0))) = [].
Proof.
  split; [exact dev0_cur_mode_supported|]. split; reflexivity.
Qed.

(** C3 as stated fails even on a device in use: neither control leads to a
    single I2C transaction. *)
Lemma mia1321_set_ctrl_vblank_test_pattern_silent :
  mia1321_set_ctrl (K := linux) env_ok V4L2_CID_VBLANK 120 world0
    = (0,
       World (set_cur_vts 0x04b0 dev0)
         [(__v4l2_ctrl_modify_range ctrl_exposure 1 1199 1 0x01f4, Reply 0 []);
          (pm_runtime_get_if_in_use, Reply 1 []);
          (pm_runtime_put, Reply 0 [])])
  /\ mia1321_set_ctrl (K := linux) env_ok V4L2_CID_TEST_PATTERN 1 world0
    = (0,
       World dev0
         [(pm_runtime_get_if_in_use, Reply 1 []);
          (pm_runtime_put, Reply 0 [])])
  /\ i2c_calls
       (log (snd (mia1321_set_ctrl (K := linux) env_ok V4L2_CID_VBLANK 120
                    world0))) = []
  /\ i2c_calls
       (log (snd (mia1321_set_ctrl (K := linux) env_ok V4L2_CID_TEST_PATTERN
                    1 world0))) = [].
Proof. repeat split. Qed.

(** A VGA request, ACTIVE. *)
Lemma mia1321_set_fmt_spec_witness :
  mia1321_get_reso_dist (supported_modes_at (K := linux) 0)
    (format (fmt_vga 1)) <> -1
  /\ exists i mode,
       lowest_nearest (supported_modes (K := linux)) i (format (fmt_vga 1))
       /\ supported_modes (K := linux) !! i = Some mode
       /\ exists r1 r2,
            mia1321_set_fmt (K := linux) true env_ok (fmt_vga 1) world0
            = ((0,
                {| which := 1; pad := 0;
                   format := {| fmt_width := width mode;
                                fmt_height := height mode;
                                fmt_code := bus_fmt mode;
                                fmt_field := 1 |} |}),
               World (set_cur_fps (max_fps mode) (set_cur_mode mode dev0))
                 [(__v4l2_ctrl_modify_range ctrl_hblank
                     (hts_def mode - width mode) (hts_def mode - width mode)
                     1 (hts_def mode - width mode), r1);
                  (__v4l2_ctrl_modify_range ctrl_vblank
                     (vts_def mode - height mode) (0xffff - height mode)
                     1 (vts_def mode - height mode), r2)]).
Proof.
  assert (Hd : mia1321_get_reso_dist (supported_modes_at (K := linux) 0)
                 (format (fmt_vga 1)) <> -1)
    by (vm_compute; discriminate).
  split; [exact Hd|].
  exact (mia1321_set_fmt_spec (K := linux) true env_ok (fmt_vga 1) world0 Hd).
Defined.

Example mia1321_set_fmt_vga :
  mia1321_set_fmt (K := linux) true env_ok (fmt_vga 1) world0
  = ((0,
      {| which := 1; pad := 0;
         format := {| fmt_width := 1280; fmt_height := 1080;
                      fmt_code := 0x300a; fmt_field := 1 |} |}),
     World (set_cur_fps {| numerator := 10000; denominator := 600000 |}
              (set_cur_mode (supported_modes_at (K := linux) 0) dev0))
       [(__v4l2_ctrl_modify_range ctrl_hblank 1384 1384 1 1384, Reply 0 []);
        (__v4l2_ctrl_modify_range ctrl_vblank 120 64455 1 120, Reply 0 [])]).
Proof. reflexivity. Qed.

(** C6 as stated fails for a TRY request on a kernel built without
    [CONFIG_VIDEO_V4L2_SUBDEV_API]: the result is [-ENOTTY], not 0. *)
Lemma mia1321_set_fmt_try_ENOTTY :
  mia1321_set_fmt (K := linux) false env_ok (fmt_vga 0) world0
    = ((-25,
        {| which := 0; pad := 0;
           format := {| fmt_width := 1280; fmt_height := 1080;
                        fmt_code := 0x300a; fmt_field := 1 |} |}),
       world0)
  /\ fst (fst (mia1321_set_fmt (K := linux) false env_ok (fmt_vga 0) world0))
     <> 0.
Proof. split; [reflexivity | vm_compute; discriminate]. Qed.

(** The requests left out of C6: here the distance is computed as
    [INT_MIN + INT_MAX] = -1, every mode passes the test
    [cur_best_fit_dist == -1], and the last mode, with the 12-bit code,
    is chosen although all three modes are equally near. *)
Example mia1321_set_fmt_sentinel :
  mia1321_get_reso_dist (supported_modes_at (K := linux) 0) (format fmt_far)
    = -1
  /\ mia1321_find_best_fit (K := linux) fmt_far
     = supported_modes_at (K := linux) 2
  /\ fmt_code (format (snd (fst (mia1321_set_fmt (K := linux) true env_ok
                                   fmt_far world0))))
     = MEDIA_BUS_FMT_SGRBG12_1X12
  /\ lowest_nearest (supported_modes (K := linux)) 0 (format fmt_far).
Proof.
  split; [reflexivity|]. split; [reflexivity|]. split; [reflexivity|].
  apply supported_modes_nearest_first.
Qed.

(** A request for [HDR_X2] on the device in its first mode. *)
Lemma mia1321_single_exposure_only_witness :
  In (cur_mode (dev world0)) (supported_modes (K := linux))
  /\ cfg_hdr_mode {| cfg_hdr_mode := 5; cfg_esp_mode := 0 |} <> NO_HDR
  /\ Forall (fun m => hdr_mode m = NO_HDR) (supported_modes (K := linux))
  /\ mia1321_g_mbus_config (K := linux) 0
       {| cfg_type := 0; cfg_flags := 0 |} world0
     = ((0, {| cfg_type := 5; cfg_flags := 0x112 |}), world0)
  /\ mia1321_ioctl (K := linux) env_ok
       (RKMODULE_SET_HDR_CFG {| cfg_hdr_mode := 5; cfg_esp_mode := 0 |})
       world0
     = ((-22, RKMODULE_SET_HDR_CFG {| cfg_hdr_mode := 5; cfg_esp_mode := 0 |}),
        world0).
Proof.
  assert (Hhdr : cfg_hdr_mode {| cfg_hdr_mode := 5; cfg_esp_mode := 0 |}
                 <> NO_HDR (Kernel := linux)) by discriminate.
  split; [exact dev0_cur_mode_supported|]. split; [exact Hhdr|].
  exact (mia1321_single_exposure_only (K := linux) env_ok world0 0
           {| cfg_type := 0; cfg_flags := 0 |}
           {| cfg_hdr_mode := 5; cfg_esp_mode := 0 |}
           dev0_cur_mode_supported Hhdr).
Defined.

(** The flags reported are those of 2 lanes (bit 1), channel 0 (bit 4) and
    continuous clock (bit 8); the bits of channel 1 and channel 2 are
    clear. *)
Example mia1321_g_mbus_config_flags :
  let flags :=
    cfg_flags (snd (fst (mia1321_g_mbus_config (K := linux) 0
                           {| cfg_type := 0; cfg_flags := 0 |} world0))) in
  flags = Z.lor (Z.lor (BIT 1) (BIT 4)) (BIT 8)
  /\ Z.land flags V4L2_MBUS_CSI2_CHANNEL_1 = 0
  /\ Z.land flags V4L2_MBUS_CSI2_CHANNEL_2 = 0.
Proof. repeat split. Qed.

(** Power-on of the example board. *)
Lemma mia1321_power_on_sequence_witness :
  is_thunderboot (dev world0) = false
  /\ supplies (dev world0) = mia1321_supply_names
  /\ exists ret evs_clk r_clk evs,
       __mia1321_power_on env_ok world0
       = (ret, World dev0 (evs_clk ++ (clk_prepare_enable, r_clk) :: evs))
       /\ map fst evs_clk =
            [pinctrl_select_state pins_default;
             clk_set_rate 26000000; clk_get_rate]
       /\ (if s32 (rv r_clk) <? 0 then evs = [] /\ ret = s32 (rv r_clk)
           else
             exists evs_rst r_reg evs',
               evs = evs_rst
                       ++ (regulator_bulk_enable 3
                             ["avdd"; "dovdd"; "dvdd"]%string, r_reg) :: evs'
               /\ map fst evs_rst = [gpiod_set_value_cansleep reset_gpio 0]
               /\ (if s32 (rv r_reg) <? 0 then
                     map fst evs' = [clk_disable_unprepare]
                     /\ ret = s32 (rv r_reg)
                   else
                     map fst evs' =
                       [gpiod_set_value_cansleep reset_gpio 1;
                        usleep_range 500 1000;
                        gpiod_set_value_cansleep pwdn_gpio 1;
                        usleep_range 6000 8000;
                        usleep_range 316 632]
                     /\ ret = 0
                     /\ 8192 * 1000000 <= 316 * MIA1321_XVCLK_FREQ)).
Proof.
  split; [reflexivity|]. split; [reflexivity|].
  exact (mia1321_power_on_sequence env_ok world0 eq_refl eq_refl).
Defined.

Example mia1321_power_on_ok :
  exists evs,
    __mia1321_power_on env_ok world0 = (0, World dev0 evs)
    /\ map fst evs =
         [pinctrl_select_state pins_default;
          clk_set_rate 26000000; clk_get_rate; clk_prepare_enable;
          gpiod_set_value_cansleep reset_gpio 0;
          regulator_bulk_enable 3 ["avdd"; "dovdd"; "dvdd"]%string;
          gpiod_set_value_cansleep reset_gpio 1;
          usleep_range 500 1000;
          gpiod_set_value_cansleep pwdn_gpio 1;
          usleep_range 6000 8000;
          usleep_range 316 632].
Proof.
  exists (log (snd (__mia1321_power_on env_ok world0))). split; reflexivity.
Qed.

Example mia1321_power_on_no_power :
  exists evs,
    __mia1321_power_on env_no_power world0 = (-16, World dev0 evs)
    /\ map fst evs =
         [pinctrl_select_state pins_default;
          clk_set_rate 26000000; clk_get_rate; clk_prepare_enable;
          gpiod_set_value_cansleep reset_gpio 0;
          regulator_bulk_enable 3 ["avdd"; "dovdd"; "dvdd"]%string;
          clk_disable_unprepare].
Proof.
  exists (log (snd (__mia1321_power_on env_no_power world0))).
  split; reflexivity.
Qed.

(** A stream start that succeeds, in the first mode. *)
Lemma mia1321_start_stream_flip_mirror_witness :
  __mia1321_start_stream (K := linux) env_ok (mret 0) world0
    = (Some 0,
       snd (__mia1321_start_stream (K := linux) env_ok (mret 0) world0))
  /\ exists evs r1 r2 r3,
       log (snd (__mia1321_start_stream (K := linux) env_ok (mret 0) world0))
       = evs ++ [(i2c_master_send [0x01; 0x26; 0x00] 3, r1);
                 (i2c_master_send [0x00; 0x99; 0x01] 3, r2);
                 (i2c_master_send [0x00; 0x9a; 0x01] 3, r3)]
       /\ acked (i2c_master_send [0x01; 0x26; 0x00] 3, r1) = true.
Proof.
  assert (Hrun : __mia1321_start_stream (K := linux) env_ok (mret 0) world0
                 = (Some 0,
                    snd (__mia1321_start_stream (K := linux) env_ok (mret 0)
                           world0)))
    by (vm_compute; reflexivity).
  split; [exact Hrun|].
  exact (mia1321_start_stream_flip_mirror (K := linux) env_ok (mret 0) world0
           _ Hrun).
Defined.

(** Sensor detection on the example board, and with nothing on the bus. *)
Example mia1321_check_sensor_id_found :
  mia1321_check_sensor_id (K := linux) env_ok world0
    = (0, World dev0 [(i2c_transfer [0x00; 0x11] 2, Reply 2 [0x04; 0x00])]).
Proof. reflexivity. Qed.

Example mia1321_check_sensor_id_absent :
  mia1321_check_sensor_id (K := linux) env_no_sensor world0
    = (-19, World dev0 [(i2c_transfer [0x00; 0x11] 2, Reply (-6) [])]).
Proof. reflexivity. Qed.

(** The size of the third mode cannot be enumerated with its own code. *)
Example mia1321_enum_frame_sizes_third_mode :
  fst (mia1321_enum_frame_sizes (K := linux)
         {| fse_index := 2; fse_code := MEDIA_BUS_FMT_SGRBG12_1X12;
            min_width := 0; max_width := 0;
            min_height := 0; max_height := 0 |}) = -22
  /\ mia1321_enum_frame_sizes (K := linux)
       {| fse_index := 2; fse_code := MEDIA_BUS_FMT_SGRBG10_1X10;
          min_width := 0; max_width := 0; min_height := 0; max_height := 0 |}
     = (0, {| fse_index := 2; fse_code := 0x300a;
              min_width := 1280; max_width := 1280;
              min_height := 1080; max_height := 1080 |}).
Proof. split; reflexivity. Qed.

(** The gains around the gap. *)
Example mia1321_set_gain_reg_samples :
  map fst (log (snd (mia1321_set_gain_reg (K := linux) env_ok 25600 world0)))
    = [i2c_master_send [0x00; 0x1b; 0x32] 3;
       i2c_master_send [0x00; 0x19; 0x01] 3;
       i2c_master_send [0x00; 0x18; 0x70] 3]
  /\ map fst (log (snd (mia1321_set_gain_reg (K := linux) env_ok 25601 world0)))
    = [i2c_master_send [0x00; 0x1b; 0x1f] 3;
       i2c_master_send [0x00; 0x19; 0x00] 3;
       i2c_master_send [0x00; 0x18; 0x00] 3]
  /\ map fst (log (snd (mia1321_set_gain_reg (K := linux) env_ok 47998 world0)))
    = [i2c_master_send [0x00; 0x1b; 0x1f] 3;
       i2c_master_send [0x00; 0x19; 0x00] 3;
       i2c_master_send [0x00; 0x18; 0x00] 3]
  /\ map fst (log (snd (mia1321_set_gain_reg (K := linux) env_ok 48000 world0)))
    = [i2c_master_send [0x00; 0x1b; 0x32] 3;
       i2c_master_send [0x00; 0x19; 0x01] 3;
       i2c_master_send [0x00; 0x18; 0x70] 3].
Proof. repeat split. Qed.

(** ** Further properties of the driver *)

Section MoreProperties.

Context {K : Kernel}.

(** *** Register access, for every length *)

Lemma byte_of_range k x : 0 <= byte_of k x < 256.
Proof.
  unfold byte_of. rewrite land_255_mod. apply Z.mod_pos_bound. lia.
Qed.

Lemma u8_byte_of k x : u8 (byte_of k x) = byte_of k x.
Proof.
  unfold u8. apply Z.mod_small. apply byte_of_range.
Qed.

Lemma write_frame_length reg len val :
  0 <= len <= 4 -> Z.of_nat (length (write_frame reg len val)) = len + 2.
Proof.
  intros Hlen. unfold write_frame, cpu_to_be32.
  rewrite length_app, length_drop. cbn [length]. lia.
Qed.

Lemma write_frame_bytes reg len val :
  Forall (fun b => 0 <= b < 256) (write_frame reg len val).
Proof.
  unfold write_frame. apply Forall_app. split.
  - constructor; [unfold u8; apply Z.mod_pos_bound; lia|].
    constructor; [rewrite land_255_mod; apply Z.mod_pos_bound; lia|].
    constructor.
  - apply Forall_drop. unfold cpu_to_be32.
    repeat (constructor; [apply byte_of_range|]). constructor.
Qed.

(** X1.  A write of more than 4 bytes is refused with [-EINVAL] before
    anything reaches the bus.  Otherwise [mia1321_write_reg] makes exactly
    one [i2c_master_send]: its buffer holds [len + 2] bytes, as many as the
    count passed with it, all within 0..255; the result is 0 when the bus
    took them all and [-EIO] if not.  The device state is never touched. *)
Theorem mia1321_write_reg_frame env (reg len val : Z) (w : world) :
  0 <= len ->
  if 4 <? len then mia1321_write_reg env reg len val w = (- EINVAL, w)
  else
    let c := i2c_master_send (write_frame reg len val) (len + 2) in
    let r := env (log w) c in
    mia1321_write_reg env reg len val w
      = (if acked (c, r) then 0 else - EIO, World (dev w) (log w ++ [(c, r)]))
    /\ Z.of_nat (length (write_frame reg len val)) = len + 2
    /\ Forall (fun b => 0 <= b < 256) (write_frame reg len val).
Proof.
  intros Hlen. unfold mia1321_write_reg.
  destruct (4 <? len) eqn:H4; [reflexivity|].
  apply Z.ltb_ge in H4. cbv zeta.
  split; [|split; [apply write_frame_length; lia | apply write_frame_bytes]].
  fold (write_frame reg len val).
  rewrite bind_run, kcall_int_run. unfold acked. cbn [fst snd].
  destruct (u32 (s32 (rv (env (log w)
              (i2c_master_send (write_frame reg len val) (len + 2)))))
            =? len + 2); reflexivity.
Qed.

(** The value of a big-endian byte string. *)
Lemma be32_to_cpu_app (xs ys : list Z) :
  be32_to_cpu (xs ++ ys)
  = be32_to_cpu xs * 256 ^ Z.of_nat (length ys) + be32_to_cpu ys.
Proof.
  unfold be32_to_cpu. rewrite fold_left_app.
  generalize (fold_left (fun acc b => acc * 256 + b) xs 0) as a.
  induction ys as [|y ys IH]; intros a.
  - cbn. lia.
  - cbn [fold_left length]. rewrite IH, (IH (0 * 256 + y)).
    rewrite Nat2Z.inj_succ, Z.pow_succ_r by lia. lia.
Qed.

Lemma be32_to_cpu_zeros n : be32_to_cpu (replicate n 0) = 0.
Proof.
  induction n as [|n IH]; [reflexivity|].
  change (replicate (S n) 0) with ([0] ++ replicate n 0).
  rewrite be32_to_cpu_app, IH. reflexivity.
Qed.

Lemma be32_to_cpu_bound (bs : list Z) :
  Forall (fun b => 0 <= b < 256) bs ->
  0 <= be32_to_cpu bs < 256 ^ Z.of_nat (length bs).
Proof.
  induction bs as [|b bs IH] using rev_ind; intros Hbs.
  - cbn. lia.
  - apply Forall_app in Hbs. destruct Hbs as [Hbs Hb].
    apply Forall_cons_1 in Hb. destruct Hb as [Hb _].
    specialize (IH Hbs). rewrite be32_to_cpu_app, length_app.
    cbn [length]. change (be32_to_cpu [b]) with (0 * 256 + b).
    replace (Z.of_nat (length bs + 1)) with (Z.succ (Z.of_nat (length bs)))
      by lia.
    rewrite Z.pow_succ_r by lia. cbn [Z.of_nat Pos.of_succ_nat]. nia.
Qed.

(** What [mia1321_read_reg] does for a length it accepts. *)
Lemma read_reg_run env reg len val0 w :
  1 <= len <= 4 ->
  mia1321_read_reg env reg len val0 w =
    let c := i2c_transfer [byte_of 1 reg; byte_of 0 reg] len in
    let r := env (log w) c in
    let n := Z.to_nat len in
    ((if s32 (rv r) =? 2 then 0 else - EIO,
      if s32 (rv r) =? 2 then
        be32_to_cpu (take n (map u8 (rdata r) ++ replicate n 0))
      else val0),
     World (dev w) (log w ++ [(c, r)])).
Proof.
  intros Hlen. unfold mia1321_read_reg.
  assert (H4 : (4 <? len) = false) by (apply Z.ltb_ge; lia).
  assert (H0 : (len =? 0) = false) by (apply Z.eqb_neq; lia).
  rewrite H4, H0. cbn [orb]. cbv zeta.
  rewrite bind_run, kcall_run.
  destruct (s32 (rv (env (log w) (i2c_transfer [byte_of 1 reg; byte_of 0 reg] len)))
            =? 2); cbn [negb]; rewrite ret_run; [|reflexivity].
  rewrite be32_to_cpu_app, be32_to_cpu_zeros. reflexivity.
Qed.

(** X2.  [mia1321_read_reg] refuses a length of 0 or of more than 4 with
    [-EINVAL] without any transfer.  Otherwise it makes one [i2c_transfer]
    and either succeeds, with a value below [2^(8 len)], or fails with
    [-EIO].  On every error [*val] is left as it was. *)
Theorem mia1321_read_reg_spec env (reg len val0 : Z) (w : world) :
  0 <= len ->
  let '((ret, val), w') := mia1321_read_reg env reg len val0 w in
  if (len =? 0) || (4 <? len) then
    ret = - EINVAL /\ val = val0 /\ w' = w
  else
    let c := i2c_transfer [byte_of 1 reg; byte_of 0 reg] len in
    w' = World (dev w) (log w ++ [(c, env (log w) c)])
    /\ ((ret = 0 /\ 0 <= val < 2 ^ (8 * len))
        \/ (ret = - EIO /\ val = val0)).
Proof.
  intros Hlen.
  destruct ((len =? 0) || (4 <? len)) eqn:Hbad.
  { unfold mia1321_read_reg. rewrite orb_comm, Hbad, ret_run. auto. }
  apply orb_false_elim in Hbad. destruct Hbad as [H0 H4].
  apply Z.eqb_neq in H0. apply Z.ltb_ge in H4.
  rewrite read_reg_run by lia. cbv zeta.
  set (r := env (log w)
              (i2c_transfer [byte_of 1 reg; byte_of 0 reg] len)).
  split; [reflexivity|].
  destruct (s32 (rv r) =? 2); [left | right; auto].
  split; [reflexivity|].
  set (n := Z.to_nat len).
  assert (Hb : Forall (fun b => 0 <= b < 256)
                 (take n (map u8 (rdata r) ++ replicate n 0))).
  { apply Forall_take, Forall_app. split.
    - apply List.Forall_forall. intros b Hb. apply in_map_iff in Hb.
      destruct Hb as (x & <- & _). unfold u8. apply Z.mod_pos_bound. lia.
    - apply Forall_replicate. lia. }
  pose proof (be32_to_cpu_bound _ Hb) as Hbound.
  assert (Hl : length (take n (map u8 (rdata r) ++ replicate n 0)) = n).
  { rewrite length_take, length_app, length_replicate. lia. }
  rewrite Hl in Hbound. unfold n in Hbound. rewrite Z2Nat.id in Hbound by lia.
  replace (2 ^ (8 * len)) with (256 ^ len); [exact Hbound|].
  change 256 with (2 ^ 8). rewrite <- Z.pow_mul_r by lia. reflexivity.
Qed.


Lemma byte_of_div k x : 0 <= k -> byte_of k x = (x / 2 ^ (8 * k)) mod 2 ^ 8.
Proof.
  intros Hk. unfold byte_of. rewrite land_255_mod, Z.shiftr_div_pow2 by lia.
  reflexivity.
Qed.

(** X3.  Writing and reading use the same byte order: when the sensor
    answers a read of [len] bytes with the value bytes that a write of
    [val] with the same length puts on the bus, [mia1321_read_reg] yields
    [val] reduced to [len] bytes. *)
Theorem mia1321_write_read_round_trip env (reg len val val0 : Z) (w : world) :
  1 <= len <= 4 ->
  let c := i2c_transfer [byte_of 1 reg; byte_of 0 reg] len in
  s32 (rv (env (log w) c)) = 2 ->
  rdata (env (log w) c) = drop 2 (write_frame reg len val) ->
  fst (mia1321_read_reg env reg len val0 w) = (0, val mod 2 ^ (8 * len)).
Proof.
  intros Hlen c Hok Hdata. rewrite read_reg_run by lia. cbv zeta.
  fold c. rewrite Hok. cbn [fst Z.eqb Pos.eqb]. f_equal.
  assert (Hc : len = 1 \/ len = 2 \/ len = 3 \/ len = 4) by lia.
  destruct Hc as [-> | [-> | [-> | ->]]].
  - change (drop 2 (write_frame reg 1 val)) with [byte_of 0 val] in Hdata.
    rewrite Hdata.
    change (be32_to_cpu _) with (0 * 256 + u8 (byte_of 0 val)).
    rewrite !u8_byte_of, !byte_of_div by lia.
    cbn [Z.mul Pos.mul]. rewrite ?Z.pow_0_r, ?Z.div_1_r.
    Z.div_mod_to_equations. lia.
  - change (drop 2 (write_frame reg 2 val))
      with [byte_of 1 val; byte_of 0 val] in Hdata.
    rewrite Hdata.
    change (be32_to_cpu _)
      with ((0 * 256 + u8 (byte_of 1 val)) * 256 + u8 (byte_of 0 val)).
    rewrite !u8_byte_of, !byte_of_div by lia.
    cbn [Z.mul Pos.mul]. rewrite ?Z.pow_0_r, ?Z.div_1_r.
    Z.div_mod_to_equations. lia.
  - change (drop 2 (write_frame reg 3 val))
      with [byte_of 2 val; byte_of 1 val; byte_of 0 val] in Hdata.
    rewrite Hdata.
    change (be32_to_cpu _)
      with (((0 * 256 + u8 (byte_of 2 val)) * 256 + u8 (byte_of 1 val)) * 256
            + u8 (byte_of 0 val)).
    rewrite !u8_byte_of, !byte_of_div by lia.
    cbn [Z.mul Pos.mul]. rewrite ?Z.pow_0_r, ?Z.div_1_r.
    Z.div_mod_to_equations. lia.
  - change (drop 2 (write_frame reg 4 val))
      with [byte_of 3 val; byte_of 2 val; byte_of 1 val; byte_of 0 val]
      in Hdata.
    rewrite Hdata.
    change (be32_to_cpu _)
      with ((((0 * 256 + u8 (byte_of 3 val)) * 256 + u8 (byte_of 2 val)) * 256
             + u8 (byte_of 1 val)) * 256 + u8 (byte_of 0 val)).
    rewrite !u8_byte_of, !byte_of_div by lia.
    cbn [Z.mul Pos.mul]. rewrite ?Z.pow_0_r, ?Z.div_1_r.
    Z.div_mod_to_equations. lia.
Qed.


(** *** Orientation *)

(** What [mia1321_set_orientation_reg] does, by the flags it settles on. *)
Lemma set_orientation_reg_run env (en_flip_mir : Z) (w : world) :
  let flip := (en_flip_mir =? 2) || (en_flip_mir =? 3) in
  let mirror := (en_flip_mir =? 1) || (en_flip_mir =? 3) in
  let c1 := i2c_master_send [0x00; 0x99; if flip then 1 else 0] 3 in
  let c2 := i2c_master_send [0x00; 0x9a; if mirror then 1 else 0] 3 in
  let r1 := env (log w) c1 in
  let r2 := env (log w ++ [(c1, r1)]) c2 in
  mia1321_set_orientation_reg env en_flip_mir w
  = (tt, World (set_orientation flip mirror (dev w))
           (log w ++ [(c1, r1); (c2, r2)])).
Proof.
  assert (Hgo : forall (flip mirror : bool),
    (_ ← modify_dev (set_orientation flip mirror);
     _ ← mia1321_write_reg env MIA1321_FLIP_REG MIA1321_REG_VALUE_08BIT
           (if flip then 0x01 else 0x00);
     _ ← mia1321_write_reg env MIA1321_MIRROR_REG MIA1321_REG_VALUE_08BIT
           (if mirror then 0x01 else 0x00);
     mret tt) w
    = let c1 := i2c_master_send [0x00; 0x99; if flip then 1 else 0] 3 in
      let c2 := i2c_master_send [0x00; 0x9a; if mirror then 1 else 0] 3 in
      let r1 := env (log w) c1 in
      let r2 := env (log w ++ [(c1, r1)]) c2 in
      (tt, World (set_orientation flip mirror (dev w))
             (log w ++ [(c1, r1); (c2, r2)]))).
  { intros flip mirror.
    rewrite bind_run, modify_dev_run. cbv beta iota zeta.
    rewrite bind_run, write_reg_08bit. cbv beta iota zeta. cbn [dev log].
    rewrite bind_run, write_reg_08bit. cbv beta iota zeta. cbn [dev log].
    rewrite ret_run, <- app_assoc. cbn [app].
    destruct flip, mirror; reflexivity. }
  unfold mia1321_set_orientation_reg.
  destruct (en_flip_mir =? 0) eqn:E0.
  { apply Z.eqb_eq in E0. subst. exact (Hgo false false). }
  destruct (en_flip_mir =? 1) eqn:E1.
  { apply Z.eqb_eq in E1. subst. exact (Hgo false true). }
  destruct (en_flip_mir =? 2) eqn:E2.
  { apply Z.eqb_eq in E2. subst. exact (Hgo true false). }
  destruct (en_flip_mir =? 3) eqn:E3.
  { apply Z.eqb_eq in E3. subst. exact (Hgo true true). }
  exact (Hgo false false).
Qed.

(** X4.  For every argument [mia1321_set_orientation_reg] writes the flip
    register 0x0099 and then the mirror register 0x009a, and what it writes
    is what it records in [is_flip] and [is_mirror]: flip is on for the
    arguments 2 and 3, mirror for 1 and 3, and any other argument switches
    both off.  Failed writes go unnoticed: the flags are set all the
    same. *)
Theorem mia1321_set_orientation_reg_spec env (en_flip_mir : Z) (w : world) :
  exists r1 r2,
    let '(_, w') := mia1321_set_orientation_reg env en_flip_mir w in
    log w' = log w ++
               [(i2c_master_send
                   [0x00; 0x99; if is_flip (dev w') then 1 else 0] 3, r1);
                (i2c_master_send
                   [0x00; 0x9a; if is_mirror (dev w') then 1 else 0] 3, r2)]
    /\ is_flip (dev w') = (en_flip_mir =? 2) || (en_flip_mir =? 3)
    /\ is_mirror (dev w') = (en_flip_mir =? 1) || (en_flip_mir =? 3)
    /\ cur_mode (dev w') = cur_mode (dev w)
    /\ streaming (dev w') = streaming (dev w).
Proof.
  rewrite set_orientation_reg_run. cbv zeta. cbn [dev log is_flip is_mirror
    set_orientation cur_mode streaming].
  eexists _, _. repeat split.
Qed.

(** What [mia1321_read_reg] stores for a one-byte read. *)
Lemma read_reg_08bit env reg w :
  mia1321_read_reg env reg MIA1321_REG_VALUE_08BIT 0 w =
    let c := i2c_transfer [byte_of 1 reg; byte_of 0 reg] 1 in
    let r := env (log w) c in
    ((if s32 (rv r) =? 2 then 0 else - EIO, read8 r),
     World (dev w) (log w ++ [(c, r)])).
Proof.
  unfold MIA1321_REG_VALUE_08BIT. rewrite read_reg_run by lia.
  cbv zeta. unfold read8.
  destruct (s32 (rv _) =? 2); [|reflexivity].
  do 2 f_equal. change (Z.to_nat 1) with 1%nat.
  destruct (rdata _) as [|b bs]; cbn [map app firstn replicate nth];
    rewrite ?firstn_O; unfold be32_to_cpu; cbn [fold_left];
    change (u8 0) with 0; lia.
Qed.


(** The flip controls of [mia1321_set_ctrl] on a device in use: a one-byte
    read of [reg], then [mia1321_set_orientation_reg] on the value [code]
    made from it. *)
Lemma set_ctrl_flip_run env (id : ctrl_id) (reg mask v : Z) (w : world) :
  (id = V4L2_CID_HFLIP /\ reg = MIA1321_FLIP_REG /\ mask = MIRROR_BIT_MASK)
  \/ (id = V4L2_CID_VFLIP /\ reg = MIA1321_MIRROR_REG
      /\ mask = FLIP_BIT_MASK) ->
  let r0 := env (log w) pm_runtime_get_if_in_use in
  let c := i2c_transfer [byte_of 1 reg; byte_of 0 reg] 1 in
  let r1 := env (log w ++ [(pm_runtime_get_if_in_use, r0)]) c in
  let code :=
    if negb (v =? 0) then Z.lor (read8 r1) mask
    else Z.land (read8 r1) (Z.lnot mask) in
  let flip := (code =? 2) || (code =? 3) in
  let mirror := (code =? 1) || (code =? 3) in
  s32 (rv r0) <> 0 ->
  exists r2 r3 r4,
    mia1321_set_ctrl env id v w
    = (if s32 (rv r1) =? 2 then 0 else - EIO,
       World (set_orientation flip mirror (dev w))
         (log w ++
            [(pm_runtime_get_if_in_use, r0);
             (c, r1);
             (i2c_master_send [0x00; 0x99; if flip then 1 else 0] 3, r2);
             (i2c_master_send [0x00; 0x9a; if mirror then 1 else 0] 3, r3);
             (pm_runtime_put, r4)])).
Proof.
  intros Hid r0 c r1 code flip mirror Huse.
  apply Z.eqb_neq in Huse.
  unfold mia1321_set_ctrl.
  destruct Hid as [(-> & -> & ->) | (-> & -> & ->)];
    rewrite bind_run, get_dev_run, bind_run, ret_run, bind_run, kcall_int_run;
    fold r0; rewrite Huse; cbn [dev log];
    rewrite !bind_run, read_reg_08bit; cbv beta iota zeta; cbn [dev log];
    fold c; fold r1; fold code;
    rewrite bind_run, set_orientation_reg_run; cbv beta iota zeta;
    cbn [dev log]; fold flip; fold mirror;
    rewrite ret_run, bind_run, kcall_run, ret_run; cbn [dev log];
    rewrite <- !app_assoc; cbn [app];
    eexists _, _, _; reflexivity.
Qed.

(** X5.  Horizontal flip on a device in use, the flip register reading 0
    or 1 (or not being readable at all): [mia1321_set_ctrl] reads the flip
    register 0x0099, then switches mirror on or off as the control says and
    switches flip off, whatever it was; the result is that of the read. *)
Theorem mia1321_set_ctrl_hflip env (v : Z) (w : world) :
  let r0 := env (log w) pm_runtime_get_if_in_use in
  let c := i2c_transfer [0x00; 0x99] 1 in
  let r1 := env (log w ++ [(pm_runtime_get_if_in_use, r0)]) c in
  s32 (rv r0) <> 0 ->
  read8 r1 = 0 \/ read8 r1 = 1 ->
  exists r2 r3 r4,
    mia1321_set_ctrl env V4L2_CID_HFLIP v w
    = (if s32 (rv r1) =? 2 then 0 else - EIO,
       World (set_orientation false (negb (v =? 0)) (dev w))
         (log w ++
            [(pm_runtime_get_if_in_use, r0);
             (c, r1);
             (i2c_master_send [0x00; 0x99; 0] 3, r2);
             (i2c_master_send [0x00; 0x9a; if v =? 0 then 0 else 1] 3, r3);
             (pm_runtime_put, r4)])).
Proof.
  intros r0 c r1 Huse Hread.
  destruct (set_ctrl_flip_run env V4L2_CID_HFLIP MIA1321_FLIP_REG
              MIRROR_BIT_MASK v w (or_introl (conj eq_refl (conj eq_refl eq_refl)))
              Huse) as (r2 & r3 & r4 & Hrun).
  exists r2, r3, r4. rewrite Hrun. clear Hrun.
  change (byte_of 1 MIA1321_FLIP_REG) with 0x00.
  change (byte_of 0 MIA1321_FLIP_REG) with 0x99.
  fold r0. fold c. fold r1.
  destruct Hread as [-> | ->]; destruct (v =? 0); reflexivity.
Qed.

(** X6.  Vertical flip on a device in use, the mirror register reading 0
    or 1 (or not being readable at all): [mia1321_set_ctrl] reads the
    mirror register 0x009a, switches flip on or off as the control says
    and writes the mirror setting back as it was read. *)
Theorem mia1321_set_ctrl_vflip env (v : Z) (w : world) :
  let r0 := env (log w) pm_runtime_get_if_in_use in
  let c := i2c_transfer [0x00; 0x9a] 1 in
  let r1 := env (log w ++ [(pm_runtime_get_if_in_use, r0)]) c in
  s32 (rv r0) <> 0 ->
  read8 r1 = 0 \/ read8 r1 = 1 ->
  exists r2 r3 r4,
    mia1321_set_ctrl env V4L2_CID_VFLIP v w
    = (if s32 (rv r1) =? 2 then 0 else - EIO,
       World (set_orientation (negb (v =? 0)) (read8 r1 =? 1) (dev w))
         (log w ++
            [(pm_runtime_get_if_in_use, r0);
             (c, r1);
             (i2c_master_send [0x00; 0x99; if v =? 0 then 0 else 1] 3, r2);
             (i2c_master_send [0x00; 0x9a; read8 r1] 3, r3);
             (pm_runtime_put, r4)])).
Proof.
  intros r0 c r1 Huse Hread.
  destruct (set_ctrl_flip_run env V4L2_CID_VFLIP MIA1321_MIRROR_REG
              FLIP_BIT_MASK v w (or_intror (conj eq_refl (conj eq_refl eq_refl)))
              Huse) as (r2 & r3 & r4 & Hrun).
  exists r2, r3, r4. rewrite Hrun. clear Hrun.
  change (byte_of 1 MIA1321_MIRROR_REG) with 0x00.
  change (byte_of 0 MIA1321_MIRROR_REG) with 0x9a.
  fold r0. fold c. fold r1.
  destruct Hread as [-> | ->]; destruct (v =? 0); reflexivity.
Qed.


(** *** Runtime-PM references *)

Ltac run_driver :=
  repeat first
    [ rewrite bind_run | rewrite ret_run | rewrite get_dev_run
    | rewrite modify_dev_run | rewrite kcall_int_run | rewrite kcall_void_run
    | rewrite kcall_run | rewrite write_reg_08bit | rewrite read_reg_08bit
    | rewrite set_orientation_reg_run
    | progress cbv beta iota zeta | progress cbn [dev log] ].

(** X7.  Whatever the control and its value, [mia1321_set_ctrl] asks
    [pm_runtime_get_if_in_use] exactly once, and gives the reference back
    with exactly one [pm_runtime_put] when it got one; when the device is
    not in use it returns 0 without a [pm_runtime_put] and without any I2C
    transaction. *)
Theorem mia1321_set_ctrl_pm_balance env (id : ctrl_id) (v : Z) (w : world) :
  let '(ret, w') := mia1321_set_ctrl env id v w in
  exists evs r0,
    log w' = log w ++ evs
    /\ In (pm_runtime_get_if_in_use, r0) evs
    /\ count_calls is_pm_runtime_get evs = 1%nat
    /\ count_calls is_pm_runtime_put evs
       = (if s32 (rv r0) =? 0 then 0%nat else 1%nat)
    /\ (if s32 (rv r0) =? 0 then ret = 0 /\ i2c_calls evs = [] else True).
Proof.
  unfold mia1321_set_ctrl, mia1321_enable_test_pattern, mia1321_set_gain_reg.
  destruct (mia1321_again_loop mia1321_again _ _) as [[gh gm] gl].
  destruct id; run_driver;
    match goal with
    | |- context [s32 (rv ?r) =? 0] => set (r0 := r)
    end;
    destruct (s32 (rv r0) =? 0) eqn:Huse;
    try destruct (hdr_mode (cur_mode (dev w)) =? NO_HDR);
    run_driver; rewrite <- ?app_assoc; cbn [app];
    eexists _, r0; rewrite Huse;
    (split; [reflexivity|]);
    (split; [cbn [In]; tauto|]);
    (split; [reflexivity|]); (split; [reflexivity|]);
    first [exact I | split; reflexivity].
Qed.


(** *** Analogue gain: the result *)

(** X8.  [mia1321_set_gain_reg] always issues its three register writes,
    to 0x001b, 0x0019 and 0x0018 in this order, also after one of them has
    failed; it returns 0 when all three were acknowledged and [-EIO]
    otherwise. *)
Theorem mia1321_set_gain_reg_result env (gain : Z) (w : world) :
  exists b1 b2 b3 r1 r2 r3,
    let e1 := (i2c_master_send [0x00; 0x1b; b1] 3, r1) in
    let e2 := (i2c_master_send [0x00; 0x19; b2] 3, r2) in
    let e3 := (i2c_master_send [0x00; 0x18; b3] 3, r3) in
    mia1321_set_gain_reg env gain w
    = (if acked e1 && acked e2 && acked e3 then 0 else - EIO,
       World (dev w) (log w ++ [e1; e2; e3])).
Proof.
  unfold mia1321_set_gain_reg.
  destruct (mia1321_again_loop mia1321_again _ _) as [[gh gm] gl].
  run_driver. rewrite <- !app_assoc. cbn [app].
  unfold reg_write8.
  change (u8 (Z.shiftr MIA1321_REG_ANA_GAIN_H 8)) with 0x00.
  change (u8 (Z.shiftr MIA1321_REG_ANA_GAIN_M 8)) with 0x00.
  change (u8 (Z.shiftr MIA1321_REG_ANA_GAIN_L 8)) with 0x00.
  change (Z.land MIA1321_REG_ANA_GAIN_H 0xff) with 0x1b.
  change (Z.land MIA1321_REG_ANA_GAIN_M 0xff) with 0x19.
  change (Z.land MIA1321_REG_ANA_GAIN_L 0xff) with 0x18.
  eexists _, _, _, _, _, _. cbv zeta. f_equal.
  repeat match goal with
         | |- context [acked ?e] => destruct (acked e)
         end;
    cbn [andb]; rewrite ?Z.lor_0_l, ?Z.lor_0_r, ?Z.lor_diag; reflexivity.
Qed.


(** *** Formats *)

Lemma supported_mode_cases m :
  In m supported_modes ->
  width m = 1280 /\ height m = 1080 /\ hdr_mode m = NO_HDR
  /\ (bus_fmt m = MEDIA_BUS_FMT_SGRBG10_1X10
      \/ bus_fmt m = MEDIA_BUS_FMT_SGRBG12_1X12)
  /\ hts_def m = 0x0a68 /\ vts_def m = 0x04b0
  /\ vc m = <[PAD0 := V4L2_MBUS_CSI2_CHANNEL_0]> (replicate PAD_MAX 0).
Proof.
  unfold supported_modes. cbn [In].
  intros [<- | [<- | [<- | []]]]; cbn; repeat split; auto.
Qed.

(** The world after [mia1321_set_fmt], by the kind of request. *)
Lemma set_fmt_run (CONFIG_VIDEO_V4L2_SUBDEV_API : bool) env fmt (w : world) :
  let mode := mia1321_find_best_fit fmt in
  let fmt' :=
    {| which := which fmt; pad := pad fmt;
       format := {| fmt_width := width mode; fmt_height := height mode;
                    fmt_code := bus_fmt mode;
                    fmt_field := V4L2_FIELD_NONE |} |} in
  exists ret w',
    mia1321_set_fmt CONFIG_VIDEO_V4L2_SUBDEV_API env fmt w = ((ret, fmt'), w')
    /\ (if which fmt =? V4L2_SUBDEV_FORMAT_TRY then dev w' = dev w
        else ret = 0
             /\ dev w' = set_cur_fps (max_fps mode) (set_cur_mode mode (dev w))).
Proof.
  intros mode fmt'. subst fmt'. unfold mia1321_set_fmt. fold mode.
  cbn [which pad format].
  destruct (which fmt =? V4L2_SUBDEV_FORMAT_TRY).
  - destruct CONFIG_VIDEO_V4L2_SUBDEV_API; run_driver;
      eexists _, _; split; reflexivity.
  - run_driver. eexists _, _. split; [reflexivity|]. split; reflexivity.
Qed.

(** X9.  Whatever is requested, and also when the nearest-mode search goes
    astray, the format [mia1321_set_fmt] hands back is that of a supported
    mode: 1280x1080, field [V4L2_FIELD_NONE], with the 10-bit or the 12-bit
    code; [which] and [pad] of the request are left alone. *)
Theorem mia1321_set_fmt_closed (CONFIG_VIDEO_V4L2_SUBDEV_API : bool) env
    (fmt : v4l2_subdev_format) (w : world) :
  let fmt' :=
    snd (fst (mia1321_set_fmt CONFIG_VIDEO_V4L2_SUBDEV_API env fmt w)) in
  fmt_width (format fmt') = 1280
  /\ fmt_height (format fmt') = 1080
  /\ fmt_field (format fmt') = V4L2_FIELD_NONE
  /\ (fmt_code (format fmt') = MEDIA_BUS_FMT_SGRBG10_1X10
      \/ fmt_code (format fmt') = MEDIA_BUS_FMT_SGRBG12_1X12)
  /\ which fmt' = which fmt /\ pad fmt' = pad fmt.
Proof.
  destruct (set_fmt_run CONFIG_VIDEO_V4L2_SUBDEV_API env fmt w)
    as (ret & w' & Hrun & _).
  cbv zeta in Hrun. cbv zeta. rewrite Hrun. cbn [fst snd format fmt_width
    fmt_height fmt_field fmt_code which pad].
  destruct (supported_mode_cases _ (mia1321_find_best_fit_In fmt))
    as (Hw & Hh & _ & Hcode & _).
  rewrite Hw, Hh. repeat split; try reflexivity. exact Hcode.
Qed.

(** X10.  What an ACTIVE [mia1321_set_fmt] answered is what a following
    ACTIVE [mia1321_get_fmt] reports, for any pad and any request: the same
    width, height, code and field.  [mia1321_get_fmt] returns 0, changes
    nothing, and puts the virtual channel of the mode's first pad into
    [reserved[0]]. *)
Theorem mia1321_set_get_fmt (CONFIG_VIDEO_V4L2_SUBDEV_API : bool) env
    (cfg : Z -> v4l2_mbus_framefmt) (fmt fmt2 : v4l2_subdev_format)
    (reserved0 : Z) (w : world) :
  which fmt <> V4L2_SUBDEV_FORMAT_TRY ->
  which fmt2 <> V4L2_SUBDEV_FORMAT_TRY ->
  let '((ret, fmt'), w') :=
    mia1321_set_fmt CONFIG_VIDEO_V4L2_SUBDEV_API env fmt w in
  let '((ret2, fmt2', reserved0'), w'') :=
    mia1321_get_fmt CONFIG_VIDEO_V4L2_SUBDEV_API cfg fmt2 reserved0 w' in
  ret = 0 /\ ret2 = 0
  /\ format fmt2' = format fmt'
  /\ which fmt2' = which fmt2 /\ pad fmt2' = pad fmt2
  /\ reserved0' = nth PAD0 (vc (cur_mode (dev w'))) 0
  /\ w'' = w'.
Proof.
  intros Hact Hact2. apply Z.eqb_neq in Hact, Hact2.
  destruct (set_fmt_run CONFIG_VIDEO_V4L2_SUBDEV_API env fmt w)
    as (ret & w' & Hrun & Hdev).
  cbv zeta in Hrun, Hdev. rewrite Hrun. rewrite Hact in Hdev.
  destruct Hdev as [-> Hdev].
  unfold mia1321_get_fmt. rewrite bind_run, get_dev_run. rewrite Hact2.
  rewrite Hdev. cbn [cur_mode set_cur_fps set_cur_mode].
  destruct (supported_mode_cases _ (mia1321_find_best_fit_In fmt))
    as (_ & _ & Hhdr & _).
  rewrite Hhdr, Z.eqb_refl, andb_false_r, ret_run.
  cbn [format which pad]. repeat split.
Qed.

(** X11.  [mia1321_enum_mbus_code] knows one code only: any index but 0 is
    refused with [-EINVAL], and for index 0 the code of the current mode is
    reported, with nothing else changed.  [mia1321_enum_frame_sizes], fed
    with that code, answers for every index below 3 when the current mode
    has the 10-bit code and refuses every index when it has the 12-bit
    code. *)
Theorem mia1321_enum_mbus_code_spec (code : v4l2_subdev_mbus_code_enum)
    (fse : v4l2_subdev_frame_size_enum) (w : world) :
  In (cur_mode (dev w)) supported_modes ->
  0 <= fse_index fse < 3 ->
  let '((ret, code'), w') := mia1321_enum_mbus_code code w in
  w' = w
  /\ if mce_index code =? 0 then
       ret = 0
       /\ code' = {| mce_index := 0; mce_code := bus_fmt (cur_mode (dev w)) |}
       /\ fst (mia1321_enum_frame_sizes
                 {| fse_index := fse_index fse; fse_code := mce_code code';
                    min_width := min_width fse; max_width := max_width fse;
                    min_height := min_height fse;
                    max_height := max_height fse |})
          = (if bus_fmt (cur_mode (dev w)) =? MEDIA_BUS_FMT_SGRBG10_1X10
             then 0 else - EINVAL)
     else ret = - EINVAL /\ code' = code.
Proof.
  intros Hcur Hidx. unfold mia1321_enum_mbus_code.
  rewrite bind_run, get_dev_run.
  destruct (mce_index code =? 0) eqn:Hi; cbn [negb]; rewrite ret_run.
  - apply Z.eqb_eq in Hi. split; [reflexivity|]. split; [reflexivity|].
    split; [rewrite Hi; reflexivity|].
    unfold mia1321_enum_frame_sizes. rewrite ARRAY_SIZE_supported_modes.
    cbn [fse_index fse_code mce_code].
    assert (H3 : (3 <=? fse_index fse) = false) by (apply Z.leb_gt; lia).
    rewrite H3.
    change (bus_fmt (supported_modes_at 0)) with MEDIA_BUS_FMT_SGRBG10_1X10.
    destruct (bus_fmt (cur_mode (dev w)) =? MEDIA_BUS_FMT_SGRBG10_1X10);
      reflexivity.
  - auto.
Qed.

(** X12.  [mia1321_enum_frame_interval] refuses every index from 3 on with
    [-EINVAL] and leaves the argument alone; below that it reports 0, the
    size 1280x1080, the code and the frame interval of the indexed mode and
    [NO_HDR].  The code it reports for an index is accepted by
    [mia1321_enum_frame_sizes] at that index exactly when it is the 10-bit
    code, the one of the first mode. *)
Theorem mia1321_enum_frame_interval_spec
    (fie : v4l2_subdev_frame_interval_enum) :
  0 <= fie_index fie ->
  let '(ret, fie') := mia1321_enum_frame_interval fie in
  if 3 <=? fie_index fie then ret = - EINVAL /\ fie' = fie
  else
    exists m,
      supported_modes !! Z.to_nat (fie_index fie) = Some m
      /\ ret = 0
      /\ fie' = {| fie_index := fie_index fie; fie_code := bus_fmt m;
                   fie_width := 1280; fie_height := 1080;
                   fie_interval := max_fps m; fie_reserved0 := NO_HDR |}
      /\ fst (mia1321_enum_frame_sizes
                 {| fse_index := fie_index fie; fse_code := fie_code fie';
                    min_width := 0; max_width := 0;
                    min_height := 0; max_height := 0 |})
         = (if bus_fmt m =? MEDIA_BUS_FMT_SGRBG10_1X10 then 0 else - EINVAL).
Proof.
  intros Hidx. unfold mia1321_enum_frame_interval.
  rewrite ARRAY_SIZE_supported_modes.
  destruct (3 <=? fie_index fie) eqn:H3; [auto|].
  apply Z.leb_gt in H3.
  exists (supported_modes_at (fie_index fie)).
  unfold mia1321_enum_frame_sizes. rewrite ARRAY_SIZE_supported_modes.
  cbn [fse_index fse_code fie_code].
  assert (H3' : (3 <=? fie_index fie) = false) by (apply Z.leb_gt; lia).
  rewrite H3'.
  change (bus_fmt (supported_modes_at 0)) with MEDIA_BUS_FMT_SGRBG10_1X10.
  assert (Hc : fie_index fie = 0 \/ fie_index fie = 1 \/ fie_index fie = 2)
    by lia.
  destruct Hc as [-> | [-> | ->]];
    (split; [reflexivity|]); (split; [reflexivity|]);
    (split; [reflexivity|]);
    destruct (bus_fmt _ =? MEDIA_BUS_FMT_SGRBG10_1X10); reflexivity.
Qed.

(** X13.  After an ACTIVE [mia1321_set_fmt], [mia1321_g_frame_interval]
    reports the maximum frame rate of the mode now current, whether the
    sensor is streaming or not, and changes nothing. *)
Theorem mia1321_g_frame_interval_after_set_fmt
    (CONFIG_VIDEO_V4L2_SUBDEV_API : bool) env (fmt : v4l2_subdev_format)
    (w : world) :
  which fmt <> V4L2_SUBDEV_FORMAT_TRY ->
  let w' := snd (mia1321_set_fmt CONFIG_VIDEO_V4L2_SUBDEV_API env fmt w) in
  mia1321_g_frame_interval w' = ((0, max_fps (cur_mode (dev w'))), w')
  /\ cur_mode (dev w') = mia1321_find_best_fit fmt
  /\ streaming (dev w') = streaming (dev w).
Proof.
  intros Hact. apply Z.eqb_neq in Hact.
  destruct (set_fmt_run CONFIG_VIDEO_V4L2_SUBDEV_API env fmt w)
    as (ret & w' & Hrun & Hdev).
  cbv zeta in Hrun, Hdev. cbv zeta. rewrite Hrun. cbn [snd].
  rewrite Hact in Hdev. destruct Hdev as [_ Hdev].
  unfold mia1321_g_frame_interval. rewrite bind_run, get_dev_run, Hdev.
  cbn [streaming cur_mode cur_fps set_cur_fps set_cur_mode].
  split; [destruct (streaming (dev w)); reflexivity|]. split; reflexivity.
Qed.


(** *** ioctl *)

(** X14.  [RKMODULE_SET_HDR_CFG] with [NO_HDR] always succeeds, and always
    lands on the first supported mode, also when the second or the third
    was current: it sets the ranges of hblank (1384) and vblank (120 to
    64455) and leaves everything else, [cur_fps] included, as it was.  A
    following [RKMODULE_GET_HDR_CFG] reports [NO_HDR] with
    [HDR_NORMAL_VC]. *)
Theorem mia1321_ioctl_set_hdr_cfg_NO_HDR env (hdr any : rkmodule_hdr_cfg)
    (w : world) :
  In (cur_mode (dev w)) supported_modes ->
  cfg_hdr_mode hdr = NO_HDR ->
  exists r1 r2,
    let w' :=
      World (set_cur_mode (supported_modes_at 0) (dev w))
        (log w ++
           [(__v4l2_ctrl_modify_range ctrl_hblank 1384 1384 1 1384, r1);
            (__v4l2_ctrl_modify_range ctrl_vblank 120 64455 1 120, r2)]) in
    mia1321_ioctl env (RKMODULE_SET_HDR_CFG hdr) w
      = ((0, RKMODULE_SET_HDR_CFG hdr), w')
    /\ mia1321_ioctl env (RKMODULE_GET_HDR_CFG any) w'
       = ((0, RKMODULE_GET_HDR_CFG
                {| cfg_hdr_mode := NO_HDR; cfg_esp_mode := HDR_NORMAL_VC |}),
          w').
Proof.
  intros Hcur Hhdr.
  destruct (supported_mode_cases _ Hcur) as (Hw & Hh & _).
  unfold mia1321_ioctl at 1. rewrite bind_run, get_dev_run, Hw, Hh.
  unfold supported_modes at 1. cbn [mia1321_set_hdr_cfg_loop width height
    hdr_mode]. rewrite Hhdr, !Z.eqb_refl. cbn [andb].
  rewrite ARRAY_SIZE_supported_modes. run_driver.
  change (0 =? 3) with false. run_driver.
  rewrite <- app_assoc. cbn [app set_cur_mode cur_mode hts_def vts_def
    width height].
  eexists _, _. cbv zeta. split; [reflexivity|].
  unfold mia1321_ioctl. run_driver. reflexivity.
Qed.

(** X15.  What [mia1321_ioctl] leaves alone: only [RKMODULE_SET_HDR_CFG]
    can change the device state, only [RKMODULE_SET_QUICK_STREAM] reaches
    the I2C bus, with a single write to the mode register 0x0126 of 0
    (streaming) for a non-zero argument and of 1 (standby) for 0, and an
    unknown command changes nothing at all and yields [-ENOIOCTLCMD]. *)
Theorem mia1321_ioctl_footprint env (req : ioctl_request) (w : world) :
  let '((ret, req'), w') := mia1321_ioctl env req w in
  exists evs,
    log w' = log w ++ evs
    /\ match req with
       | RKMODULE_SET_HDR_CFG _ => i2c_calls evs = [] /\ req' = req
       | RKMODULE_SET_QUICK_STREAM stream =>
           dev w' = dev w /\ req' = req
           /\ exists r,
                evs = [(i2c_master_send
                          [0x01; 0x26; if stream =? 0 then 1 else 0] 3, r)]
                /\ ret = (if acked (i2c_master_send
                                      [0x01; 0x26;
                                       if stream =? 0 then 1 else 0] 3, r)
                          then 0 else - EIO)
       | ioctl_other _ => w' = w /\ ret = - ENOIOCTLCMD /\ req' = req
       | _ => w' = w /\ ret = 0
       end.
Proof.
  unfold mia1321_ioctl. rewrite bind_run, get_dev_run.
  destruct req as [inf | hdr | hdr | | stream | cmd].
  - rewrite ret_run. exists []. rewrite app_nil_r. auto.
  - rewrite ret_run. exists []. rewrite app_nil_r. auto.
  - destruct (mia1321_set_hdr_cfg_loop supported_modes 0 _ _ hdr)
      as [i [m|]];
      destruct (i =? ARRAY_SIZE supported_modes); run_driver;
      rewrite <- ?app_assoc; cbn [app];
      first [ exists []; rewrite app_nil_r; split; [reflexivity|];
              split; reflexivity
            | eexists; split; [reflexivity|]; split; reflexivity ].
  - rewrite ret_run. exists []. rewrite app_nil_r. auto.
  - destruct (stream =? 0); cbn [negb]; run_driver;
      eexists; (split; [reflexivity|]); (split; [reflexivity|]);
      (split; [reflexivity|]); eexists; split; reflexivity.
  - rewrite ret_run. exists []. rewrite app_nil_r. auto.
Qed.

(** [strscpy] copies a prefix. *)
Lemma substring_0_length (n : nat) (s : string) :
  String.length (substring 0 n s) = Nat.min n (String.length s).
Proof.
  revert n. induction s as [|a s IH]; intros [|n]; cbn; auto.
Qed.

Lemma substring_0_prefix (n : nat) (s : string) :
  String.prefix (substring 0 n s) s = true.
Proof.
  revert n. induction s as [|a s IH]; intros [|n]; cbn; auto.
  destruct (Ascii.ascii_dec a a); [apply IH | contradiction].
Qed.

Lemma substring_0_all (n : nat) (s : string) :
  (String.length s <= n)%nat -> substring 0 n s = s.
Proof.
  revert n. induction s as [|a s IH]; intros [|n] Hn; cbn in *; auto.
  - lia.
  - f_equal. apply IH. lia.
Qed.

(** X16.  The module information [RKMODULE_GET_MODULE_INFO] hands out:
    each of the three names is a prefix of its source (the sensor name
    "mia1321", the module name and the lens name of the device tree) of
    fewer than [RKMODULE_NAME_LEN] characters, so that it fits its field
    together with the terminating NUL, and is the whole name whenever that
    is short enough.  Nothing else is done. *)
Theorem mia1321_ioctl_get_module_info env (inf0 : rkmodule_inf) (w : world) :
  (0 < RKMODULE_NAME_LEN)%nat ->
  exists inf,
    mia1321_ioctl env (RKMODULE_GET_MODULE_INFO inf0) w
      = ((0, RKMODULE_GET_MODULE_INFO inf), w)
    /\ Forall (fun p : string * string =>
                 (String.length (fst p) < RKMODULE_NAME_LEN)%nat
                 /\ String.prefix (fst p) (snd p) = true
                 /\ ((String.length (snd p) < RKMODULE_NAME_LEN)%nat ->
                     fst p = snd p))
         [(inf_sensor inf, "mia1321"%string);
          (inf_module inf, module_name (dev w));
          (inf_lens inf, len_name (dev w))].
Proof.
  intros Hlen. eexists. split.
  - unfold mia1321_ioctl. rewrite bind_run, get_dev_run, ret_run. reflexivity.
  - unfold mia1321_get_module_inf, strscpy. cbn [inf_sensor inf_module inf_lens].
    repeat (constructor;
            [cbn [fst snd]; split; [rewrite substring_0_length; lia|];
             split; [apply substring_0_prefix|];
             intros Hs; apply substring_0_all; lia |]).
    constructor.
Qed.


(** *** Streaming *)

(** X17.  [__mia1321_stop_stream] ends with one write of 1 (software
    standby) to the mode register 0x0126 and returns its outcome.  With
    thunderboot it first records the stream-off in [is_first_streamoff]
    and drops a runtime-PM reference; without, nothing else happens. *)
Theorem mia1321_stop_stream_spec env (w : world) :
  exists evs r,
    let c := i2c_master_send [0x01; 0x26; 0x01] 3 in
    __mia1321_stop_stream env w
    = (if acked (c, r) then 0 else - EIO,
       World (if is_thunderboot (dev w)
              then set_is_first_streamoff true (dev w) else dev w)
         (log w ++ evs ++ [(c, r)]))
    /\ map fst evs
       = (if is_thunderboot (dev w) then [pm_runtime_put] else []).
Proof.
  unfold __mia1321_stop_stream. rewrite bind_run, get_dev_run.
  destruct (is_thunderboot (dev w)); run_driver.
  - eexists [_], _. rewrite <- app_assoc. split; reflexivity.
  - exists [], (env (log w) (reg_write8 MIA1321_REG_CTRL_MODE
                               MIA1321_MODE_SW_STANDBY)).
    split; reflexivity.
Qed.

(** A walk that ends with an error ends right after a write that was not
    acknowledged, the device state being as before. *)
Lemma write_array_error env (regs : list regval) (w w' : world) (ret : Z) :
  mia1321_write_array env regs w = (Some ret, w') ->
  ret <> 0 ->
  ret = - EIO /\ dev w' = dev w
  /\ exists evs e, log w' = log w ++ evs ++ [e] /\ acked e = false.
Proof.
  revert w. induction regs as [|r regs IH]; intros w Hrun Hret.
  - discriminate Hrun.
  - cbn [mia1321_write_array] in Hrun.
    destruct (addr r =? REG_NULL); cbn [negb] in Hrun.
    + rewrite ret_run in Hrun. congruence.
    + destruct (addr r =? REG_DELAY).
      * rewrite bind_run, kcall_run in Hrun.
        destruct (IH _ Hrun Hret) as (-> & Hdev & evs & e & Hlog & Hack).
        cbn [dev log] in *. split; [reflexivity|]. split; [exact Hdev|].
        eexists (_ :: evs), e. rewrite Hlog, <- !app_assoc. auto.
      * rewrite bind_run, write_reg_08bit in Hrun. cbv beta iota zeta in Hrun.
        destruct (acked _) eqn:Hack in Hrun.
        -- rewrite Z.eqb_refl in Hrun.
           destruct (IH _ Hrun Hret) as (-> & Hdev & evs & e & Hlog & Hack').
           cbn [dev log] in *. split; [reflexivity|]. split; [exact Hdev|].
           eexists (_ :: evs), e. rewrite Hlog, <- !app_assoc. auto.
        -- pose proof errno_bounds as HE.
           assert (Hne : (- EIO =? 0) = false) by (apply Z.eqb_neq; lia).
           rewrite Hne, ret_run in Hrun. injection Hrun as <- <-.
           cbn [dev log]. split; [reflexivity|]. split; [reflexivity|].
           eexists [], _. split; [reflexivity | exact Hack].
Qed.

(** X18.  When a register of the mode's table cannot be written,
    [__mia1321_start_stream] stops at once: it returns [-EIO], the failed
    write is the last thing that happened, the control handler is not run,
    the sensor is not put into streaming mode and the device state is as
    before. *)
Theorem mia1321_start_stream_table_error env
    (__v4l2_ctrl_handler_setup : M Z) (w w1 : world) (ret : Z) :
  is_thunderboot (dev w) = false ->
  mia1321_write_array env (reg_list (cur_mode (dev w))) w = (Some ret, w1) ->
  ret <> 0 ->
  __mia1321_start_stream env __v4l2_ctrl_handler_setup w = (Some (- EIO), w1)
  /\ dev w1 = dev w
  /\ exists evs e, log w1 = log w ++ evs ++ [e] /\ acked e = false.
Proof.
  intros Htb Hrun Hret.
  destruct (write_array_error env _ w w1 ret Hrun Hret) as (-> & Hdev & Hlog).
  split; [|split; [exact Hdev | exact Hlog]].
  unfold __mia1321_start_stream.
  rewrite bind_run, get_dev_run, Htb. cbn [negb].
  rewrite !bind_run, Hrun.
  apply Z.eqb_neq in Hret. rewrite Hret. cbn [negb].
  rewrite !ret_run. reflexivity.
Qed.

(** *** Power *)

(** X19.  With thunderboot [__mia1321_power_on] only sees to the pins and
    the clock: it selects the default pin state (if there is one), sets the
    rate of xvclk, reads it back and enables the clock, and returns the
    error of the last step or 0.  No GPIO is driven, no regulator enabled
    and nothing is waited for. *)
Theorem mia1321_power_on_thunderboot env (w : world) :
  is_thunderboot (dev w) = true ->
  exists evs r_clk,
    __mia1321_power_on env w
    = (if s32 (rv r_clk) <? 0 then s32 (rv r_clk) else 0,
       World (dev w) (log w ++ evs ++ [(clk_prepare_enable, r_clk)]))
    /\ map fst evs
       = (if pins_default_IS_ERR_OR_NULL (dev w) then []
          else [pinctrl_select_state pins_default])
         ++ [clk_set_rate 26000000; clk_get_rate].
Proof.
  intros Htb. unfold __mia1321_power_on.
  rewrite bind_run, get_dev_run, Htb, bind_run, when_run.
  destruct (pins_default_IS_ERR_OR_NULL (dev w)); cbn [negb]; run_driver;
    match goal with
    | |- context [s32 (rv ?r) <? 0] => set (r_clk := r)
    end;
    destruct (s32 (rv r_clk) <? 0) eqn:Hclk; run_driver;
    rewrite <- ?app_assoc; cbn [app].
  - eexists [_; _], r_clk. rewrite Hclk. split; reflexivity.
  - eexists [_; _], r_clk. rewrite Hclk. split; reflexivity.
  - eexists [_; _; _], r_clk. rewrite Hclk. split; reflexivity.
  - eexists [_; _; _], r_clk. rewrite Hclk. split; reflexivity.
Qed.

(** X20.  [mia1321_cal_delay] rounds up: for a cycle count that leaves
    room for the rounding in 32 bits, the delay is the least number of
    microseconds that covers that many cycles of the 26 MHz clock. *)
Theorem mia1321_cal_delay_ceil (cycles : Z) :
  0 <= cycles <= 2 ^ 32 - 26 ->
  cycles <= mia1321_cal_delay cycles * 26 < cycles + 26
  /\ MIA1321_XVCLK_FREQ = 26 * 1000 * 1000.
Proof.
  intros Hc. split; [|reflexivity].
  unfold mia1321_cal_delay, DIV_ROUND_UP, u32.
  change (MIA1321_XVCLK_FREQ / 1000 / 1000) with 26.
  rewrite (Z.mod_small (cycles + 26 - 1)) by lia.
  rewrite Z.mod_small; Z.div_mod_to_equations; lia.
Qed.


(** The outcomes of [__mia1321_power_on]. *)
Lemma power_on_outcomes env (w : world) :
  let '(ret, w') := __mia1321_power_on env w in
  exists evs,
    log w' = log w ++ evs /\ dev w' = dev w
    /\ count_calls is_clk_prepare_enable evs = 1%nat
    /\ if ret =? 0 then
         count_calls is_clk_disable_unprepare evs = 0%nat
         /\ Forall (fun e =>
              is_clk_prepare_enable (fst e) || is_regulator_bulk_enable (fst e)
              = true -> 0 <= s32 (rv (snd e))) evs
       else
         ret < 0
         /\ exists pre r,
              s32 (rv r) = ret
              /\ count_calls is_clk_disable_unprepare pre = 0%nat
              /\ (evs = pre ++ [(clk_prepare_enable, r)]
                  \/ exists r',
                       evs = pre ++ [(regulator_bulk_enable MIA1321_NUM_SUPPLIES
                                        (supplies (dev w)), r);
                                     (clk_disable_unprepare, r')]).
Proof.
  unfold __mia1321_power_on.
  rewrite bind_run, get_dev_run. cbv beta iota zeta.
  rewrite bind_run, when_run.
  destruct (pins_default_IS_ERR_OR_NULL (dev w)), (is_thunderboot (dev w)),
    (reset_gpio_IS_ERR (dev w)), (pwdn_gpio_IS_ERR (dev w));
    cbn [negb]; run_driver;
    match goal with
    | |- context [s32 (rv ?r) <? 0] => set (r_clk := r)
    end;
    destruct (s32 (rv r_clk) <? 0) eqn:Hclk;
    [apply Z.ltb_lt in Hclk | apply Z.ltb_ge in Hclk | apply Z.ltb_lt in Hclk
    | apply Z.ltb_ge in Hclk | apply Z.ltb_lt in Hclk | apply Z.ltb_ge in Hclk
    | apply Z.ltb_lt in Hclk | apply Z.ltb_ge in Hclk | apply Z.ltb_lt in Hclk
    | apply Z.ltb_ge in Hclk | apply Z.ltb_lt in Hclk | apply Z.ltb_ge in Hclk
    | apply Z.ltb_lt in Hclk | apply Z.ltb_ge in Hclk | apply Z.ltb_lt in Hclk
    | apply Z.ltb_ge in Hclk | apply Z.ltb_lt in Hclk | apply Z.ltb_ge in Hclk
    | apply Z.ltb_lt in Hclk | apply Z.ltb_ge in Hclk | apply Z.ltb_lt in Hclk
    | apply Z.ltb_ge in Hclk | apply Z.ltb_lt in Hclk | apply Z.ltb_ge in Hclk
    | apply Z.ltb_lt in Hclk | apply Z.ltb_ge in Hclk | apply Z.ltb_lt in Hclk
    | apply Z.ltb_ge in Hclk | apply Z.ltb_lt in Hclk | apply Z.ltb_ge in Hclk
    | apply Z.ltb_lt in Hclk | apply Z.ltb_ge in Hclk ];
    repeat (progress (run_driver; rewrite ?when_run; cbn [negb]));
    try match goal with
        | |- context [s32 (rv ?r) <? 0] =>
            set (r_reg := r);
            destruct (s32 (rv r_reg) <? 0) eqn:Hreg;
            [apply Z.ltb_lt in Hreg | apply Z.ltb_ge in Hreg]
        end;
    repeat (progress (run_driver; rewrite ?when_run; cbn [negb]));
    rewrite <- ?app_assoc; cbn [app];
    eexists; (split; [reflexivity|]); (split; [reflexivity|]);
    (split; [reflexivity|]);
    match goal with
    | |- if ?r =? 0 then _ else _ =>
        destruct (Z.eqb_spec r 0) as [E|E]; try lia
    end;
    try (split; [reflexivity|];
         repeat match goal with
                | |- Forall _ (_ :: _) =>
                    apply List.Forall_cons;
                    [cbn; intros; first [discriminate | assumption]|]
                | |- Forall _ [] => apply List.Forall_nil
                end);
    try (split; [assumption|];
         first
           [ eexists [_; _; _], r_clk; split; [reflexivity|];
             split; [|left; reflexivity]; reflexivity
           | eexists [_; _], r_clk; split; [reflexivity|];
             split; [|left; reflexivity]; reflexivity
           | eexists [_; _; _; _; _], r_reg; split; [reflexivity|];
             split; [|right; eexists; reflexivity]; reflexivity
           | eexists [_; _; _; _], r_reg; split; [reflexivity|];
             split; [|right; eexists; reflexivity]; reflexivity
           | eexists [_; _; _], r_reg; split; [reflexivity|];
             split; [|right; eexists; reflexivity]; reflexivity ]).
Qed.

(** X21.  [__mia1321_power_on] never returns a positive value and leaves
    the device record alone.  It enables the clock exactly once.  When it
    returns 0 the clock is not disabled again and neither the clock nor the
    regulators reported an error.  Every failure leaves the clock off:
    either [clk_prepare_enable] itself failed, as the last call made, or
    [regulator_bulk_enable] failed and [clk_disable_unprepare] followed as
    the last call; the value returned is that of the failed call. *)
Theorem mia1321_power_on_clock_balance env (w : world) :
  let '(ret, w') := __mia1321_power_on env w in
  exists evs,
    log w' = log w ++ evs /\ dev w' = dev w
    /\ count_calls is_clk_prepare_enable evs = 1%nat
    /\ if ret =? 0 then
         count_calls is_clk_disable_unprepare evs = 0%nat
         /\ Forall (fun e =>
              is_clk_prepare_enable (fst e) || is_regulator_bulk_enable (fst e)
              = true -> 0 <= s32 (rv (snd e))) evs
       else
         ret < 0
         /\ exists pre r,
              s32 (rv r) = ret
              /\ count_calls is_clk_disable_unprepare pre = 0%nat
              /\ (evs = pre ++ [(clk_prepare_enable, r)]
                  \/ exists r',
                       evs = pre ++ [(regulator_bulk_enable MIA1321_NUM_SUPPLIES
                                        (supplies (dev w)), r);
                                     (clk_disable_unprepare, r')]).
Proof. exact (power_on_outcomes env w). Qed.

Lemma mia1321_power_on_dev env (w : world) :
  dev (snd (__mia1321_power_on env w)) = dev w.
Proof.
  pose proof (power_on_outcomes env w) as H.
  destruct (__mia1321_power_on env w) as [ret w'].
  destruct H as (evs & _ & Hdev & _). exact Hdev.
Qed.

(** *** Analogue gain: rounding up *)

Lemma ascending_head a tbl :
  ascending (a :: tbl) = true ->
  ascending tbl = true /\ forall e, In e tbl -> again a < again e.
Proof.
  revert a. induction tbl as [|b tbl IH]; intros a H.
  - split; [reflexivity | intros e []].
  - cbn [ascending] in H. fold (ascending (b :: tbl)) in H.
    apply andb_prop in H. destruct H as [Hab Hb]. apply Z.ltb_lt in Hab.
    split; [exact Hb|]. intros e [<- | He]; [exact Hab|].
    destruct (IH b Hb) as [_ Hlt]. specialize (Hlt e He). lia.
Qed.

Lemma find_ascending_least g tbl e :
  ascending tbl = true ->
  find (fun e => g <=? again e) tbl = Some e ->
  forall e', In e' tbl -> g <= again e' -> again e <= again e'.
Proof.
  induction tbl as [|a tbl IH]; intros Hasc Hfind e' He' Hg; [destruct He'|].
  destruct (ascending_head a tbl Hasc) as [Htl Hlt].
  cbn [find] in Hfind. destruct (g <=? again a) eqn:E.
  - injection Hfind as <-. destruct He' as [<- | He']; [lia|].
    specialize (Hlt e' He'). lia.
  - apply Z.leb_gt in E. destruct He' as [<- | He']; [lia|].
    exact (IH Htl Hfind e' He' Hg).
Qed.

(** X22.  The gain is rounded up to the table: for a request of at most
    25600, [mia1321_set_gain_reg] writes the register triple of the row of
    [mia1321_again] with the smallest gain that is not below the request,
    and not below [MIA1321_GAIN_MIN] = 1500.  The three rows of the table
    below 1500 are therefore never written. *)
Theorem mia1321_set_gain_reg_rounds_up env gain (w : world) :
  0 <= gain <= 25600 ->
  exists e ret r1 r2 r3,
    In e mia1321_again
    /\ gain <= again e /\ 1500 <= again e
    /\ (forall e', In e' mia1321_again ->
          gain <= again e' -> 1500 <= again e' -> again e <= again e')
    /\ mia1321_set_gain_reg env gain w
       = (ret,
          World (dev w)
            (log w ++ [(i2c_master_send [0x00; 0x1b; reg_001b e] 3, r1);
                       (i2c_master_send [0x00; 0x19; reg_0019 e] 3, r2);
                       (i2c_master_send [0x00; 0x18; reg_0018 e] 3, r3)])).
Proof.
  intros Hrange.
  destruct (mia1321_set_gain_reg_in_table env gain w Hrange)
    as (e & ret & r1 & r2 & r3 & Hfind & Hrun).
  exists e, ret, r1, r2, r3.
  pose proof (find_some _ _ Hfind) as [Hin Hle]. apply Z.leb_le in Hle.
  change MIA1321_GAIN_MIN with 1500 in *.
  split; [exact Hin|]. split; [lia|]. split; [lia|]. split; [|exact Hrun].
  intros e' He' H1 H2.
  apply (find_ascending_least (Z.max gain 1500) mia1321_again e);
    [reflexivity | exact Hfind | exact He' | lia].
Qed.

(** *** The current mode *)

(** X23.  [cur_mode] always points into [supported_modes]: it does so
    after [mia1321_probe] has set it to the first entry, and setting a
    format, an ioctl, setting a control, stopping the stream and powering
    on all keep it there. *)
Theorem mia1321_cur_mode_invariant (CONFIG_VIDEO_V4L2_SUBDEV_API : bool) env
    fmt req id v (w : world) :
  In (cur_mode (dev w)) supported_modes ->
  In (cur_mode (dev (snd (mia1321_set_fmt CONFIG_VIDEO_V4L2_SUBDEV_API env
                            fmt w))))
    supported_modes
  /\ In (cur_mode (dev (snd (mia1321_ioctl env req w)))) supported_modes
  /\ In (cur_mode (dev (snd (mia1321_set_ctrl env id v w)))) supported_modes
  /\ In (cur_mode (dev (snd (__mia1321_stop_stream env w)))) supported_modes
  /\ In (cur_mode (dev (snd (__mia1321_power_on env w)))) supported_modes.
Proof.
  intros Hcur.
  destruct (cur_mode_stays_supported CONFIG_VIDEO_V4L2_SUBDEV_API env fmt req
              w Hcur) as [Hfmt Hioctl].
  split; [exact Hfmt|]. split; [exact Hioctl|]. split; [|split].
  - unfold mia1321_set_ctrl, mia1321_enable_test_pattern, mia1321_set_gain_reg.
    destruct (mia1321_again_loop mia1321_again _ _) as [[gh gm] gl].
    destruct id; run_driver;
      match goal with
      | |- context [s32 (rv ?r) =? 0] => destruct (s32 (rv r) =? 0)
      end;
      try destruct (hdr_mode (cur_mode (dev w)) =? NO_HDR);
      run_driver; exact Hcur.
  - unfold __mia1321_stop_stream. rewrite bind_run, get_dev_run.
    destruct (is_thunderboot (dev w)); run_driver; exact Hcur.
  - pose proof (mia1321_power_on_dev env w) as Hdev.
    rewrite Hdev. exact Hcur.
Qed.


(** ** Power management *)

Section PowerProperties.

Variable RKISP_TB_NG : Z.
Variable env : kernel_env2.
Variable __v4l2_ctrl_handler_setup : M Z.

Ltac run_pm :=
  cbv beta iota zeta delta
    [mbind mret M2_bind M2_ret get_dev2 modify_dev2 kcall2 kcall2_int
     kcall2_void when2];
  cbn [dev2 log2 fst snd negb].

(** The regulators asked for are the three named in
    [mia1321_supply_names], and the result is that of
    [devm_regulator_bulk_get]. *)
Lemma mia1321_configure_regulators_supplies (w : world2) :
  let c :=
    inr (devm_regulator_bulk_get 3 ["avdd"; "dovdd"; "dvdd"]%string) in
  mia1321_configure_regulators env w
  = (s32 (rv (env (log2 w) c)),
     World2 (set_supplies ["avdd"; "dovdd"; "dvdd"]%string (dev2 w))
       (log2 w ++ [(c, env (log2 w) c)])).
Proof. reflexivity. Qed.

(** X24.  [__mia1321_power_off] first disables the clock, whatever the
    state.  With thunderboot and before the first stream-off it stops
    there.  Otherwise it drives the power-down line (if there is one) low,
    then the reset line (if there is one) low, selects the sleep pin state
    (if there is one) and disables the regulators, in this order; and
    thunderboot, if it was on, is over. *)
Theorem mia1321_power_off_sequence (w : world2) :
  let d := dev2 w in
  let '(_, w') := __mia1321_power_off env w in
  exists evs,
    log2 w' = log2 w ++ evs
    /\ if is_thunderboot d && negb (is_first_streamoff d) then
         dev2 w' = d /\ map fst evs = [inl clk_disable_unprepare]
       else
         dev2 w'
         = (if is_thunderboot d
            then set_is_first_streamoff false (set_is_thunderboot false d)
            else d)
         /\ map fst evs
            = [inl clk_disable_unprepare]
              ++ (if pwdn_gpio_IS_ERR d then []
                  else [inl (gpiod_set_value_cansleep pwdn_gpio 0)])
              ++ (if reset_gpio_IS_ERR d then []
                  else [inl (gpiod_set_value_cansleep reset_gpio 0)])
              ++ (if pins_sleep_IS_ERR_OR_NULL d then []
                  else [inl (pinctrl_select_state pins_sleep)])
              ++ [inr (regulator_bulk_disable 3 (supplies d))].
Proof.
  unfold __mia1321_power_off. run_pm.
  destruct (is_thunderboot (dev2 w)), (is_first_streamoff (dev2 w));
    run_pm; cbn [andb negb].
  2: { eexists. repeat split; reflexivity. }
  all: destruct (pwdn_gpio_IS_ERR (dev2 w)), (reset_gpio_IS_ERR (dev2 w)),
         (pins_sleep_IS_ERR_OR_NULL (dev2 w));
       run_pm; rewrite <- ?app_assoc; cbn [app];
       eexists; repeat split; reflexivity.
Qed.

Lemma stop_stream_lift (w : world2) :
  let d := dev2 w in
  exists evs r,
    lift env __mia1321_stop_stream w
    = (if acked (i2c_master_send [0x01; 0x26; 0x01] 3, r) then 0 else - EIO,
       World2 (if is_thunderboot d then set_is_first_streamoff true d else d)
         (log2 w ++ evs ++ [(inl (i2c_master_send [0x01; 0x26; 0x01] 3), r)]))
    /\ map fst evs = (if is_thunderboot d then [inl pm_runtime_put] else []).
Proof.
  unfold lift, __mia1321_stop_stream. rewrite bind_run, get_dev_run.
  cbn [dev log].
  destruct (is_thunderboot (dev2 w)); run_driver.
  - eexists [_], _. cbn [map app inl_event fst snd]. split; reflexivity.
  - eexists [], _. cbn [map app inl_event fst snd]. split; reflexivity.
Qed.

(** X25.  Stopping a running stream: [mia1321_s_stream] with [on] = 0 puts
    the sensor into software standby with one write of 1 to 0x0126, drops
    the runtime-PM reference with [pm_runtime_put], clears [streaming] and
    returns 0, also when the write was not acknowledged.  With thunderboot
    one more [pm_runtime_put] comes first and [is_first_streamoff] is set.
    A second stop does nothing at all. *)
Theorem mia1321_s_stream_off (w : world2) :
  streaming (dev2 w) = true ->
  let d := dev2 w in
  exists evs r1 r2,
    mia1321_s_stream RKISP_TB_NG env __v4l2_ctrl_handler_setup 0 w
    = (Some 0,
       World2 (set_streaming false
                 (if is_thunderboot d then set_is_first_streamoff true d
                  else d))
         (log2 w ++ evs
          ++ [(inl (i2c_master_send [0x01; 0x26; 0x01] 3), r1);
              (inl pm_runtime_put, r2)]))
    /\ map fst evs = (if is_thunderboot d then [inl pm_runtime_put] else [])
    /\ let w' := snd (mia1321_s_stream RKISP_TB_NG env
                        __v4l2_ctrl_handler_setup 0 w) in
       mia1321_s_stream RKISP_TB_NG env __v4l2_ctrl_handler_setup 0 w'
       = (Some 0, w').
Proof.
  intros Hon d.
  destruct (stop_stream_lift w) as (evs & r1 & Hstop & Hevs).
  assert (Hrun : exists r2,
    mia1321_s_stream RKISP_TB_NG env __v4l2_ctrl_handler_setup 0 w
    = (Some 0,
       World2 (set_streaming false
                 (if is_thunderboot d then set_is_first_streamoff true d
                  else d))
         (log2 w ++ evs
          ++ [(inl (i2c_master_send [0x01; 0x26; 0x01] 3), r1);
              (inl pm_runtime_put, r2)]))).
  { unfold mia1321_s_stream. run_pm. rewrite Hon.
    change (0 =? 0) with true. cbv iota. change (0 =? 1) with false.
    change (0 =? 0) with true. cbv iota. cbn [negb]. cbv iota.
    rewrite Hstop. run_pm.
    eexists. rewrite <- !app_assoc. reflexivity. }
  destruct Hrun as [r2 Hrun]. exists evs, r1, r2.
  split; [exact Hrun|]. split; [exact Hevs|].
  rewrite Hrun. cbn [snd]. unfold mia1321_s_stream. run_pm.
  reflexivity.
Qed.

(** X26.  Starting the stream without thunderboot: [mia1321_s_stream]
    first takes a runtime-PM reference with [pm_runtime_get_sync].  When
    that fails the reference count is put right with
    [pm_runtime_put_noidle], the error is returned and nothing else
    happens.  Otherwise [__mia1321_start_stream] runs, and it always
    returns: on 0 [streaming] is set and the reference is kept; on an error
    the reference is given back with [pm_runtime_put], the error is
    returned and [streaming] is not set. *)
Theorem mia1321_s_stream_on (on : Z) (w : world2) :
  streaming (dev2 w) = false ->
  on <> 0 ->
  is_thunderboot (dev2 w) = false ->
  In (cur_mode (dev2 w)) supported_modes ->
  let r := env (log2 w) (inr pm_runtime_get_sync) in
  let w1 := World2 (dev2 w) (log2 w ++ [(inr pm_runtime_get_sync, r)]) in
  if s32 (rv r) <? 0 then
    mia1321_s_stream RKISP_TB_NG env __v4l2_ctrl_handler_setup on w
    = (Some (s32 (rv r)),
       World2 (dev2 w)
         (log2 w1 ++ [(inr pm_runtime_put_noidle,
                       env (log2 w1) (inr pm_runtime_put_noidle))]))
  else
    exists ret w2,
      lift env (fun env1 => __mia1321_start_stream env1
                              __v4l2_ctrl_handler_setup) w1
      = (Some ret, w2)
      /\ mia1321_s_stream RKISP_TB_NG env __v4l2_ctrl_handler_setup on w
         = if ret =? 0 then
             (Some 0, World2 (set_streaming true (dev2 w2)) (log2 w2))
           else
             (Some ret,
              World2 (dev2 w2)
                (log2 w2 ++ [(inl pm_runtime_put,
                              env (log2 w2) (inl pm_runtime_put))])).
Proof.
  intros Hoff Hon Htb Hcur r w1.
  unfold mia1321_s_stream. run_pm. rewrite Hoff, Htb.
  apply Z.eqb_neq in Hon. rewrite Hon. change (1 =? 0) with false.
  cbv iota. cbn [negb]. run_pm. fold r.
  destruct (s32 (rv r) <? 0); run_pm; [reflexivity|].
  fold w1.
  pose proof (mia1321_start_stream_defined
                (fun h c => env (log2 w1 ++ map inl_event h) (inl c))
                __v4l2_ctrl_handler_setup (World (dev2 w1) []) Hcur)
    as (ret & w2 & Hrun).
  unfold lift. rewrite Hrun. eexists _, _. split; [reflexivity|].
  cbn [dev2 log2].
  destruct (Z.eqb_spec ret 0) as [-> | Hne]; cbn [negb]; run_pm; reflexivity.
Qed.

(** X27.  [mia1321_s_power] does nothing when the power state asked for
    is the one recorded.  Switching off gives the runtime-PM reference back
    and clears [power_on].  Switching on takes a reference with
    [pm_runtime_get_sync]: when that fails, [pm_runtime_put_noidle] follows,
    the error is returned and [power_on] stays clear; otherwise [power_on]
    is set and no register is written, the table of global registers being
    empty.  The result is then 0 without thunderboot, and with thunderboot
    the value of [pm_runtime_get_sync] as it is. *)
Theorem mia1321_s_power_spec (on : Z) (w : world2) :
  let d := dev2 w in
  let r := env (log2 w) (inr pm_runtime_get_sync) in
  let w1 := World2 d (log2 w ++ [(inr pm_runtime_get_sync, r)]) in
  let res := mia1321_s_power env on w in
  if eqb (power_on d) (negb (on =? 0)) then res = (Some 0, w)
  else if on =? 0 then
    res = (Some 0,
           World2 (set_power_on false d)
             (log2 w ++ [(inl pm_runtime_put, env (log2 w) (inl pm_runtime_put))]))
  else if s32 (rv r) <? 0 then
    res = (Some (s32 (rv r)),
           World2 d
             (log2 w1 ++ [(inr pm_runtime_put_noidle,
                           env (log2 w1) (inr pm_runtime_put_noidle))]))
  else
    res = (Some (if is_thunderboot d then s32 (rv r) else 0),
           World2 (set_power_on true d) (log2 w1)).
Proof.
  intros d r w1 res. subst res. unfold mia1321_s_power. run_pm. fold d.
  destruct (eqb (power_on d) (negb (on =? 0))); [reflexivity|].
  destruct (on =? 0); cbn [negb]; run_pm; [reflexivity|].
  fold r. destruct (s32 (rv r) <? 0); run_pm; [reflexivity|].
  destruct (is_thunderboot d); cbn [negb andb]; run_pm; [reflexivity|].
  unfold lift. cbn. rewrite app_nil_r. reflexivity.
Qed.

Ltac handover_end :=
  (split; [reflexivity|]); (split; [reflexivity|]);
  rewrite <- ?app_assoc; cbn [app]; split; reflexivity.

(** X28.  The end of thunderboot: on a streaming thunderboot device,
    stopping the stream and then suspending the device
    ([mia1321_runtime_suspend]) powers the sensor fully down, the last call
    being [regulator_bulk_disable], and leaves the device out of thunderboot
    mode, not streaming, with [is_first_streamoff] clear again.  Stopping
    the stream has dropped two runtime-PM references on the way. *)
Theorem mia1321_thunderboot_handover (w : world2) :
  streaming (dev2 w) = true ->
  is_thunderboot (dev2 w) = true ->
  let '(ret1, w1) :=
    mia1321_s_stream RKISP_TB_NG env __v4l2_ctrl_handler_setup 0 w in
  let '(ret2, w2) := mia1321_runtime_suspend env w1 in
  ret1 = Some 0 /\ ret2 = 0
  /\ is_thunderboot (dev2 w2) = false
  /\ is_first_streamoff (dev2 w2) = false
  /\ streaming (dev2 w2) = false
  /\ exists evs1 evs2 r,
       log2 w1 = log2 w ++ evs1
       /\ map fst evs1
          = [inl pm_runtime_put;
             inl (i2c_master_send [0x01; 0x26; 0x01] 3);
             inl pm_runtime_put]
       /\ log2 w2
          = log2 w1 ++ evs2
            ++ [(inr (regulator_bulk_disable 3 (supplies (dev2 w))), r)]
       /\ head (map fst evs2) = Some (inl clk_disable_unprepare).
Proof.
  intros Hon Htb.
  destruct (stop_stream_lift w) as (evs & r1 & Hstop & Hevs).
  rewrite Htb in Hstop, Hevs.
  destruct evs as [|[c0 r0] [|? ?]]; try discriminate Hevs.
  injection Hevs as ->.
  unfold mia1321_s_stream. run_pm. rewrite Hon.
  change (0 =? 0) with true. cbv iota. change (0 =? 1) with false.
  change (0 =? 0) with true. cbv iota. cbn [negb]. cbv iota.
  rewrite Hstop. run_pm.
  unfold mia1321_runtime_suspend, __mia1321_power_off. run_pm.
  cbn [is_thunderboot is_first_streamoff set_streaming set_is_first_streamoff
       pwdn_gpio_IS_ERR reset_gpio_IS_ERR pins_sleep_IS_ERR_OR_NULL supplies].
  rewrite Htb. run_pm.
  destruct (pwdn_gpio_IS_ERR (dev2 w)), (reset_gpio_IS_ERR (dev2 w)),
    (pins_sleep_IS_ERR_OR_NULL (dev2 w));
    run_pm; rewrite <- ?app_assoc; cbn [app];
    (do 5 (split; [reflexivity|]));
    first
      [ solve [eexists _, [_], _; handover_end]
      | solve [eexists _, [_; _], _; handover_end]
      | solve [eexists _, [_; _; _], _; handover_end]
      | solve [eexists _, [_; _; _; _], _; handover_end] ].
Qed.

End PowerProperties.

End MoreProperties.

(** ** More of the theorems at work, on the Linux 5.10 values *)

(** The standby write of [__mia1321_stop_stream], on a bus that
    acknowledges. *)
Lemma mia1321_write_reg_frame_witness :
  0 <= 1
  /\ mia1321_write_reg (K := linux) env_ok 0x0126 1 0x01 world0
     = (0, World dev0 [(i2c_master_send [0x01; 0x26; 0x01] 3, Reply 3 [])])
  /\ Z.of_nat (length (write_frame 0x0126 1 0x01)) = 3
  /\ Forall (fun b => 0 <= b < 256) (write_frame 0x0126 1 0x01).
Proof.
  assert (H : 0 <= 1) by lia.
  split; [exact H|].
  exact (mia1321_write_reg_frame (K := linux) env_ok 0x0126 1 0x01 world0 H).
Defined.

(** The read of the chip identifier, two bytes. *)
Lemma mia1321_read_reg_spec_witness :
  0 <= 2
  /\ exists ret val w',
       mia1321_read_reg (K := linux) env_ok 0x0011 2 0 world0
       = ((ret, val), w')
       /\ w' = World dev0
                 [(i2c_transfer [0x00; 0x11] 2, Reply 2 [0x04; 0x00])]
       /\ ((ret = 0 /\ 0 <= val < 2 ^ (8 * 2))
           \/ (ret = - 5 /\ val = 0)).
Proof.
  assert (H : 0 <= 2) by lia.
  split; [exact H|].
  eexists _, _, _. split; [reflexivity|].
  exact (mia1321_read_reg_spec (K := linux) env_ok 0x0011 2 0 world0 H).
Defined.

(** 0x1234 written to a 16-bit register and read back. *)
Lemma mia1321_write_read_round_trip_witness :
  1 <= 2 <= 4
  /\ s32 (rv (env_reads_1234 (log world0) (i2c_transfer [0x00; 0x11] 2))) = 2
  /\ rdata (env_reads_1234 (log world0) (i2c_transfer [0x00; 0x11] 2))
     = drop 2 (write_frame 0x0011 2 0x1234)
  /\ fst (mia1321_read_reg (K := linux) env_reads_1234 0x0011 2 0 world0)
     = (0, 0x1234 mod 2 ^ (8 * 2)).
Proof.
  assert (H1 : 1 <= 2 <= 4) by lia.
  assert (H2 : s32 (rv (env_reads_1234 (log world0)
                          (i2c_transfer [0x00; 0x11] 2))) = 2)
    by reflexivity.
  assert (H3 : rdata (env_reads_1234 (log world0)
                        (i2c_transfer [0x00; 0x11] 2))
               = drop 2 (write_frame 0x0011 2 0x1234)) by reflexivity.
  split; [exact H1|]. split; [exact H2|]. split; [exact H3|].
  exact (mia1321_write_read_round_trip (K := linux) env_reads_1234 0x0011 2
           0x1234 0 world0 H1 H2 H3).
Defined.

(** The horizontal flip switched on, the register 0x0099 reading 1. *)
Lemma mia1321_set_ctrl_hflip_witness :
  s32 (rv (env_reads_1 (log world0) pm_runtime_get_if_in_use)) <> 0
  /\ read8 (Reply 2 [0x01]) = 1
  /\ exists r2 r3 r4,
       mia1321_set_ctrl (K := linux) env_reads_1 V4L2_CID_HFLIP 1 world0
       = (0,
          World (set_orientation false true dev0)
            [(pm_runtime_get_if_in_use, Reply 1 []);
             (i2c_transfer [0x00; 0x99] 1, Reply 2 [0x01]);
             (i2c_master_send [0x00; 0x99; 0] 3, r2);
             (i2c_master_send [0x00; 0x9a; 1] 3, r3);
             (pm_runtime_put, r4)]).
Proof.
  assert (H1 : s32 (rv (env_reads_1 (log world0) pm_runtime_get_if_in_use))
               <> 0) by discriminate.
  assert (H2 : read8 (Reply 2 [0x01]) = 1) by reflexivity.
  split; [exact H1|]. split; [exact H2|].
  exact (mia1321_set_ctrl_hflip (K := linux) env_reads_1 1 world0 H1
           (or_intror H2)).
Defined.

(** The vertical flip switched on, the register 0x009a reading 1. *)
Lemma mia1321_set_ctrl_vflip_witness :
  s32 (rv (env_reads_1 (log world0) pm_runtime_get_if_in_use)) <> 0
  /\ read8 (Reply 2 [0x01]) = 1
  /\ exists r2 r3 r4,
       mia1321_set_ctrl (K := linux) env_reads_1 V4L2_CID_VFLIP 1 world0
       = (0,
          World (set_orientation true true dev0)
            [(pm_runtime_get_if_in_use, Reply 1 []);
             (i2c_transfer [0x00; 0x9a] 1, Reply 2 [0x01]);
             (i2c_master_send [0x00; 0x99; 1] 3, r2);
             (i2c_master_send [0x00; 0x9a; 1] 3, r3);
             (pm_runtime_put, r4)]).
Proof.
  assert (H1 : s32 (rv (env_reads_1 (log world0) pm_runtime_get_if_in_use))
               <> 0) by discriminate.
  assert (H2 : read8 (Reply 2 [0x01]) = 1) by reflexivity.
  split; [exact H1|]. split; [exact H2|].
  exact (mia1321_set_ctrl_vflip (K := linux) env_reads_1 1 world0 H1
           (or_intror H2)).
Defined.

(** 640x480 set as the active format, and the format asked for again. *)
Lemma mia1321_set_get_fmt_witness :
  which (fmt_vga 1) <> V4L2_SUBDEV_FORMAT_TRY (Kernel := linux)
  /\ let '((ret, fmt'), w') :=
       mia1321_set_fmt (K := linux) true env_ok (fmt_vga 1) world0 in
     let '((ret2, fmt2', reserved0'), w'') :=
       mia1321_get_fmt (K := linux) true (fun _ => format (fmt_vga 1))
         (fmt_vga 1) 7 w' in
     ret = 0 /\ ret2 = 0
     /\ format fmt2' = format fmt'
     /\ which fmt2' = 1 /\ pad fmt2' = 0
     /\ reserved0' = 0x10
     /\ w'' = w'.
Proof.
  assert (H : which (fmt_vga 1) <> V4L2_SUBDEV_FORMAT_TRY (Kernel := linux))
    by discriminate.
  split; [exact H|].
  exact (mia1321_set_get_fmt (K := linux) true env_ok
           (fun _ => format (fmt_vga 1)) (fmt_vga 1) (fmt_vga 1) 7
           world0 H H).
Defined.

(** The one media-bus code of the first mode, and its frame size. *)
Lemma mia1321_enum_mbus_code_spec_witness :
  In (cur_mode (dev world0)) (supported_modes (K := linux))
  /\ 0 <= 0 < 3
  /\ mia1321_enum_mbus_code (K := linux)
       {| mce_index := 0; mce_code := 0 |} world0
     = ((0, {| mce_index := 0; mce_code := 0x300a |}), world0)
  /\ fst (mia1321_enum_frame_sizes (K := linux)
            {| fse_index := 0; fse_code := 0x300a;
               min_width := 0; max_width := 0;
               min_height := 0; max_height := 0 |}) = 0.
Proof.
  assert (H : 0 <= 0 < 3) by lia.
  split; [exact dev0_cur_mode_supported|]. split; [exact H|].
  pose proof (mia1321_enum_mbus_code_spec (K := linux)
                {| mce_index := 0; mce_code := 0 |}
                {| fse_index := 0; fse_code := 0;
                   min_width := 0; max_width := 0;
                   min_height := 0; max_height := 0 |}
                world0 dev0_cur_mode_supported H) as Hspec.
  cbv beta iota zeta delta [mia1321_enum_mbus_code] in Hspec.
  split; [reflexivity|]. exact (proj2 (proj2 (proj2 Hspec))).
Defined.

(** The second entry of the frame-interval enumeration. *)
Lemma mia1321_enum_frame_interval_spec_witness :
  0 <= 1
  /\ exists m,
       supported_modes (K := linux) !! Z.to_nat 1 = Some m
       /\ fst (mia1321_enum_frame_interval (K := linux)
                 {| fie_index := 1; fie_code := 0; fie_width := 0;
                    fie_height := 0;
                    fie_interval := {| numerator := 0; denominator := 0 |};
                    fie_reserved0 := 7 |}) = 0
       /\ snd (mia1321_enum_frame_interval (K := linux)
                 {| fie_index := 1; fie_code := 0; fie_width := 0;
                    fie_height := 0;
                    fie_interval := {| numerator := 0; denominator := 0 |};
                    fie_reserved0 := 7 |})
          = {| fie_index := 1; fie_code := bus_fmt m;
               fie_width := 1280; fie_height := 1080;
               fie_interval := max_fps m; fie_reserved0 := 0 |}.
Proof.
  assert (H : 0 <= 1) by lia.
  split; [exact H|].
  destruct (mia1321_enum_frame_interval_spec (K := linux)
              {| fie_index := 1; fie_code := 0; fie_width := 0;
                 fie_height := 0;
                 fie_interval := {| numerator := 0; denominator := 0 |};
                 fie_reserved0 := 7 |} H) as (m & Hm & Hret & Hfie & _).
  exists m. split; [exact Hm|]. split; [exact Hret | exact Hfie].
Defined.

(** The frame interval after 640x480 was set as the active format. *)
Lemma mia1321_g_frame_interval_after_set_fmt_witness :
  which (fmt_vga 1) <> V4L2_SUBDEV_FORMAT_TRY (Kernel := linux)
  /\ fst (mia1321_g_frame_interval
            (snd (mia1321_set_fmt (K := linux) true env_ok (fmt_vga 1)
                    world0)))
     = (0, {| numerator := 10000; denominator := 600000 |}).
Proof.
  assert (H : which (fmt_vga 1) <> V4L2_SUBDEV_FORMAT_TRY (Kernel := linux))
    by discriminate.
  split; [exact H|].
  exact (f_equal fst
           (proj1 (mia1321_g_frame_interval_after_set_fmt (K := linux) true
                     env_ok (fmt_vga 1) world0 H))).
Defined.

(** A request for the linear mode, then the configuration read back. *)
Lemma mia1321_ioctl_set_hdr_cfg_NO_HDR_witness :
  In (cur_mode (dev world0)) (supported_modes (K := linux))
  /\ cfg_hdr_mode {| cfg_hdr_mode := 0; cfg_esp_mode := 0 |}
     = NO_HDR (Kernel := linux)
  /\ exists r1 r2,
       mia1321_ioctl (K := linux) env_ok
         (RKMODULE_SET_HDR_CFG {| cfg_hdr_mode := 0; cfg_esp_mode := 0 |})
         world0
       = ((0, RKMODULE_SET_HDR_CFG {| cfg_hdr_mode := 0; cfg_esp_mode := 0 |}),
          World dev0
            [(__v4l2_ctrl_modify_range ctrl_hblank 1384 1384 1 1384, r1);
             (__v4l2_ctrl_modify_range ctrl_vblank 120 64455 1 120, r2)]).
Proof.
  assert (H : cfg_hdr_mode {| cfg_hdr_mode := 0; cfg_esp_mode := 0 |}
              = NO_HDR (Kernel := linux)) by reflexivity.
  split; [exact dev0_cur_mode_supported|]. split; [exact H|].
  destruct (mia1321_ioctl_set_hdr_cfg_NO_HDR (K := linux) env_ok
              {| cfg_hdr_mode := 0; cfg_esp_mode := 0 |}
              {| cfg_hdr_mode := 0; cfg_esp_mode := 0 |}
              world0 dev0_cur_mode_supported H) as (r1 & r2 & Hset & _).
  exists r1, r2. exact Hset.
Defined.

(** The names of the module as user space gets them. *)
Lemma mia1321_ioctl_get_module_info_witness :
  (0 < RKMODULE_NAME_LEN (Kernel := linux))%nat
  /\ exists inf,
       mia1321_ioctl (K := linux) env_ok
         (RKMODULE_GET_MODULE_INFO
            {| inf_sensor := ""; inf_module := ""; inf_lens := "" |})
         world0
       = ((0, RKMODULE_GET_MODULE_INFO inf), world0)
       /\ String.prefix (inf_sensor inf) "mia1321" = true
       /\ (String.length (inf_module inf) < 32)%nat.
Proof.
  assert (H : (0 < RKMODULE_NAME_LEN (Kernel := linux))%nat)
    by (apply Nat.ltb_lt; reflexivity).
  split; [exact H|].
  destruct (mia1321_ioctl_get_module_info (K := linux) env_ok
              {| inf_sensor := ""; inf_module := ""; inf_lens := "" |}
              world0 H) as (inf & Hrun & Hnames).
  exists inf. split; [exact Hrun|].
  apply Forall_cons_1 in Hnames. destruct Hnames as [(_ & Hp & _) Hnames].
  apply Forall_cons_1 in Hnames. destruct Hnames as [(Hl & _) _].
  split; [exact Hp | exact Hl].
Defined.

(** Starting the stream on a bus where nothing answers: the first write of
    the table fails. *)
Lemma mia1321_start_stream_table_error_witness :
  is_thunderboot (dev world0) = false
  /\ mia1321_write_array (K := linux) env_no_sensor
       (reg_list (cur_mode (dev world0))) world0
     = (Some (- 5),
        World dev0 [(i2c_master_send [0x01; 0x1d; 0x00] 3, Reply (-6) [])])
  /\ - 5 <> 0
  /\ __mia1321_start_stream (K := linux) env_no_sensor handler_idle world0
     = (Some (- 5),
        World dev0 [(i2c_master_send [0x01; 0x1d; 0x00] 3, Reply (-6) [])]).
Proof.
  assert (H1 : is_thunderboot (dev world0) = false) by reflexivity.
  assert (H2 : mia1321_write_array (K := linux) env_no_sensor
                 (reg_list (cur_mode (dev world0))) world0
               = (Some (- 5),
                  World dev0 [(i2c_master_send [0x01; 0x1d; 0x00] 3,
                               Reply (-6) [])])) by reflexivity.
  assert (H3 : - 5 <> 0) by discriminate.
  split; [exact H1|]. split; [exact H2|]. split; [exact H3|].
  exact (proj1 (mia1321_start_stream_table_error (K := linux) env_no_sensor
                  handler_idle world0 _ (- 5) H1 H2 H3)).
Defined.

(** Powering on a sensor that the boot loader left running. *)
Lemma mia1321_power_on_thunderboot_witness :
  is_thunderboot (dev world_tb) = true
  /\ exists evs r_clk,
       __mia1321_power_on env_ok world_tb
       = (if s32 (rv r_clk) <? 0 then s32 (rv r_clk) else 0,
          World (dev world_tb) (evs ++ [(clk_prepare_enable, r_clk)]))
       /\ map fst evs
          = [pinctrl_select_state pins_default; clk_set_rate 26000000;
             clk_get_rate].
Proof.
  assert (H : is_thunderboot (dev world_tb) = true) by reflexivity.
  split; [exact H|].
  exact (mia1321_power_on_thunderboot env_ok world_tb H).
Defined.

(** The 8192 cycles of [__mia1321_power_on]: 316 us. *)
Lemma mia1321_cal_delay_ceil_witness :
  0 <= 8192 <= 2 ^ 32 - 26
  /\ 8192 <= mia1321_cal_delay 8192 * 26 < 8192 + 26.
Proof.
  assert (H : 0 <= 8192 <= 2 ^ 32 - 26) by lia.
  split; [exact H|].
  exact (proj1 (mia1321_cal_delay_ceil 8192 H)).
Defined.

(** A gain of 2000 is served by the row of 2200. *)
Lemma mia1321_set_gain_reg_rounds_up_witness :
  0 <= 2000 <= 25600
  /\ exists e ret r1 r2 r3,
       In e mia1321_again
       /\ 2000 <= again e
       /\ (forall e', In e' mia1321_again ->
             2000 <= again e' -> 1500 <= again e' -> again e <= again e')
       /\ mia1321_set_gain_reg (K := linux) env_ok 2000 world0
          = (ret,
             World dev0
               [(i2c_master_send [0x00; 0x1b; reg_001b e] 3, r1);
                (i2c_master_send [0x00; 0x19; reg_0019 e] 3, r2);
                (i2c_master_send [0x00; 0x18; reg_0018 e] 3, r3)]).
Proof.
  assert (H : 0 <= 2000 <= 25600) by lia.
  split; [exact H|].
  destruct (mia1321_set_gain_reg_rounds_up (K := linux) env_ok 2000 world0 H)
    as (e & ret & r1 & r2 & r3 & Hin & Hle & _ & Hleast & Hrun).
  exists e, ret, r1, r2, r3.
  split; [exact Hin|]. split; [exact Hle|]. split; [exact Hleast|].
  exact Hrun.
Defined.

(** The device as probed stays on a supported mode. *)
Lemma mia1321_cur_mode_invariant_witness :
  In (cur_mode (dev world0)) (supported_modes (K := linux))
  /\ In (cur_mode (dev (snd (mia1321_set_fmt (K := linux) true env_ok
                               (fmt_vga 1) world0))))
       (supported_modes (K := linux))
  /\ In (cur_mode (dev (snd (mia1321_ioctl (K := linux) env_ok
                               (RKMODULE_SET_QUICK_STREAM 1) world0))))
       (supported_modes (K := linux))
  /\ In (cur_mode (dev (snd (mia1321_set_ctrl (K := linux) env_ok
                               V4L2_CID_VBLANK 120 world0))))
       (supported_modes (K := linux)).
Proof.
  split; [exact dev0_cur_mode_supported|].
  destruct (mia1321_cur_mode_invariant (K := linux) true env_ok (fmt_vga 1)
              (RKMODULE_SET_QUICK_STREAM 1) V4L2_CID_VBLANK 120 world0
              dev0_cur_mode_supported) as (Hfmt & Hioctl & Hctrl & _).
  split; [exact Hfmt|]. split; [exact Hioctl | exact Hctrl].
Defined.

(** Stopping the stream on [dev0]. *)
Lemma mia1321_s_stream_off_witness :
  streaming (dev2 world2_streaming) = true
  /\ exists r1 r2,
       mia1321_s_stream (K := linux) 0 env2_ok handler_idle 0 world2_streaming
       = (Some 0,
          World2 dev0
            [(inl (i2c_master_send [0x01; 0x26; 0x01] 3), r1);
             (inl pm_runtime_put, r2)]).
Proof.
  assert (H : streaming (dev2 world2_streaming) = true) by reflexivity.
  split; [exact H|].
  destruct (mia1321_s_stream_off (K := linux) 0 env2_ok handler_idle
              world2_streaming H) as (evs & r1 & r2 & Hrun & Hevs & _).
  exists r1, r2. rewrite Hrun.
  destruct evs; [reflexivity | discriminate Hevs].
Defined.

(** Starting the stream on [dev0]. *)
Lemma mia1321_s_stream_on_witness :
  streaming (dev2 world2_0) = false
  /\ 1 <> 0
  /\ is_thunderboot (dev2 world2_0) = false
  /\ In (cur_mode (dev2 world2_0)) (supported_modes (K := linux))
  /\ exists w2,
       mia1321_s_stream (K := linux) 0 env2_ok handler_idle 1 world2_0
       = (Some 0, World2 (set_streaming true dev0) (log2 w2)).
Proof.
  assert (H1 : streaming (dev2 world2_0) = false) by reflexivity.
  assert (H2 : 1 <> 0) by discriminate.
  assert (H3 : is_thunderboot (dev2 world2_0) = false) by reflexivity.
  split; [exact H1|]. split; [exact H2|]. split; [exact H3|].
  split; [exact dev0_cur_mode_supported|].
  destruct (mia1321_s_stream_on (K := linux) 0 env2_ok handler_idle 1
              world2_0 H1 H2 H3 dev0_cur_mode_supported)
    as (ret & w2 & Hstart & Hrun).
  exists w2. rewrite Hrun.
  assert (Hret : (Some ret, w2).1 = Some 0 /\ dev2 (Some ret, w2).2 = dev0)
    by (rewrite <- Hstart; vm_compute; split; reflexivity).
  cbn [fst snd] in Hret. destruct Hret as [Hret Hdev].
  injection Hret as ->. cbn [Z.eqb]. rewrite Hdev. reflexivity.
Defined.

(** The boot loader's stream stopped and the device suspended. *)
Lemma mia1321_thunderboot_handover_witness :
  streaming (dev2 world2_tb) = true
  /\ is_thunderboot (dev2 world2_tb) = true
  /\ let '(ret1, w1) :=
       mia1321_s_stream (K := linux) 0 env2_ok handler_idle 0 world2_tb in
     let '(ret2, w2) := mia1321_runtime_suspend env2_ok w1 in
     ret1 = Some 0 /\ ret2 = 0
     /\ is_thunderboot (dev2 w2) = false
     /\ is_first_streamoff (dev2 w2) = false
     /\ streaming (dev2 w2) = false
     /\ exists evs1 evs2 r,
          log2 w1 = log2 world2_tb ++ evs1
          /\ map fst evs1
             = [inl pm_runtime_put;
                inl (i2c_master_send [0x01; 0x26; 0x01] 3);
                inl pm_runtime_put]
          /\ log2 w2
             = log2 w1 ++ evs2
               ++ [(inr (regulator_bulk_disable 3 (supplies (dev2 world2_tb))),
                    r)]
          /\ head (map fst evs2) = Some (inl clk_disable_unprepare).
Proof.
  assert (H1 : streaming (dev2 world2_tb) = true) by reflexivity.
  assert (H2 : is_thunderboot (dev2 world2_tb) = true) by reflexivity.
  split; [exact H1|]. split; [exact H2|].
  exact (mia1321_thunderboot_handover (K := linux) 0 env2_ok handler_idle
           world2_tb H1 H2).
Defined.
